(** * mcp2plugin: a shallow embedding of the converter and its specification

    Part I embeds the Python package, one module per source file:
    - [Py]: the [str] and [list] methods of the Python runtime the code uses;
    - [Re]: the fragment of Python's [re] module its patterns are written in,
      as a backtracking matcher;
    - [url_parser], [models], [plugin_generator], [marketplace], [base],
      [fastmcp], [smithery], [gemini], [converter]: the package's modules;
    - [Fs], [Ext], [Eff]: paths and files, the libraries and services the
      package calls (pydantic and [json], BeautifulSoup, the network and the
      model), and the effects of a call: the requests sent and the state of
      the disk, with exceptions.

    Part II holds the vocabulary in which the properties are stated, and
    concrete stand-ins for the libraries.  Part III proves the properties.

    A Python [str] is a sequence of Unicode code points.  The ASCII part of
    every character table is written out; what the runtime's Unicode
    database says beyond ASCII is a parameter ([UnicodeDB]). *)

From Stdlib Require Import String Ascii List NArith Bool Arith Lia.
Import ListNotations.
Local Open Scope list_scope.
Set Warnings "-register-all,-automation,-abstract-large-number".


(** ** Strings *)

Definition char := N.
Definition str := list char.

Definition chr (a : ascii) : char := N_of_ascii a.
Arguments chr a%_char.

(** [u "text"] is the Python literal ["text"] (ASCII literals only). *)
Fixpoint u (s : string) : str :=
  match s with
  | EmptyString => []
  | String a s' => chr a :: u s'
  end.
Arguments u s%_string.

(** What the interpreter's Unicode database decides for code points outside
    ASCII.  Nothing is assumed about these tables. *)
Class UnicodeDB := {
  (** [s.lower()] for a string that holds a non-ASCII code point *)
  uni_lower : str -> str;
  (** [c.isalnum()] for a non-ASCII code point (the non-ASCII part of [\w]) *)
  uni_alnum : char -> bool;
  (** category Nd for a non-ASCII code point (the non-ASCII part of [\d]) *)
  uni_decimal : char -> bool;
  (** [c.isspace()] for a non-ASCII code point (the non-ASCII part of [\s]) *)
  uni_space : char -> bool;
  (** under [re.IGNORECASE], whether a pattern character matches a text
      character when one of the two is not ASCII *)
  uni_ieq : char -> char -> bool
}.

(** The database in which no code point outside ASCII is cased, alphanumeric,
    a digit or a space.  It agrees with every database on ASCII text and is
    used to evaluate the definitions on concrete ASCII inputs. *)
Definition ascii_db : UnicodeDB :=
  {| uni_lower := fun s => s;
     uni_alnum := fun _ => false;
     uni_decimal := fun _ => false;
     uni_space := fun _ => false;
     uni_ieq := N.eqb |}.

Module Py.

Definition is_ascii (c : char) : bool := (c <? 128)%N.

Definition in_range (lo hi c : char) : bool := ((lo <=? c) && (c <=? hi))%N.

Definition ascii_upper_letter (c : char) : bool := in_range (chr "A") (chr "Z") c.
Definition ascii_lower_letter (c : char) : bool := in_range (chr "a") (chr "z") c.
Definition ascii_digit (c : char) : bool := in_range (chr "0") (chr "9") c.

Definition ascii_lower (c : char) : char :=
  if ascii_upper_letter c then (c + 32)%N else c.

(** ASCII white space as [str.isspace] has it: TAB, LF, VT, FF, CR, the four
    separators FS, GS, RS, US, and the space. *)
Definition ascii_space (c : char) : bool :=
  in_range 9%N 13%N c || in_range 28%N 31%N c || (c =? 32)%N.

Definition ascii_word (c : char) : bool :=
  ascii_lower_letter c || ascii_upper_letter c || ascii_digit c || (c =? chr "_")%N.

Fixpoint starts_with (p s : str) : bool :=
  match p, s with
  | [], _ => true
  | a :: p', b :: s' => (a =? b)%N && starts_with p' s'
  | _ :: _, [] => false
  end.

(** [p in s] *)
Fixpoint contains (p s : str) : bool :=
  starts_with p s ||
  match s with
  | [] => false
  | _ :: s' => contains p s'
  end.

(** [s.endswith(p)] *)
Definition ends_with (p s : str) : bool := starts_with (rev p) (rev s).

(** [a == b] *)
Fixpoint str_eqb (a b : str) : bool :=
  match a, b with
  | [], [] => true
  | x :: a', y :: b' => (x =? y)%N && str_eqb a' b'
  | _, _ => false
  end.

(** [x in l] for a list of strings *)
Definition mem (x : str) (l : list str) : bool := existsb (str_eqb x) l.

(** [s.replace(a, b)] for a one-character [a] *)
Definition replace_char (a : char) (b : str) (s : str) : str :=
  flat_map (fun c => if (c =? a)%N then b else [c]) s.

Fixpoint lstrip_with (p : char -> bool) (s : str) : str :=
  match s with
  | c :: s' => if p c then lstrip_with p s' else s
  | [] => []
  end.

Definition rstrip_with (p : char -> bool) (s : str) : str :=
  rev (lstrip_with p (rev s)).

(** [s.strip(chars)] for a one-character [chars] *)
Definition strip_char (a : char) (s : str) : str :=
  rstrip_with (N.eqb a) (lstrip_with (N.eqb a) s).

(** [sep.join(parts)] *)
Fixpoint join (sep : str) (parts : list str) : str :=
  match parts with
  | [] => []
  | [p] => p
  | p :: rest => p ++ sep ++ join sep rest
  end.

(** [bool(x)] for an optional object (a match, an element) *)
Definition is_some {A} (o : option A) : bool :=
  match o with Some _ => true | None => false end.

(** Truthiness of a [str] or a [list]: non-empty. *)
Definition truthy {A} (l : list A) : bool :=
  match l with [] => false | _ :: _ => true end.

(** [a or b] on strings and lists *)
Definition or_else {A} (a b : list A) : list A := if truthy a then a else b.

Section WithUnicode.
Context {db : UnicodeDB}.

Definition is_space (c : char) : bool :=
  if is_ascii c then ascii_space c else uni_space c.

Definition is_word (c : char) : bool :=
  if is_ascii c then ascii_word c else uni_alnum c.

Definition is_digit (c : char) : bool :=
  if is_ascii c then ascii_digit c else uni_decimal c.

(** [s.lower()] *)
Definition lower (s : str) : str :=
  if forallb is_ascii s then map ascii_lower s else uni_lower s.

(** [s.strip()] *)
Definition strip (s : str) : str :=
  rstrip_with is_space (lstrip_with is_space s).

(** how [re.IGNORECASE] compares a pattern character with a text character *)
Definition char_ieq (c x : char) : bool :=
  if is_ascii c && is_ascii x then (ascii_lower c =? ascii_lower x)%N
  else uni_ieq c x.
End WithUnicode.

End Py.

(** ** The fragment of [re] the program's patterns are written in *)

Module Re.

(** An item of a character set. *)
Inductive cls :=
| CChar (c : char)          (* a literal character *)
| CRange (lo hi : char)     (* lo-hi *)
| CWord                     (* \w *)
| CSpace                    (* \s *)
| CDigit.                   (* \d *)

(** A pattern that consumes exactly one character. *)
Inductive single :=
| SChar (c : char)                        (* a literal, or an escaped one *)
| SAny                                    (* . *)
| SSet (neg : bool) (items : list cls).   (* [...] and [^...]; \w is [\w] *)

(** Repetition is only ever applied to one-character patterns in this
    program, which keeps the matcher structurally recursive. *)
Inductive regex :=
| Eps
| One (a : single)
| Seq (r1 r2 : regex)
| Alt (r1 r2 : regex)        (* r1|r2 *)
| Opt (r : regex)            (* r? *)
| Star (a : single)          (* a* *)
| Plus (a : single)          (* a+ *)
| Group (i : nat) (r : regex)   (* the i-th capturing group *)
| Dollar.                    (* $ *)

Definition Cat (rs : list regex) : regex := fold_right Seq Eps rs.
Definition lit (s : str) : regex := fold_right (fun c r => Seq (One (SChar c)) r) Eps s.
Definition Lit (s : string) : regex := lit (u s).
Arguments Lit s%_string.
Definition Alts (rs : list regex) : regex :=
  match rs with
  | [] => Eps
  | r :: rest => fold_left Alt rest r
  end.

Definition caps := list (nat * str).

Fixpoint lookup (i : nat) (g : caps) : option str :=
  match g with
  | [] => None
  | (j, s) :: g' => if Nat.eqb i j then Some s else lookup i g'
  end.

(** A match object: where the match starts in the searched string, the
    matched text, and the groups. *)
Record Match := { m_start : nat; m_text : str; m_groups : caps }.

(** [m.group(i)] *)
Definition group (i : nat) (m : Match) : option str :=
  match i with
  | 0 => Some (m_text m)
  | _ => lookup i (m_groups m)
  end.

Definition shift (m : Match) : Match :=
  {| m_start := S (m_start m); m_text := m_text m; m_groups := m_groups m |}.

(** [m.group(i)] of a group that took part in the match *)
Definition group_text (i : nat) (m : Match) : str :=
  match group i m with Some t => t | None => [] end.

(** What [re.sub] writes for a piece of the scanned text: the replacement
    for a match, the text itself between matches. *)
Definition emit (repl : str) (p : str + Match) : str :=
  match p with inl t => t | inr _ => repl end.

(** [re.compile(pattern, flags)]: a pattern with its [re.IGNORECASE] flag *)
Record Pattern := { pat : regex; ignorecase : bool }.

Section Matcher.
Context {db : UnicodeDB}.
(** [ic] is the flag [re.IGNORECASE].  It bears on literal characters; no
    pattern compiled with it holds a range. *)
Variable ic : bool.

Definition cls_match (x : char) (it : cls) : bool :=
  match it with
  | CChar c => if ic then Py.char_ieq c x else (c =? x)%N
  | CRange lo hi => Py.in_range lo hi x
  | CWord => Py.is_word x
  | CSpace => Py.is_space x
  | CDigit => Py.is_digit x
  end.

Definition single_match (a : single) (x : char) : bool :=
  match a with
  | SChar c => if ic then Py.char_ieq c x else (c =? x)%N
  | SAny => negb (x =? 10)%N
  | SSet neg items => xorb neg (existsb (cls_match x) items)
  end.

(** Greedy repetition with backtracking: the longest run first. *)
Fixpoint star_k {A} (p : char -> bool) (s : str) (k : str -> option A) : option A :=
  match s with
  | c :: s' =>
      if p c then
        match star_k p s' k with
        | Some r => Some r
        | None => k s
        end
      else k s
  | [] => k []
  end.

(** The backtracking matcher, in continuation-passing style: [k] is what
    remains to be matched after [r]; alternatives are tried in the order
    the engine tries them (left branch first, longest repetition first). *)
Fixpoint rmatch {A} (r : regex) (s : str) (g : caps)
         (k : str -> caps -> option A) : option A :=
  match r with
  | Eps => k s g
  | One a =>
      match s with
      | c :: s' => if single_match a c then k s' g else None
      | [] => None
      end
  | Seq r1 r2 => rmatch r1 s g (fun s1 g1 => rmatch r2 s1 g1 k)
  | Alt r1 r2 =>
      match rmatch r1 s g k with
      | Some x => Some x
      | None => rmatch r2 s g k
      end
  | Opt r1 =>
      match rmatch r1 s g k with
      | Some x => Some x
      | None => k s g
      end
  | Star a => star_k (single_match a) s (fun s' => k s' g)
  | Plus a =>
      match s with
      | c :: s' =>
          if single_match a c
          then star_k (single_match a) s' (fun s'' => k s'' g)
          else None
      | [] => None
      end
  | Group i r1 =>
      rmatch r1 s g
        (fun s' g' => k s' ((i, firstn (length s - length s') s) :: g'))
  | Dollar =>
      match s with
      | [] => k s g
      | [c] => if (c =? 10)%N then k s g else None
      | _ => None
      end
  end.

(** [pattern.match(s)]: a match anchored at the start of [s]. *)
Definition re_match (r : regex) (s : str) : option Match :=
  rmatch r s []
    (fun s' g => Some {| m_start := 0;
                         m_text := firstn (length s - length s') s;
                         m_groups := g |}).

(** [re.search(pattern, s)]: the leftmost match. *)
Fixpoint re_search (r : regex) (s : str) : option Match :=
  match re_match r s with
  | Some m => Some m
  | None =>
      match s with
      | [] => None
      | _ :: s' => option_map shift (re_search r s')
      end
  end.

(** The successive non-overlapping matches, leftmost first, with the
    characters between them.  After an empty match the scan moves on by one
    character; no pattern of this program matches the empty text. *)
Fixpoint scan (fuel : nat) (r : regex) (s : str) : list (str + Match) :=
  match fuel with
  | 0 => []
  | S fuel' =>
      match re_match r s with
      | Some m =>
          match length (m_text m), s with
          | 0, [] => [inr m]
          | 0, c :: s' => inr m :: inl [c] :: scan fuel' r s'
          | n, _ => inr m :: scan fuel' r (skipn n s)
          end
      | None =>
          match s with
          | [] => []
          | c :: s' => inl [c] :: scan fuel' r s'
          end
      end
  end.

Definition pieces (r : regex) (s : str) : list (str + Match) :=
  scan (S (length s)) r s.

(** [re.findall(pattern, s)] for a pattern with one capturing group. *)
Definition re_findall (r : regex) (s : str) : list str :=
  flat_map (fun p => match p with
                     | inl _ => []
                     | inr m => match group 1 m with Some t => [t] | None => [[]] end
                     end) (pieces r s).

(** [re.sub(pattern, repl, s)] for a replacement text without
    back-references. *)
Definition re_sub (r : regex) (repl : str) (s : str) : str :=
  flat_map (emit repl) (pieces r s).

(** [re.split(pattern, s, maxsplit=1)] for a pattern without groups. *)
Definition re_split_once (r : regex) (s : str) : list str :=
  match re_search r s with
  | Some m => [firstn (m_start m) s; skipn (m_start m + length (m_text m)) s]
  | None => [s]
  end.
End Matcher.

End Re.


(** ** utils/url_parser.py *)

Module url_parser.
Import Re.

Inductive SourceType := FASTMCP | SMITHERY | UNKNOWN.

(** [[^/\s]] *)
Definition not_slash_space : single := SSet true [CChar (chr "/"); CSpace].

(** [https?://(?:www\.)?fastmcp\.me/MCP/Details/(\d+)/([^/\s]+)] *)
Definition FASTMCP_PATTERN : regex :=
  Cat [Lit "http"; Opt (Lit "s"); Lit "://"; Opt (Lit "www.");
       Lit "fastmcp.me/MCP/Details/";
       Group 1 (Plus (SSet false [CDigit])); Lit "/";
       Group 2 (Plus not_slash_space)].

(** [https?://(?:server\.)?smithery\.ai/(?:server/)?([^/\s]+)] *)
Definition SMITHERY_PATTERN : regex :=
  Cat [Lit "http"; Opt (Lit "s"); Lit "://"; Opt (Lit "server.");
       Lit "smithery.ai/"; Opt (Lit "server/");
       Group 1 (Plus not_slash_space)].

(** [server\.smithery\.ai/([^/\s]+)], the pattern of [normalize_url] *)
Definition SERVER_ALIAS_PATTERN : regex :=
  Cat [Lit "server.smithery.ai/"; Group 1 (Plus not_slash_space)].

Section WithUnicode.
Context {db : UnicodeDB}.

Definition detect_source (url : str) : SourceType :=
  if Py.is_some (re_match false FASTMCP_PATTERN url) then FASTMCP
  else if Py.is_some (re_match false SMITHERY_PATTERN url) then SMITHERY
  else UNKNOWN.

Definition normalize_url (url : str) : str :=
  if Py.contains (u "server.smithery.ai") url then
    match re_search false SERVER_ALIAS_PATTERN url with
    | Some m =>
        let server_name := group_text 1 m in
        u "https://smithery.ai/server/" ++ server_name
    | None => url
    end
  else url.

Definition extract_mcp_name (url : str) : option str :=
  match re_match false FASTMCP_PATTERN url with
  | Some m => group 2 m
  | None =>
      match re_match false SMITHERY_PATTERN url with
      | Some m => group 1 m
      | None => None
      end
  end.

End WithUnicode.
End url_parser.

(** ** models/mcp_info.py and models/plugin.py *)

Module models.

Record MCPTool := { t_name : str; t_description : str }.

Record MCPInfo := {
  name : str;
  description : str;
  author : str;
  tools : list MCPTool;
  install_command : str;
  install_args : list str;
  connection_type : str;
  http_url : option str;
  env_vars : list str;
  homepage : option str;
  source_url : str
}.

(** What [model_dump] returns and [json] reads and writes. *)
Inductive json :=
| JNull
| JStr (s : str)
| JList (l : list json)
| JDict (d : list (str * json)).

(** A Python [dict] with [str] keys: the items in insertion order. *)
Definition dict (V : Type) := list (str * V).

Fixpoint dict_get {V} (k : str) (d : dict V) : option V :=
  match d with
  | [] => None
  | (k', v) :: d' => if Py.str_eqb k k' then Some v else dict_get k d'
  end.

(** [d[k] = v]: a present key keeps its place. *)
Fixpoint dict_set {V} (k : str) (v : V) (d : dict V) : dict V :=
  match d with
  | [] => [(k, v)]
  | (k', v') :: d' =>
      if Py.str_eqb k k' then (k, v) :: d' else (k', v') :: dict_set k v d'
  end.

Definition has_key {V} (k : str) (d : dict V) : bool := Py.is_some (dict_get k d).

Record MCPServerConfig := {
  sc_type : option str;
  sc_command : option str;
  sc_args : option (list str);
  sc_url : option str;
  sc_headers : option (dict str);
  sc_env : option (dict str)
}.

Record PluginAuthor := { pa_name : str; pa_email : option str }.

Record PluginConfig := {
  pc_name : str;
  pc_description : str;
  pc_version : str;
  pc_author : option PluginAuthor;
  pc_homepage : option str;
  pc_repository : option str;
  pc_mcpServers : dict MCPServerConfig
}.

Record MarketplacePlugin := {
  mp_name : str;
  mp_source : str;
  mp_description : str;
  mp_category : option str;
  mp_homepage : option str
}.

Record MarketplaceOwner := { mo_name : str; mo_email : option str }.

Record MarketplaceConfig := {
  mc_name : str;
  mc_description : str;
  mc_owner : MarketplaceOwner;
  mc_plugins : list MarketplacePlugin
}.

(** [get_server_name]: [self.name.lower().replace(" ", "-").replace("_", "-")] *)
Definition get_server_name {db : UnicodeDB} (i : MCPInfo) : str :=
  Py.replace_char (chr "_") (u "-")
    (Py.replace_char (chr " ") (u "-") (Py.lower (name i))).

(** *** Serialization: [model_dump] with [exclude_none=True] *)

(** A field of the dumped [dict]; a [None] field is left out. *)
Definition field {A} (k : string) (f : A -> json) (v : option A) : dict json :=
  match v with
  | Some a => [(u k, f a)]
  | None => []
  end.

Definition JStrs (l : list str) : json := JList (map JStr l).
Definition JStrDict (d : dict str) : json := JDict (map (fun kv => (fst kv, JStr (snd kv))) d).

Definition MCPServerConfig_model_dump (c : MCPServerConfig) : json :=
  JDict (field "type" JStr (sc_type c) ++
         field "command" JStr (sc_command c) ++
         field "args" JStrs (sc_args c) ++
         field "url" JStr (sc_url c) ++
         field "headers" JStrDict (sc_headers c) ++
         field "env" JStrDict (sc_env c)).

Definition PluginAuthor_model_dump (a : PluginAuthor) : json :=
  JDict ([(u "name", JStr (pa_name a))] ++ field "email" JStr (pa_email a)).

Definition is_JNull (j : json) : bool :=
  match j with JNull => true | _ => false end.

(** [{kk: vv for kk, vv in v.items() if vv is not None}] *)
Definition drop_none (j : json) : json :=
  match j with
  | JDict d => JDict (filter (fun kv => negb (is_JNull (snd kv))) d)
  | _ => j
  end.

Definition PluginConfig_model_dump (c : PluginConfig) : json :=
  let data :=
    [(u "name", JStr (pc_name c));
     (u "description", JStr (pc_description c));
     (u "version", JStr (pc_version c))] ++
    field "author" PluginAuthor_model_dump (pc_author c) ++
    field "homepage" JStr (pc_homepage c) ++
    field "repository" JStr (pc_repository c) ++
    [(u "mcpServers",
      JDict (map (fun kv => (fst kv, MCPServerConfig_model_dump (snd kv)))
                 (pc_mcpServers c)))] in
  JDict (map (fun kv =>
                if Py.str_eqb (fst kv) (u "mcpServers") then
                  match snd kv with
                  | JDict servers =>
                      (fst kv, JDict (map (fun s => (fst s, drop_none (snd s))) servers))
                  | other => (fst kv, other)
                  end
                else kv) data).

Definition MarketplacePlugin_model_dump (p : MarketplacePlugin) : json :=
  JDict ([(u "name", JStr (mp_name p));
          (u "source", JStr (mp_source p));
          (u "description", JStr (mp_description p))] ++
         field "category" JStr (mp_category p) ++
         field "homepage" JStr (mp_homepage p)).

(** [model_dump()] of an entry by itself: a [None] field is kept, as
    [None]. *)
Definition MarketplacePlugin_model_dump_all (p : MarketplacePlugin) : json :=
  let opt (v : option str) := match v with Some s => JStr s | None => JNull end in
  JDict [(u "name", JStr (mp_name p));
         (u "source", JStr (mp_source p));
         (u "description", JStr (mp_description p));
         (u "category", opt (mp_category p));
         (u "homepage", opt (mp_homepage p))].

Definition MarketplaceOwner_model_dump (o : MarketplaceOwner) : json :=
  JDict ([(u "name", JStr (mo_name o))] ++ field "email" JStr (mo_email o)).

Definition MarketplaceConfig_model_dump (c : MarketplaceConfig) : json :=
  JDict [(u "name", JStr (mc_name c));
         (u "description", JStr (mc_description c));
         (u "owner", MarketplaceOwner_model_dump (mc_owner c));
         (u "plugins", JList (map MarketplacePlugin_model_dump (mc_plugins c)))].

End models.

(** ** pathlib and the file system *)

Module Fs.

(** A path is its [parts]; an absolute path starts with the part ["/"]. *)
Definition Path := list str.

Fixpoint path_eqb (a b : Path) : bool :=
  match a, b with
  | [], [] => true
  | x :: a', y :: b' => Py.str_eqb x y && path_eqb a' b'
  | _, _ => false
  end.

(** [p / name] *)
Definition child (p : Path) (name : str) : Path := p ++ [name].

(** [p.name]: the last part, empty for a bare anchor *)
Definition path_name (p : Path) : str :=
  match rev p with
  | [] => []
  | last :: before =>
      match before with
      | [] => if Py.str_eqb last (u "/") then [] else last
      | _ => last
      end
  end.

(** [str(p)] *)
Definition path_str (p : Path) : str :=
  match p with
  | [] => u "."
  | root :: rest =>
      if Py.str_eqb root (u "/") then u "/" ++ Py.join (u "/") rest
      else Py.join (u "/") p
  end.

(** [p.relative_to(base)]: [None] stands for the [ValueError] raised when
    [base] is not a prefix of [p]. *)
Fixpoint relative_to (p base : Path) : option Path :=
  match base with
  | [] => Some p
  | b :: base' =>
      match p with
      | [] => None
      | a :: p' => if Py.str_eqb a b then relative_to p' base' else None
      end
  end.

(** [p.parents]: the ancestors of a path, the outermost first *)
Fixpoint parents (p : Path) : list Path :=
  match p with
  | [] => []
  | x :: rest =>
      match rest with
      | [] => []
      | _ :: _ => [x] :: map (cons x) (parents rest)
      end
  end.

(** The current directory and the root, which are always there. *)
Definition is_anchor (p : Path) : bool :=
  match p with
  | [] => true
  | [x] => Py.str_eqb x (u "/")
  | _ => false
  end.

Section Files.
(** What a file holds. *)
Variable Text : Type.

(** The directories that have been made and the files that exist.
    Failures of the operating system (permissions, a full disk) are outside
    the model. *)
Record FS := { dirs : list Path; files : list (Path * Text) }.

Fixpoint read (p : Path) (fl : list (Path * Text)) : option Text :=
  match fl with
  | [] => None
  | (q, t) :: fl' => if path_eqb p q then Some t else read p fl'
  end.

Definition exists_file (fs : FS) (p : Path) : bool := Py.is_some (read p (files fs)).

Definition is_dir (fs : FS) (p : Path) : bool :=
  is_anchor p || existsb (path_eqb p) (dirs fs).

(** [p.mkdir(parents=True, exist_ok=True)]: nothing for a directory that
    exists; otherwise the directory and each of its ancestors that is
    missing. *)
Definition mkdir (fs : FS) (p : Path) : FS :=
  if is_dir fs p then fs
  else {| dirs := p :: filter (fun q => negb (is_dir fs q)) (parents p) ++ dirs fs;
          files := files fs |}.

(** One more directory, when it is not there yet. *)
Definition add_dir (fs : FS) (p : Path) : FS :=
  if is_dir fs p then fs else {| dirs := p :: dirs fs; files := files fs |}.

(** [p.mkdir(exist_ok=True)]: nothing for a directory that exists;
    otherwise the directory alone.  [None] stands for the
    [FileNotFoundError] raised when the parent is missing. *)
Definition mkdir_exist_ok (fs : FS) (p : Path) : option FS :=
  if is_dir fs p || is_dir fs (removelast p) then Some (add_dir fs p) else None.

Fixpoint write_in (p : Path) (t : Text) (fl : list (Path * Text)) : list (Path * Text) :=
  match fl with
  | [] => [(p, t)]
  | (q, t') :: fl' =>
      if path_eqb p q then (p, t) :: fl' else (q, t') :: write_in p t fl'
  end.

(** [open(p, "w")] followed by the writes that produce [t] *)
Definition write (fs : FS) (p : Path) (t : Text) : FS :=
  {| dirs := dirs fs; files := write_in p t (files fs) |}.

End Files.

Arguments dirs {Text} _.
Arguments files {Text} _.
Arguments read {Text} _ _.
Arguments exists_file {Text} _ _.
Arguments is_dir {Text} _ _.
Arguments mkdir {Text} _ _.
Arguments add_dir {Text} _ _.
Arguments mkdir_exist_ok {Text} _ _.
Arguments write_in {Text} _ _ _.
Arguments write {Text} _ _ _.

End Fs.

(** ** The libraries and services around the program *)

Module Ext.
Import Re models.

(** The exceptions the program tells apart: [httpx.HTTPError], [ValueError],
    its own [ConversionError], and any other [Exception]. *)
Inductive exn :=
| HTTPError (msg : str)
| ValueError (msg : str)
| ConversionError (msg : str)
| OtherError (msg : str).

(** [str(e)] *)
Definition exn_str (e : exn) : str :=
  match e with
  | HTTPError m | ValueError m | ConversionError m | OtherError m => m
  end.

Inductive result (A : Type) :=
| Ok (a : A)
| Raise (e : exn).
Arguments Ok {A} a.
Arguments Raise {A} e.

(** What else the interpreter decides. *)
Class Interp := {
  (** the order in which [set(l)] is iterated *)
  set_list : list str -> list str;
  (** [re.search(pattern, text, re.I)] for a pattern assembled at run time:
      the text of [group(0)] when there is a match; [Raise] when the
      pattern does not compile *)
  search_dynamic : str -> str -> result (option str)
}.

(** The [json] module and pydantic's validation of the catalog file. *)
Class Json := {
  (** what a file holds *)
  Text : Type;
  (** [json.dump(data, f, indent=2, ensure_ascii=False); f.write("\n")] *)
  json_dump : json -> Text;
  (** [json.load(f)] *)
  json_load : Text -> result json;
  (** the [MarketplaceConfig] pydantic builds from the loaded data *)
  validate : json -> result MarketplaceConfig
}.

(** A query of [find] and [find_all]: tag names, [attrs], [class_], [href]. *)
Record Query := {
  q_names : list str;
  q_attrs : list (str * str);
  q_class : option Pattern;
  q_href : option Pattern
}.

(** BeautifulSoup, as the sources use it. *)
Class Html := {
  Tag : Type;
  (** [BeautifulSoup(html, "html.parser")] *)
  BeautifulSoup : str -> Tag;
  (** [tag.find_all(names, ...)], in document order *)
  find_all : Tag -> Query -> list Tag;
  (** [tag.find_all(string=pattern)], each as [str(...)] *)
  find_all_string : Tag -> Pattern -> list str;
  (** [tag.get_text()] *)
  get_text : Tag -> str;
  (** [tag.get_text(strip=True)] *)
  get_text_strip : Tag -> str;
  (** [tag.get(attr)] *)
  get : Tag -> str -> option str;
  (** [str(tag.next_sibling)] when there is a next sibling *)
  next_sibling : Tag -> option str
}.

(** [tag.find(...)]: the first result of [find_all] *)
Definition find `{Html} (t : Tag) (q : Query) : option Tag := hd_error (find_all t q).

(** [tag.find(string=pattern)] *)
Definition find_string `{Html} (t : Tag) (p : Pattern) : option str :=
  hd_error (find_all_string t p).

Definition by_name (names : list str) : Query :=
  {| q_names := names; q_attrs := []; q_class := None; q_href := None |}.

Definition by_class (names : list str) (p : Pattern) : Query :=
  {| q_names := names; q_attrs := []; q_class := Some p; q_href := None |}.

(** The prompts sent to the model: the values interpolated in the text. *)
Inductive Prompt :=
| EnhancePrompt (name description : str) (tools : option (list str))
    (install_command : str) (install_args : option (list str)) (page : str)
| DescribePrompt (mcp_name raw_description tool_list : str).

(** What the model's reply holds for the keys [enhance_mcp_info] reads.  An
    item of [tools] is [None] when building its [MCPTool] raises (no
    ["name"], or a field that is not a string).

    The other values are taken at the types the prompt asks for.  The code
    assigns what [json.loads] returned without validating it, so a reply
    with a value of another type (a number for ["description"]) leaves a
    record that is not an [MCPInfo] of the declared types: such replies are
    outside the model, and no statement below says what [generate], where
    pydantic validates the fields, does with such a record. *)
Record Enhancements := {
  e_description : option str;
  e_tools : option (list (option MCPTool));
  e_install_command : option str;
  e_install_args : option (list str)
}.

Inductive Request :=
| HttpGet (url : str)
| GenerateContent (model : str) (prompt : Prompt).

(** The network, the model behind it and the process environment.  An
    answer may depend on the requests made so far. *)
Class Network := {
  (** [client.get(url)], [raise_for_status()] and [response.text] *)
  http_response : list Request -> str -> result str;
  (** [generate_content(...)] and [response.text] *)
  llm_response : list Request -> Prompt -> result str;
  (** [json.loads(response_text)] read at the keys of [Enhancements], for
      a reply whose values have the types the prompt asks for *)
  loads_enhancements : str -> result Enhancements;
  (** [os.getenv("GEMINI_API_KEY")] *)
  getenv_GEMINI_API_KEY : option str
}.

End Ext.

(** ** Effects: the requests made and the file system, with exceptions *)

Module Eff.
Import Ext.

Section WithWorld.
Context {js : Json} {net : Network}.

Record World := { requests : list Request; fs : Fs.FS Text }.

Definition M (A : Type) : Type := World -> World * result A.

Definition ret {A} (a : A) : M A := fun w => (w, Ok a).

Definition raise {A} (e : exn) : M A := fun w => (w, Raise e).

Definition bind {A B} (m : M A) (k : A -> M B) : M B :=
  fun w =>
    match m w with
    | (w', Ok a) => k a w'
    | (w', Raise e) => (w', Raise e)
    end.

(** [try: m except Exception as e: h e] *)
Definition try_except {A} (m : M A) (h : exn -> M A) : M A :=
  fun w =>
    match m w with
    | (w', Ok a) => (w', Ok a)
    | (w', Raise e) => h e w'
    end.

Definition lift {A} (r : result A) : M A := fun w => (w, r).

Definition update_fs (f : Fs.FS Text -> Fs.FS Text) : M unit :=
  fun w => ({| requests := requests w; fs := f (fs w) |}, Ok tt).

Definition mkdir (p : Fs.Path) : M unit := update_fs (fun s => Fs.mkdir s p).

Definition mkdir_exist_ok (p : Fs.Path) : M unit :=
  fun w =>
    match Fs.mkdir_exist_ok (fs w) p with
    | Some s => ({| requests := requests w; fs := s |}, Ok tt)
    | None => (w, Raise (OtherError (u "No such file or directory")))
    end.

Definition write_file (p : Fs.Path) (t : Text) : M unit :=
  update_fs (fun s => Fs.write s p t).

Definition path_exists (p : Fs.Path) : M bool :=
  fun w => (w, Ok (Fs.exists_file (fs w) p)).

(** [open(p)] and reading it *)
Definition read_file (p : Fs.Path) : M Text :=
  fun w =>
    match Fs.read p (Fs.files (fs w)) with
    | Some t => (w, Ok t)
    | None => (w, Raise (OtherError (u "No such file or directory")))
    end.

Definition send (r : Request) : World -> World :=
  fun w => {| requests := requests w ++ [r]; fs := fs w |}.

(** [async with httpx.AsyncClient(follow_redirects=True, timeout=30.0)]:
    [client.get(url)], [raise_for_status()], [response.text] *)
Definition http_get (url : str) : M str :=
  fun w => (send (HttpGet url) w, http_response (requests w) url).

(** [client.aio.models.generate_content(model=..., contents=prompt, ...)]
    and [response.text] *)
Definition generate_content (model : str) (prompt : Prompt) : M str :=
  fun w => (send (GenerateContent model prompt) w, llm_response (requests w) prompt).

End WithWorld.

End Eff.

Declare Scope eff_scope.
Delimit Scope eff_scope with eff.
Notation "x <- m ;; k" := (Eff.bind m (fun x => k))
  (at level 61, m at next level, right associativity) : eff_scope.
Notation "m ;;; k" := (Eff.bind m (fun _ => k))
  (at level 61, right associativity) : eff_scope.

(** ** core/plugin_generator.py *)

Module plugin_generator.
Import Re models Ext.
Local Open Scope eff_scope.

Record PluginGenerator := { output_dir : Fs.Path }.

(** [[^\w\s-]] *)
Definition special_character : regex := One (SSet true [CWord; CSpace; CChar (chr "-")]).

(** [[\s_]+] *)
Definition spaces_and_underscores : regex := Plus (SSet false [CSpace; CChar (chr "_")]).

(** [-+] *)
Definition hyphens : regex := Plus (SChar (chr "-")).

Section WithUnicode.
Context {db : UnicodeDB} {js : Json} {net : Network}.

(** [_sanitize_name] *)
Definition _sanitize_name (name : str) : str :=
  (* Remove special characters and convert to lowercase *)
  let sanitized := re_sub false special_character [] (Py.lower name) in
  (* Replace spaces and underscores with hyphens *)
  let sanitized := re_sub false spaces_and_underscores (u "-") sanitized in
  (* Remove consecutive hyphens *)
  let sanitized := re_sub false hyphens (u "-") sanitized in
  (* Remove leading/trailing hyphens *)
  let sanitized := Py.strip_char (chr "-") sanitized in
  Py.or_else sanitized (u "unknown-plugin").

Definition truthy_opt (o : option str) : bool :=
  match o with Some s => Py.truthy s | None => false end.

(** [{var: f"${{{var}}}" for var in mcp_info.env_vars}] *)
Definition env_placeholders (vars : list str) : dict str :=
  fold_left (fun d var => dict_set var (u "${" ++ var ++ u "}") d) vars [].

(** [_create_plugin_config] *)
Definition _create_plugin_config (mcp_info : MCPInfo) (plugin_name : str) : PluginConfig :=
  let server_name := get_server_name mcp_info in
  let server_config :=
    if Py.str_eqb (connection_type mcp_info) (u "http") && truthy_opt (http_url mcp_info)
    then
      {| sc_type := Some (u "http"); sc_command := None; sc_args := None;
         sc_url := http_url mcp_info; sc_headers := None; sc_env := None |}
    else
      (* stdio type *)
      let server_config :=
        {| sc_type := None;
           sc_command := Some (Py.or_else (install_command mcp_info) (u "npx"));
           sc_args := Some (Py.or_else (install_args mcp_info)
                                       [u "-y"; u "mcp-server-" ++ plugin_name]);
           sc_url := None; sc_headers := None; sc_env := None |} in
      (* Add environment variables if needed *)
      if Py.truthy (env_vars mcp_info) then
        {| sc_type := sc_type server_config;
           sc_command := sc_command server_config;
           sc_args := sc_args server_config;
           sc_url := sc_url server_config;
           sc_headers := sc_headers server_config;
           sc_env := Some (env_placeholders (env_vars mcp_info)) |}
      else server_config in
  (* Create author info *)
  let author :=
    if Py.truthy (author mcp_info)
    then Some {| pa_name := author mcp_info; pa_email := None |}
    else None in
  {| pc_name := plugin_name;
     pc_description :=
       Py.or_else (description mcp_info) (u "MCP server: " ++ name mcp_info);
     pc_version := u "1.0.0";
     pc_author := author;
     pc_homepage := homepage mcp_info;
     pc_repository :=
       match homepage mcp_info with
       | Some h => if Py.truthy h && Py.contains (u "github") h then Some h else None
       | None => None
       end;
     pc_mcpServers := [(server_name, server_config)] |}.

(** [_write_json] *)
Definition _write_json (path : Fs.Path) (data : json) : Eff.M unit :=
  Eff.write_file path (json_dump data).

(** [generate].  The fields of the record are of the declared types here,
    so the validation of [PluginConfig] in [_create_plugin_config] passes.
    The second [mkdir] is not given [parents=True]: it needs the directory
    the first has made. *)
Definition generate (self : PluginGenerator) (mcp_info : MCPInfo) : Eff.M Fs.Path :=
  (* Create plugin directory *)
  let plugin_name := _sanitize_name (name mcp_info) in
  let plugin_dir := Fs.child (output_dir self) plugin_name in
  Eff.mkdir plugin_dir ;;;
  (* Create .claude-plugin directory *)
  let claude_plugin_dir := Fs.child plugin_dir (u ".claude-plugin") in
  Eff.mkdir_exist_ok claude_plugin_dir ;;;
  (* Generate plugin.json *)
  let plugin_config := _create_plugin_config mcp_info plugin_name in
  let plugin_json_path := Fs.child claude_plugin_dir (u "plugin.json") in
  _write_json plugin_json_path (PluginConfig_model_dump plugin_config) ;;;
  Eff.ret plugin_dir.

End WithUnicode.
End plugin_generator.

(** ** core/marketplace.py *)

Module marketplace.
Import models Ext.
Local Open Scope eff_scope.

Record Marketplace := {
  path : Fs.Path;
  config_dir : Fs.Path;
  config_path : Fs.Path
}.

(** [Marketplace.__init__] *)
Definition __init__ (marketplace_path : Fs.Path) : Marketplace :=
  {| path := marketplace_path;
     config_dir := Fs.child marketplace_path (u ".claude-plugin");
     config_path :=
       Fs.child (Fs.child marketplace_path (u ".claude-plugin")) (u "marketplace.json") |}.

(** [enumerate] and the loop that stops at the first entry named [n] *)
Fixpoint index_of (n : str) (plugins : list MarketplacePlugin) : option nat :=
  match plugins with
  | [] => None
  | p :: rest =>
      if Py.str_eqb (mp_name p) n then Some 0
      else option_map S (index_of n rest)
  end.

(** [l[idx] = x] for an index in range *)
Fixpoint set_nth {A} (idx : nat) (x : A) (l : list A) : list A :=
  match l, idx with
  | [], _ => []
  | _ :: rest, 0 => x :: rest
  | y :: rest, S i => y :: set_nth i x rest
  end.

Definition with_plugins (c : MarketplaceConfig) (plugins : list MarketplacePlugin)
  : MarketplaceConfig :=
  {| mc_name := mc_name c; mc_description := mc_description c;
     mc_owner := mc_owner c; mc_plugins := plugins |}.

Section WithStore.
Context {js : Json} {net : Network}.

(** [_save_config] *)
Definition _save_config (self : Marketplace) (config : MarketplaceConfig) : Eff.M unit :=
  Eff.mkdir (config_dir self) ;;;
  Eff.write_file (config_path self) (json_dump (MarketplaceConfig_model_dump config)).

(** [initialize] *)
Definition initialize (self : Marketplace) (name owner_name description : str)
  : Eff.M unit :=
  Eff.mkdir (config_dir self) ;;;
  present <- Eff.path_exists (config_path self) ;;
  if negb present then
    let config :=
      {| mc_name := name;
         mc_description := description;
         mc_owner := {| mo_name := owner_name; mo_email := None |};
         mc_plugins := [] |} in
    _save_config self config
  else Eff.ret tt.

(** [initialize()] with its default arguments *)
Definition initialize_default (self : Marketplace) : Eff.M unit :=
  initialize self (u "mcp2plugin-marketplace") (u "mcp2plugin")
             (u "Converted MCP servers as Claude Code plugins").

(** [_load_config] *)
Definition _load_config (self : Marketplace) : Eff.M MarketplaceConfig :=
  present <- Eff.path_exists (config_path self) ;;
  (if negb present then initialize_default self else Eff.ret tt) ;;;
  text <- Eff.read_file (config_path self) ;;
  data <- Eff.lift (json_load text) ;;
  Eff.lift (validate data).

(** The entry [add_plugin] builds. *)
Definition plugin_entry (self : Marketplace) (plugin_path : Fs.Path) (mcp_info : MCPInfo)
  : MarketplacePlugin :=
  (* Calculate relative path from marketplace root *)
  let source :=
    match Fs.relative_to plugin_path (path self) with
    | Some relative_path => u "./" ++ Fs.path_str relative_path
    | None => Fs.path_str plugin_path
    end in
  (* Create plugin entry *)
  let plugin_name := Fs.path_name plugin_path in
  {| mp_name := plugin_name;
     mp_source := source;
     mp_description :=
       Py.or_else (description mcp_info) (u "MCP server: " ++ name mcp_info);
     mp_category := Some (u "mcp");
     mp_homepage := homepage mcp_info |}.

(** The catalog after the update of [add_plugin]. *)
Definition upsert (entry : MarketplacePlugin) (plugins : list MarketplacePlugin)
  : list MarketplacePlugin :=
  (* Check if plugin already exists, update if so *)
  match index_of (mp_name entry) plugins with
  | Some existing_idx => set_nth existing_idx entry plugins
  | None => plugins ++ [entry]
  end.

(** [add_plugin] *)
Definition add_plugin (self : Marketplace) (plugin_path : Fs.Path) (mcp_info : MCPInfo)
  : Eff.M unit :=
  config <- _load_config self ;;
  let entry := plugin_entry self plugin_path mcp_info in
  _save_config self (with_plugins config (upsert entry (mc_plugins config))).

(** [remove_plugin] *)
Definition remove_plugin (self : Marketplace) (name : str) : Eff.M bool :=
  config <- _load_config self ;;
  let original_count := length (mc_plugins config) in
  let plugins := filter (fun p => negb (Py.str_eqb (mp_name p) name)) (mc_plugins config) in
  if length plugins <? original_count then
    _save_config self (with_plugins config plugins) ;;;
    Eff.ret true
  else Eff.ret false.

(** [list_plugins] *)
Definition list_plugins (self : Marketplace) : Eff.M (list json) :=
  config <- _load_config self ;;
  Eff.ret (map MarketplacePlugin_model_dump_all (mc_plugins config)).

(** [get_plugin] *)
Definition get_plugin (self : Marketplace) (name : str) : Eff.M (option json) :=
  config <- _load_config self ;;
  Eff.ret (option_map MarketplacePlugin_model_dump_all
             (List.find (fun p => Py.str_eqb (mp_name p) name) (mc_plugins config))).

End WithStore.
End marketplace.


(** ** sources/base.py *)

Module base.
Import models Ext.

(** The abstract class [MCPSource]: its two methods. *)
Record MCPSource {js : Json} {net : Network} := {
  can_handle : str -> bool;
  fetch : str -> Eff.M MCPInfo
}.

End base.

(** ** sources/fastmcp.py *)

Module fastmcp.
Import Re models Ext url_parser.
Local Open Scope eff_scope.

(** [[A-Z][A-Z0-9_]+] *)
Definition VAR_NAME : regex :=
  Cat [One (SSet false [CRange (chr "A") (chr "Z")]);
       Plus (SSet false [CRange (chr "A") (chr "Z"); CRange (chr "0") (chr "9");
                         CChar (chr "_")])].

(** [\s+] *)
Definition spaces : regex := Plus (SSet false [CSpace]).

(** the set of a package name: any character but white space, [<] and the
    two quotes (34 is the double quote) *)
Definition package_char : single :=
  SSet true [CSpace; CChar (chr "<"); CChar 34%N; CChar (chr "'")].

(** the [patterns] of [_extract_install_command] *)
Definition install_patterns : list (regex * str) :=
  [ (Cat [Lit "npx"; spaces; Lit "-y"; spaces; Group 1 (Plus package_char)], u "npx");
    (Cat [Lit "uvx"; spaces; Group 1 (Plus package_char)], u "uvx");
    (Cat [Lit "bunx"; spaces; Group 1 (Plus package_char)], u "bunx");
    (Cat [Lit "npm"; spaces; Lit "exec"; spaces; Group 1 (Plus package_char)], u "npm") ].

(** the [env_patterns] of [_extract_env_vars] *)
Definition env_patterns : list regex :=
  [ Cat [Lit "${"; Group 1 VAR_NAME; Lit "}"];
    Cat [Lit "$"; Group 1 VAR_NAME];
    Cat [Group 1 VAR_NAME; Lit "="];
    Cat [Lit "env"; Plus (SSet false [CChar (chr ":"); CSpace]); Group 1 VAR_NAME] ].

Definition env_stoplist : list str :=
  [u "url"; u "uri"; u "http"; u "json"; u "xml"].

(** the set of the [re.split] in [_extract_tools], as the file has it: a
    hyphen, U+00E2, U+20AC, U+201C and a colon *)
Definition tool_separator : regex :=
  One (SSet false [CChar (chr "-"); CChar 226%N; CChar 8364%N; CChar 8220%N;
                   CChar (chr ":")]).

(** [r"https?://.*mcp|endpoint|api"], compiled with [re.I] *)
Definition http_indicator : Pattern :=
  {| pat := Alts [Cat [Lit "http"; Opt (Lit "s"); Lit "://"; Star SAny; Lit "mcp"];
                  Lit "endpoint"; Lit "api"];
     ignorecase := true |}.

(** the URL searched in a text: [https?://] and then any characters but
    white space, the two quotes, [<] and [>], all in group 1 *)
Definition url_in_text : regex :=
  Group 1 (Cat [Lit "http"; Opt (Lit "s"); Lit "://";
                Plus (SSet true [CSpace; CChar 34%N; CChar (chr "'");
                                 CChar (chr "<"); CChar (chr ">")])]).

Section WithPage.
Context {db : UnicodeDB} {ip : Interp} {js : Json} {html : Html} {net : Network}.

(** [can_handle] *)
Definition can_handle (url : str) : bool :=
  Py.is_some (re_match false FASTMCP_PATTERN url).

(** One item of a tool section. *)
Definition tool_of_item (sep : regex) (text : str) : list MCPTool :=
  if Py.truthy text && (5 <? length text) then
    (* Try to split name and description *)
    match re_split_once false sep text with
    | [a; b] => [{| t_name := Py.strip a; t_description := Py.strip b |}]
    | _ => [{| t_name := firstn 50 text; t_description := text |}]
    end
  else [].

(** [_extract_tools] *)
Definition _extract_tools (soup : Tag) : list MCPTool :=
  (* Look for tool sections or lists *)
  let tool_sections :=
    find_all soup
      (by_class [u "div"; u "section"; u "ul"]
         {| pat := Alts [Lit "tool"; Lit "feature"; Lit "capability"];
            ignorecase := true |}) in
  let tools :=
    flat_map (fun section =>
      flat_map (fun item => tool_of_item tool_separator (get_text_strip item))
               (find_all section (by_name [u "li"; u "div"; u "p"])))
      tool_sections in
  (* Also look for bold/strong elements that might be tool names *)
  let tools :=
    if negb (Py.truthy tools) then
      flat_map (fun elem =>
        let name := get_text_strip elem in
        if (Py.truthy name && Py.contains (u "_") name)
           || Py.starts_with (u "get") name
           || Py.starts_with (u "create") name
        then
          let desc :=
            match next_sibling elem with
            | Some next_text => Py.strip next_text
            | None => []
            end in
          [{| t_name := name; t_description := firstn 200 desc |}]
        else [])
        (find_all soup (by_name [u "strong"; u "b"]))
    else tools in
  firstn 20 tools.

(** The loop over [patterns] in [_extract_install_command]. *)
Fixpoint first_install_pattern (patterns : list (regex * str)) (page_text : str)
  : option (str * list str) :=
  match patterns with
  | [] => None
  | (pattern, cmd) :: rest =>
      match re_search false pattern page_text with
      | Some m =>
          let package := group_text 1 m in
          if Py.str_eqb cmd (u "npx") then Some (u "npx", [u "-y"; package])
          else if Py.str_eqb cmd (u "uvx") then Some (u "uvx", [package])
          else if Py.str_eqb cmd (u "bunx") then Some (u "bunx", [package])
          else if Py.str_eqb cmd (u "npm") then Some (u "npm", [u "exec"; package])
          else first_install_pattern rest page_text
      | None => first_install_pattern rest page_text
      end
  end.

(** The loop over [package_patterns]: the first pattern that matches, an
    exception when one does not compile. *)
Fixpoint first_package_pattern (patterns : list str) (page_text : str)
  : result (option str) :=
  match patterns with
  | [] => Ok None
  | pattern :: rest =>
      match search_dynamic pattern page_text with
      | Raise e => Raise e
      | Ok (Some found) => Ok (Some found)
      | Ok None => first_package_pattern rest page_text
      end
  end.

(** [_extract_install_command] *)
Definition _extract_install_command (soup : Tag) (mcp_name : str)
  : result (str * list str) :=
  let page_text := get_text soup in
  match first_install_pattern install_patterns page_text with
  | Some found => Ok found
  | None =>
      (* Fallback: try to construct a reasonable install command *)
      let package_patterns :=
        [ u "@[^/\s]+/" ++ mcp_name;       (* @scope/package *)
          u "mcp-server-" ++ mcp_name;     (* mcp-server-name *)
          mcp_name ++ u "-mcp" ] in        (* name-mcp *)
      match first_package_pattern package_patterns page_text with
      | Raise e => Raise e
      | Ok (Some found) => Ok (u "npx", [u "-y"; found])
      | Ok None =>
          (* Default fallback *)
          Ok (u "npx", [u "-y"; u "mcp-server-" ++ Py.lower mcp_name])
      end
  end.

(** The body of the loops of [_extract_env_vars]: one match, appended when
    it is new, longer than 3 and holds no stop word. *)
Definition keep_env_var (env_vars : list str) (m : str) : list str :=
  if negb (Py.mem m env_vars) && (3 <? length m) then
    (* Filter out common non-env strings *)
    if negb (existsb (fun x => Py.contains x (Py.lower m)) env_stoplist)
    then env_vars ++ [m]
    else env_vars
  else env_vars.

(** [_extract_env_vars] *)
Definition _extract_env_vars (soup : Tag) : list str :=
  let page_text := get_text soup in
  let env_vars :=
    fold_left (fun env_vars pattern =>
                 fold_left keep_env_var (re_findall false pattern page_text) env_vars)
              env_patterns [] in
  firstn 10 (set_list env_vars).   (* Dedupe and limit *)

(** The loop over [http_patterns]: the first text that holds a URL with
    "mcp" in it. *)
Fixpoint first_http_url (http_patterns : list str) : option str :=
  match http_patterns with
  | [] => None
  | pattern :: rest =>
      match re_search false url_in_text pattern with
      | Some http_match =>
          if Py.contains (u "mcp") (Py.lower (group_text 1 http_match))
          then Some (group_text 1 http_match)
          else first_http_url rest
      | None => first_http_url rest
      end
  end.

(** [fetch] *)
Definition fetch (url : str) : Eff.M MCPInfo :=
  html <- Eff.http_get url ;;
  let soup := BeautifulSoup html in
  (* Extract MCP name from URL *)
  match re_match false FASTMCP_PATTERN url with
  | None => Eff.raise (ValueError (u "Invalid fastmcp.me URL: " ++ url))
  | Some m =>
      let mcp_name := group_text 2 m in
      (* Extract title/name from page *)
      let display_name :=
        match find soup (by_name [u "h1"]) with
        | Some title_elem => get_text_strip title_elem
        | None => mcp_name
        end in
      (* Extract description from meta tag or content *)
      let meta_desc :=
        find soup {| q_names := [u "meta"]; q_attrs := [(u "name", u "description")];
                     q_class := None; q_href := None |} in
      let meta_content :=
        match meta_desc with
        | Some e => match get e (u "content") with Some c => c | None => [] end
        | None => []
        end in
      let description :=
        if Py.truthy meta_content then meta_content
        else
          (* Try to find description in page content *)
          match find soup (by_class [u "p"]
                             {| pat := Alts [Lit "description"; Lit "summary"];
                                ignorecase := true |}) with
          | Some desc_elem => get_text_strip desc_elem
          | None => []
          end in
      (* Extract author *)
      let author :=
        match find_string soup {| pat := Cat [Lit "@"; Plus (SSet false [CWord])];
                                  ignorecase := false |} with
        | Some author_elem =>
            match re_search false (Cat [Lit "@"; Group 1 (Plus (SSet false [CWord]))])
                            author_elem with
            | Some author_match => group_text 1 author_match
            | None => []
            end
        | None => []
        end in
      (* Extract tools from the page *)
      let tools := _extract_tools soup in
      (* Extract installation command *)
      install <- Eff.lift (_extract_install_command soup mcp_name) ;;
      let '(install_command, install_args) := install in
      (* Determine connection type; check for HTTP URL indicators *)
      let http_patterns := find_all_string soup http_indicator in
      let '(connection_type, http_url) :=
        match first_http_url http_patterns with
        | Some found => (u "http", Some found)
        | None => (u "stdio", None)
        end in
      (* Extract environment variables *)
      let env_vars := _extract_env_vars soup in
      (* Extract homepage *)
      let homepage :=
        match find soup {| q_names := [u "a"]; q_attrs := []; q_class := None;
                           q_href := Some {| pat := Lit "github.com";
                                             ignorecase := false |} |} with
        | Some github_link => get github_link (u "href")
        | None => None
        end in
      Eff.ret {| name := Py.or_else display_name mcp_name;
                 description := description;
                 author := author;
                 tools := tools;
                 install_command := install_command;
                 install_args := install_args;
                 connection_type := connection_type;
                 http_url := http_url;
                 env_vars := env_vars;
                 homepage := homepage;
                 source_url := url |}
  end.

(** The class [FastMCPSource]. *)
Definition FastMCPSource : base.MCPSource :=
  {| base.can_handle := can_handle; base.fetch := fetch |}.

End WithPage.
End fastmcp.

(** ** sources/smithery.py *)

Module smithery.
Import Re models Ext url_parser.
Local Open Scope eff_scope.

(** A pattern of [install_patterns]: its text, which the loop also looks
    into, and what it compiles to. *)
Record InstallPattern := { source : str; compiled : regex; cmd : str }.

(** [[^\s]+] *)
Definition non_space : regex := Plus (SSet true [CSpace]).

(** the [install_patterns] of [_determine_connection]; 34 is the double
    quote *)
Definition install_patterns : list InstallPattern :=
  [ {| source := u "npx\s+@smithery/cli\s+install\s+([^\s]+)";
       compiled := Cat [Lit "npx"; fastmcp.spaces; Lit "@smithery/cli"; fastmcp.spaces;
                        Lit "install"; fastmcp.spaces; Group 1 non_space];
       cmd := u "npx" |};
    {| source := u "npx\s+-y\s+([^\s<\" ++ [34%N] ++ u "']+)";
       compiled := Cat [Lit "npx"; fastmcp.spaces; Lit "-y"; fastmcp.spaces;
                        Group 1 (Plus fastmcp.package_char)];
       cmd := u "npx" |};
    {| source := u "npm\s+install\s+([^\s]+)";
       compiled := Cat [Lit "npm"; fastmcp.spaces; Lit "install"; fastmcp.spaces;
                        Group 1 non_space];
       cmd := u "npm" |} ].

(** [hosted|remote|cloud|server\.smithery\.ai], searched with [re.I] *)
Definition hosted_indicator : regex :=
  Alts [Lit "hosted"; Lit "remote"; Lit "cloud"; Lit "server.smithery.ai"].

(** the pattern run over each config section: a variable name between
    double quotes *)
Definition quoted_var : regex :=
  Cat [One (SChar 34%N); Group 1 fastmcp.VAR_NAME; One (SChar 34%N)].

(** the [patterns] of [_extract_env_vars] *)
Definition env_patterns : list regex :=
  [ Cat [Lit "${"; Group 1 fastmcp.VAR_NAME; Lit "}"];
    Cat [Group 1 fastmcp.VAR_NAME; Lit ":"; Star (SSet false [CSpace]);
         Alts [Lit "string"; Lit "required"]];
    Cat [One (SChar 34%N); Group 1 fastmcp.VAR_NAME; One (SChar 34%N); Lit ":";
         Star (SSet false [CSpace]); Lit "{"] ].

Definition env_stoplist : list str :=
  [u "type"; u "string"; u "number"; u "boolean"].

(** the set of the [re.split] in [_extract_tools]: a hyphen, an en dash
    (U+2013) and a colon *)
Definition tool_separator : regex :=
  One (SSet false [CChar (chr "-"); CChar 8211%N; CChar (chr ":")]).

(** [(\w+)\s*\(] *)
Definition call_like : regex :=
  Cat [Group 1 (Plus (SSet false [CWord])); Star (SSet false [CSpace]); Lit "("].

Section WithPage.
Context {db : UnicodeDB} {ip : Interp} {js : Json} {html : Html} {net : Network}.

(** [can_handle] *)
Definition can_handle (url : str) : bool :=
  Py.is_some (re_match false SMITHERY_PATTERN url).

(** The inner loop over the function-like names of one code block. *)
Definition add_function (tools : list MCPTool) (func_name : str) : list MCPTool :=
  if negb (Py.mem func_name [u "if"; u "for"; u "while"; u "function"; u "def"]) then
    if negb (existsb (fun t => Py.str_eqb (t_name t) func_name) tools)
    then tools ++ [{| t_name := func_name; t_description := [] |}]
    else tools
  else tools.

(** [_extract_tools] *)
Definition _extract_tools (soup : Tag) : list MCPTool :=
  (* Look for tool/function sections *)
  let tool_sections :=
    find_all soup
      (by_class [u "div"; u "section"; u "ul"; u "table"]
         {| pat := Alts [Lit "tool"; Lit "function"; Lit "method"; Lit "endpoint";
                         Lit "api"];
            ignorecase := true |}) in
  let tools :=
    flat_map (fun section =>
      flat_map (fun item => fastmcp.tool_of_item tool_separator (get_text_strip item))
               (find_all section (by_name [u "li"; u "tr"; u "div"])))
      tool_sections in
  (* Look for code blocks that might contain tool definitions *)
  let code_blocks := find_all soup (by_name [u "code"]) in
  let tools :=
    fold_left (fun tools code =>
                 let text := get_text_strip code in
                 (* Look for function-like names *)
                 fold_left add_function (re_findall false call_like text) tools)
              code_blocks tools in
  firstn 20 tools.

(** The loop over [install_patterns] in [_determine_connection]. *)
Fixpoint first_install_pattern (patterns : list InstallPattern) (page_text : str)
  : option (str * str * list str * option str) :=
  match patterns with
  | [] => None
  | p :: rest =>
      match re_search false (compiled p) page_text with
      | Some m =>
          let package := group_text 1 m in
          if Py.str_eqb (cmd p) (u "npx") && Py.contains (u "@smithery/cli") (source p)
          then Some (u "stdio", u "npx", [u "-y"; u "@smithery/cli"; u "run"; package], None)
          else if Py.str_eqb (cmd p) (u "npx")
          then Some (u "stdio", u "npx", [u "-y"; package], None)
          else if Py.str_eqb (cmd p) (u "npm")
          then Some (u "stdio", u "npx", [u "-y"; package], None)
          else first_install_pattern rest page_text
      | None => first_install_pattern rest page_text
      end
  end.

(** [_determine_connection]: (connection_type, install_command,
    install_args, http_url) *)
Definition _determine_connection (soup : Tag) (server_name : str)
  : str * str * list str * option str :=
  let page_text := get_text soup in
  (* Check for hosted/remote server indicators *)
  if Py.is_some (re_search true hosted_indicator page_text) then
    (* This is likely a hosted server *)
    let http_url := u "https://server.smithery.ai/" ++ server_name in
    (u "http", [], [], Some http_url)
  else
    (* Check for local installation patterns *)
    match first_install_pattern install_patterns page_text with
    | Some found => found
    | None =>
        (* Default to smithery CLI for local servers *)
        (u "stdio", u "npx", [u "-y"; u "@smithery/cli"; u "run"; server_name], None)
    end.

(** [_extract_env_vars] *)
Definition _extract_env_vars (soup : Tag) : list str :=
  let page_text := get_text soup in
  (* Look for config/env sections *)
  let config_sections :=
    find_all soup
      (by_class [u "div"; u "section"; u "pre"; u "code"]
         {| pat := Alts [Lit "config"; Lit "env"; Lit "setting"];
            ignorecase := true |}) in
  let env_vars :=
    flat_map (fun section => re_findall false quoted_var (get_text section))
             config_sections in
  (* Also search entire page for common patterns *)
  let env_vars :=
    env_vars ++ flat_map (fun pattern => re_findall false pattern page_text) env_patterns in
  (* Filter and dedupe *)
  let filtered :=
    filter (fun var =>
              (3 <? length var) &&
              negb (existsb (fun x => Py.contains x (Py.lower var)) env_stoplist))
           (set_list env_vars) in
  firstn 10 filtered.

(** [fetch] *)
Definition fetch (url : str) : Eff.M MCPInfo :=
  (* Normalize URL (handle server.smithery.ai redirect) *)
  let url :=
    if Py.contains (u "server.smithery.ai") url then
      match re_search false SERVER_ALIAS_PATTERN url with
      | Some m => u "https://smithery.ai/server/" ++ group_text 1 m
      | None => url
      end
    else url in
  html <- Eff.http_get url ;;
  let soup := BeautifulSoup html in
  (* Extract server name from URL *)
  match re_match false SMITHERY_PATTERN url with
  | None => Eff.raise (ValueError (u "Invalid smithery.ai URL: " ++ url))
  | Some m =>
      let server_name := group_text 1 m in
      (* Extract title/name from page *)
      let display_name :=
        match find soup (by_name [u "h1"]) with
        | Some title_elem => get_text_strip title_elem
        | None => server_name
        end in
      (* Extract description *)
      let meta_desc :=
        find soup {| q_names := [u "meta"]; q_attrs := [(u "name", u "description")];
                     q_class := None; q_href := None |} in
      let meta_content :=
        match meta_desc with
        | Some e => match get e (u "content") with Some c => c | None => [] end
        | None => []
        end in
      let description :=
        if Py.truthy meta_content then meta_content
        else
          (* Try to find description in page content *)
          match find soup (by_name [u "p"]) with
          | Some desc_elem => firstn 500 (get_text_strip desc_elem)
          | None => []
          end in
      (* Extract author *)
      let author :=
        match find_string soup
                {| pat := Alts [Cat [Lit "by"; fastmcp.spaces; Opt (Lit "@");
                                     Plus (SSet false [CWord])];
                                Lit "author"];
                   ignorecase := true |} with
        | Some author_elem =>
            match re_search false (Cat [Opt (Lit "@"); Group 1 (Plus (SSet false [CWord]))])
                            author_elem with
            | Some author_match => group_text 1 author_match
            | None => []
            end
        | None => []
        end in
      (* Extract tools *)
      let tools := _extract_tools soup in
      (* Determine connection type and install command *)
      let '(connection_type, install_command, install_args, http_url) :=
        _determine_connection soup server_name in
      (* Extract environment variables *)
      let env_vars := _extract_env_vars soup in
      (* Extract homepage *)
      let homepage :=
        match find soup {| q_names := [u "a"]; q_attrs := []; q_class := None;
                           q_href := Some {| pat := Lit "github.com";
                                             ignorecase := false |} |} with
        | Some github_link => get github_link (u "href")
        | None => None
        end in
      Eff.ret {| name := Py.or_else display_name server_name;
                 description := description;
                 author := author;
                 tools := tools;
                 install_command := install_command;
                 install_args := install_args;
                 connection_type := connection_type;
                 http_url := http_url;
                 env_vars := env_vars;
                 homepage := homepage;
                 source_url := url |}
  end.

(** The class [SmitherySource]. *)
Definition SmitherySource : base.MCPSource :=
  {| base.can_handle := can_handle; base.fetch := fetch |}.

End WithPage.
End smithery.

(** ** llm/gemini.py *)

Module gemini.
Import Re models Ext.
Local Open Scope eff_scope.

Record GeminiParser := { api_key : str; model : str }.

(** the code fence a reply may open with: three backquotes, [jso], an
    optional [n] and an optional line feed *)
Definition fence_open : regex :=
  Cat [Lit "```jso"; Opt (Lit "n"); Opt (One (SChar 10%N))].

(** the code fence a reply may end with: an optional line feed and three
    backquotes at the end of the text *)
Definition fence_close : regex :=
  Cat [Opt (One (SChar 10%N)); Lit "```"; Dollar].

Definition with_description (i : MCPInfo) (d : str) : MCPInfo :=
  {| name := name i; description := d; author := author i; tools := tools i;
     install_command := install_command i; install_args := install_args i;
     connection_type := connection_type i; http_url := http_url i;
     env_vars := env_vars i; homepage := homepage i; source_url := source_url i |}.

Definition with_tools (i : MCPInfo) (t : list MCPTool) : MCPInfo :=
  {| name := name i; description := description i; author := author i; tools := t;
     install_command := install_command i; install_args := install_args i;
     connection_type := connection_type i; http_url := http_url i;
     env_vars := env_vars i; homepage := homepage i; source_url := source_url i |}.

Definition with_install_command (i : MCPInfo) (c : str) : MCPInfo :=
  {| name := name i; description := description i; author := author i; tools := tools i;
     install_command := c; install_args := install_args i;
     connection_type := connection_type i; http_url := http_url i;
     env_vars := env_vars i; homepage := homepage i; source_url := source_url i |}.

Definition with_install_args (i : MCPInfo) (a : list str) : MCPInfo :=
  {| name := name i; description := description i; author := author i; tools := tools i;
     install_command := install_command i; install_args := a;
     connection_type := connection_type i; http_url := http_url i;
     env_vars := env_vars i; homepage := homepage i; source_url := source_url i |}.

(** [enhancements.get(key)] is truthy *)
Definition present {A} (v : option (list A)) : bool :=
  match v with Some l => Py.truthy l | None => false end.

Definition value {A} (v : option (list A)) : list A :=
  match v with Some l => l | None => [] end.

(** The list comprehension over [enhancements["tools"]]: [None] when
    building one of the tools raises. *)
Fixpoint build_tools (items : list (option MCPTool)) : option (list MCPTool) :=
  match items with
  | [] => Some []
  | None :: _ => None
  | Some t :: rest => option_map (cons t) (build_tools rest)
  end.

(** The assignments under "Apply enhancements".  [mcp_info] is updated in
    place, so when the comprehension raises, the [except] clause leaves
    the assignments made before it. *)
Definition apply_enhancements (mcp_info : MCPInfo) (enhancements : Enhancements) : MCPInfo :=
  let mcp_info :=
    if negb (Py.truthy (description mcp_info)) && present (e_description enhancements)
    then with_description mcp_info (value (e_description enhancements))
    else mcp_info in
  let rest (mcp_info : MCPInfo) :=
    let mcp_info :=
      if negb (Py.truthy (install_command mcp_info))
         && present (e_install_command enhancements)
      then with_install_command mcp_info (value (e_install_command enhancements))
      else mcp_info in
    if negb (Py.truthy (install_args mcp_info)) && present (e_install_args enhancements)
    then with_install_args mcp_info (value (e_install_args enhancements))
    else mcp_info in
  if negb (Py.truthy (tools mcp_info)) && present (e_tools enhancements) then
    match build_tools (value (e_tools enhancements)) with
    | Some built => rest (with_tools mcp_info built)
    | None => mcp_info
    end
  else rest mcp_info.

Section WithModel.
Context {db : UnicodeDB} {js : Json} {net : Network}.

(** [GeminiParser.__init__] *)
Definition __init__ (key : option str) : result GeminiParser :=
  let api_key :=
    match key with
    | Some k => if Py.truthy k then Some k else getenv_GEMINI_API_KEY
    | None => getenv_GEMINI_API_KEY
    end in
  match api_key with
  | Some k =>
      if Py.truthy k then Ok {| api_key := k; model := u "gemini-2.0-flash" |}
      else Raise (ValueError (u "Gemini API key required. Set GEMINI_API_KEY environment variable or pass api_key parameter."))
  | None =>
      Raise (ValueError (u "Gemini API key required. Set GEMINI_API_KEY environment variable or pass api_key parameter."))
  end.

(** the reply without its code fence *)
Definition unfence (text : str) : str :=
  let response_text := Py.strip text in
  if Py.starts_with (u "```") response_text then
    re_sub false fence_close [] (re_sub false fence_open [] response_text)
  else response_text.

(** [enhance_mcp_info] *)
Definition enhance_mcp_info (self : GeminiParser) (mcp_info : MCPInfo) (html_content : str)
  : Eff.M MCPInfo :=
  (* Only enhance if we're missing important information *)
  let needs_enhancement :=
    negb (Py.truthy (description mcp_info))
    || negb (Py.truthy (tools mcp_info))
    || negb (Py.truthy (install_command mcp_info)) in
  if negb needs_enhancement then Eff.ret mcp_info
  else
    let prompt :=
      EnhancePrompt (name mcp_info)
        (Py.or_else (description mcp_info) (u "MISSING"))
        (if Py.truthy (tools mcp_info) then Some (map t_name (tools mcp_info)) else None)
        (Py.or_else (install_command mcp_info) (u "MISSING"))
        (if Py.truthy (install_args mcp_info) then Some (install_args mcp_info) else None)
        (firstn 10000 html_content) in
    Eff.try_except
      (text <- Eff.generate_content (model self) prompt ;;
       enhancements <- Eff.lift (loads_enhancements (unfence text)) ;;
       Eff.ret (apply_enhancements mcp_info enhancements))
      (fun _ =>
         (* If enhancement fails, return original *)
         Eff.ret mcp_info).

(** [generate_plugin_description] *)
Definition generate_plugin_description (self : GeminiParser) (mcp_name : str)
           (tools : list MCPTool) (raw_description : str) : Eff.M str :=
  let tool_list :=
    if Py.truthy tools then
      Py.join [10%N]
        (map (fun t => u "- " ++ t_name t ++ u ": " ++ t_description t) (firstn 10 tools))
    else u "No tools listed" in
  let prompt :=
    DescribePrompt mcp_name (Py.or_else raw_description (u "None provided")) tool_list in
  text <- Eff.generate_content (model self) prompt ;;
  Eff.ret (Py.strip text).

End WithModel.
End gemini.

(** ** core/converter.py *)

Module converter.
Import Re models Ext url_parser.
Local Open Scope eff_scope.

Section WithServices.
Context {db : UnicodeDB} {ip : Interp} {js : Json} {html : Html} {net : Network}.

Record Converter := {
  output_dir : Fs.Path;
  marketplace_path : Fs.Path;
  marketplace : marketplace.Marketplace;
  generator : plugin_generator.PluginGenerator;
  use_llm : bool;
  gemini_parser : option gemini.GeminiParser;
  sources : list base.MCPSource
}.

(** [p.parent] *)
Definition parent (p : Fs.Path) : Fs.Path :=
  match rev p with
  | [] => []
  | last :: before =>
      match before with
      | [] => if Py.str_eqb last (u "/") then p else []
      | _ => rev before
      end
  end.

(** [Converter.__init__] *)
Definition __init__ (output_dir : Fs.Path) (marketplace_path : option Fs.Path)
           (gemini_api_key : option str) (use_llm : bool) : Eff.M Converter :=
  Eff.mkdir output_dir ;;;
  let marketplace_path :=
    match marketplace_path with
    | Some p => p
    | None => parent output_dir
    end in
  let marketplace := marketplace.__init__ marketplace_path in
  marketplace.initialize_default marketplace ;;;
  let api_key :=
    match gemini_api_key with
    | Some k => if Py.truthy k then Some k else getenv_GEMINI_API_KEY
    | None => getenv_GEMINI_API_KEY
    end in
  parser <-
    (if use_llm then
       match api_key with
       | Some k =>
           if Py.truthy k then
             g <- Eff.lift (gemini.__init__ (Some k)) ;; Eff.ret (Some g)
           else Eff.ret None
       | None => Eff.ret None
       end
     else Eff.ret None) ;;
  Eff.ret {| output_dir := output_dir;
             marketplace_path := marketplace_path;
             marketplace := marketplace;
             generator := {| plugin_generator.output_dir := output_dir |};
             use_llm := use_llm;
             gemini_parser := parser;
             (* Initialize source parsers *)
             sources := [fastmcp.FastMCPSource; smithery.SmitherySource] |}.

(** [_get_source] *)
Definition _get_source (self : Converter) (url : str) : option base.MCPSource :=
  List.find (fun source => base.can_handle source url) (sources self).

(** [_fetch_html] *)
Definition _fetch_html (self : Converter) (url : str) : Eff.M str := Eff.http_get url.

(** the message of the [ConversionError] for an unknown URL *)
Definition unknown_url_message (url : str) : str :=
  u "Unknown URL format: " ++ url ++ [10%N] ++
  u "Supported sources:" ++ [10%N] ++
  u "  - fastmcp.me: https://fastmcp.me/MCP/Details/{id}/{name}" ++ [10%N] ++
  u "  - smithery.ai: https://smithery.ai/server/{name}".

(** The block "Enhance with LLM if available".  [enhance_mcp_info] updates
    [mcp_info] in place, so what it filled in stays when the description
    request raises afterwards. *)
Definition enhance (parser : gemini.GeminiParser) (self : Converter) (url : str)
           (mcp_info : MCPInfo) : Eff.M MCPInfo :=
  fetched <- Eff.try_except (html_content <- _fetch_html self url ;; Eff.ret (Some html_content))
                            (fun _ => Eff.ret None) ;;
  match fetched with
  | None => Eff.ret mcp_info   (* Continue without LLM enhancement *)
  | Some html_content =>
      mcp_info <- gemini.enhance_mcp_info parser mcp_info html_content ;;
      (* Generate better description if needed *)
      if negb (Py.truthy (description mcp_info)) || (length (description mcp_info) <? 20)
      then
        Eff.try_except
          (d <- gemini.generate_plugin_description parser (name mcp_info)
                  (tools mcp_info) (description mcp_info) ;;
           Eff.ret (gemini.with_description mcp_info d))
          (fun _ => Eff.ret mcp_info)
      else Eff.ret mcp_info
  end.

Definition is_unknown (t : SourceType) : bool :=
  match t with UNKNOWN => true | _ => false end.

(** [convert] *)
Definition convert (self : Converter) (url : str) : Eff.M Fs.Path :=
  (* Normalize URL *)
  let url := normalize_url url in
  (* Detect source type *)
  let source_type := detect_source url in
  if is_unknown source_type then
    Eff.raise (ConversionError (unknown_url_message url))
  else
    (* Find appropriate source parser *)
    match _get_source self url with
    | None => Eff.raise (ConversionError (u "No parser available for URL: " ++ url))
    | Some source =>
        (* Fetch MCP information *)
        mcp_info <-
          Eff.try_except (base.fetch source url)
            (fun e =>
               match e with
               | HTTPError _ =>
                   Eff.raise (ConversionError (u "Failed to fetch URL: " ++ exn_str e))
               | _ =>
                   Eff.raise (ConversionError (u "Failed to parse MCP page: " ++ exn_str e))
               end) ;;
        (* Enhance with LLM if available *)
        mcp_info <-
          match gemini_parser self with
          | Some parser =>
              if use_llm self then enhance parser self url mcp_info
              else Eff.ret mcp_info
          | None => Eff.ret mcp_info
          end ;;
        (* Generate plugin *)
        plugin_path <- plugin_generator.generate (generator self) mcp_info ;;
        (* Add to marketplace *)
        marketplace.add_plugin (marketplace self) plugin_path mcp_info ;;;
        Eff.ret plugin_path
    end.

(** [get_info] *)
Definition get_info (self : Converter) (url : str) : Eff.M MCPInfo :=
  let url := normalize_url url in
  match _get_source self url with
  | None => Eff.raise (ConversionError (u "No parser available for URL: " ++ url))
  | Some source => base.fetch source url
  end.

End WithServices.
End converter.

(** * Part II: the vocabulary of the specification *)

Module Spec.
Import Re models Ext.

Section Language.
Context {db : UnicodeDB}.
Variable ic : bool.

(** [sem r w rest g g']: the pattern [r] matches the text [w] when [rest]
    follows it, and turns the groups [g] into [g']. *)
Inductive sem : Re.regex -> str -> str -> Re.caps -> Re.caps -> Prop :=
| sem_Eps rest g : sem Re.Eps [] rest g g
| sem_One a c rest g :
    Re.single_match ic a c = true -> sem (Re.One a) [c] rest g g
| sem_Seq r1 r2 w1 w2 rest g g1 g2 :
    sem r1 w1 (w2 ++ rest) g g1 -> sem r2 w2 rest g1 g2 ->
    sem (Re.Seq r1 r2) (w1 ++ w2) rest g g2
| sem_AltL r1 r2 w rest g g' : sem r1 w rest g g' -> sem (Re.Alt r1 r2) w rest g g'
| sem_AltR r1 r2 w rest g g' : sem r2 w rest g g' -> sem (Re.Alt r1 r2) w rest g g'
| sem_OptSome r w rest g g' : sem r w rest g g' -> sem (Re.Opt r) w rest g g'
| sem_OptNone r rest g : sem (Re.Opt r) [] rest g g
| sem_Star a w rest g :
    forallb (Re.single_match ic a) w = true -> sem (Re.Star a) w rest g g
| sem_Plus a c w rest g :
    Re.single_match ic a c = true -> forallb (Re.single_match ic a) w = true ->
    sem (Re.Plus a) (c :: w) rest g g
| sem_Group i r w rest g g' :
    sem r w rest g g' -> sem (Re.Group i r) w rest g ((i, w) :: g')
| sem_Dollar rest g :
    rest = [] \/ rest = [10%N] -> sem Re.Dollar [] rest g g.

(** [pattern.match(s)] succeeds exactly when a prefix of [s] is in the
    language of the pattern. *)
Definition matches_prefix (r : Re.regex) (s : str) : Prop :=
  exists w rest g, s = w ++ rest /\ sem r w rest [] g.

End Language.

Section WithUnicode.
Context {db : UnicodeDB}.

(** A URL matches a template when one of its prefixes is in the language
    of the template's pattern. *)
Definition matches_template (template : regex) (url : str) : Prop :=
  matches_prefix false template url.

(** The server config in the serialized descriptor: what [plugin.json]
    holds under [mcpServers] at the server's key. *)
Definition emitted_server_config (mcp_info : MCPInfo) (plugin_name : str) : option json :=
  match PluginConfig_model_dump
          (plugin_generator._create_plugin_config mcp_info plugin_name) with
  | JDict data =>
      match dict_get (u "mcpServers") data with
      | Some (JDict servers) => dict_get (get_server_name mcp_info) servers
      | _ => None
      end
  | _ => None
  end.

(** An entry that passes the filter of an extractor: longer than 3, and
    none of the stop words occurs in its lower-case form. *)
Definition accepted (stoplist : list str) (v : str) : Prop :=
  3 < length v /\ forall x, In x stoplist -> Py.contains x (Py.lower v) = false.

End WithUnicode.

(** How many entries of a catalog are named [n]. *)
Definition count_name (n : str) (plugins : list MarketplacePlugin) : nat :=
  length (filter (fun p => Py.str_eqb (mp_name p) n) plugins).

Section Catalog.
Context {js : Json}.

(** The world after [_save_config]. *)
Definition saved (self : marketplace.Marketplace) (c : MarketplaceConfig) (w : Eff.World)
  : Eff.World :=
  {| Eff.requests := Eff.requests w;
     Eff.fs := Fs.write (Fs.mkdir (Eff.fs w) (marketplace.config_dir self))
                 (marketplace.config_path self)
                 (json_dump (MarketplaceConfig_model_dump c)) |}.

(** The catalog file exists and holds the catalog [c]. *)
Definition holds (self : marketplace.Marketplace) (w : Eff.World) (c : MarketplaceConfig)
  : Prop :=
  exists text data,
    Fs.read (marketplace.config_path self) (Fs.files (Eff.fs w)) = Some text /\
    json_load text = Ok data /\ validate data = Ok c.

End Catalog.

(** The fields [enhance_mcp_info] never assigns. *)
Definition same_other_fields (a b : MCPInfo) : Prop :=
  name a = name b /\ author a = author b /\
  connection_type a = connection_type b /\ http_url a = http_url b /\
  env_vars a = env_vars b /\ homepage a = homepage b /\ source_url a = source_url b.

(** A field that is present keeps its value. *)
Definition keeps_present (a b : MCPInfo) : Prop :=
  (description a <> [] -> description b = description a) /\
  (tools a <> [] -> tools b = tools a) /\
  (install_command a <> [] -> install_command b = install_command a) /\
  (install_args a <> [] -> install_args b = install_args a).


End Spec.

(** ** Stand-ins for the libraries and services

    Concrete instances of the interfaces of [Ext], on which the theorems
    below are exercised: files hold the dumped value itself, pydantic's
    validation is a decoder of the catalog's shape, the page parser sees no
    element, and the network serves one fixed page. *)

Module Demo.
Import models Ext.

Definition get_str (k : string) (d : dict json) : option str :=
  match dict_get (u k) d with
  | Some (JStr s) => Some s
  | _ => None
  end.

Definition get_str_default (k : string) (d : dict json) : option str :=
  match dict_get (u k) d with
  | Some (JStr s) => Some s
  | None => Some []
  | _ => None
  end.

Definition get_opt_str (k : string) (d : dict json) : option (option str) :=
  match dict_get (u k) d with
  | Some (JStr s) => Some (Some s)
  | Some JNull | None => Some None
  | _ => None
  end.

Definition plugin_of_json (j : json) : option MarketplacePlugin :=
  match j with
  | JDict d =>
      match get_str "name" d, get_str "source" d, get_str_default "description" d,
            get_opt_str "category" d, get_opt_str "homepage" d with
      | Some n, Some s, Some de, Some c, Some h =>
          Some {| mp_name := n; mp_source := s; mp_description := de;
                  mp_category := c; mp_homepage := h |}
      | _, _, _, _, _ => None
      end
  | _ => None
  end.

Fixpoint plugins_of_json (l : list json) : option (list MarketplacePlugin) :=
  match l with
  | [] => Some []
  | j :: rest =>
      match plugin_of_json j, plugins_of_json rest with
      | Some p, Some ps => Some (p :: ps)
      | _, _ => None
      end
  end.

Definition owner_of_json (j : option json) : option MarketplaceOwner :=
  match j with
  | Some (JDict d) =>
      match get_str "name" d, get_opt_str "email" d with
      | Some n, Some e => Some {| mo_name := n; mo_email := e |}
      | _, _ => None
      end
  | _ => None
  end.

Definition config_of_json (j : json) : result MarketplaceConfig :=
  match j with
  | JDict d =>
      match get_str "name" d, get_str_default "description" d,
            owner_of_json (dict_get (u "owner") d),
            match dict_get (u "plugins") d with
            | Some (JList l) => plugins_of_json l
            | None => Some []
            | _ => None
            end with
      | Some n, Some de, Some o, Some ps =>
          Ok {| mc_name := n; mc_description := de; mc_owner := o; mc_plugins := ps |}
      | _, _, _, _ => Raise (OtherError (u "validation error"))
      end
  | _ => Raise (OtherError (u "validation error"))
  end.

Definition json_files : Json :=
  {| Text := json;
     json_dump := fun j => j;
     json_load := fun t => Ok t;
     validate := config_of_json |}.

(** A parser that finds no element and takes the document for its text. *)
Definition flat_html : Html :=
  {| Tag := str;
     BeautifulSoup := fun html => html;
     find_all := fun _ _ => [];
     find_all_string := fun _ _ => [];
     get_text := fun t => t;
     get_text_strip := fun t => t;
     get := fun _ _ => None;
     next_sibling := fun _ => None |}.

(** Every page reads [npx -y repomix-mcp]; the model never answers. *)
Definition one_page : Network :=
  {| http_response := fun _ _ => Ok (u "npx -y repomix-mcp");
     llm_response := fun _ _ => Raise (OtherError (u "unavailable"));
     loads_enhancements := fun _ => Raise (OtherError (u "no JSON"));
     getenv_GEMINI_API_KEY := None |}.

Fixpoint dedupe (l : list str) : list str :=
  match l with
  | [] => []
  | x :: rest => if Py.mem x rest then dedupe rest else x :: dedupe rest
  end.

(** Sets iterate in the order of the last occurrences; no run-time pattern
    ever matches. *)
Definition plain_interp : Interp :=
  {| set_list := dedupe;
     search_dynamic := fun _ _ => Ok None |}.

(** Nothing requested yet, nothing on disk. *)
Definition empty_world : Eff.World (js := json_files) :=
  {| Eff.requests := []; Eff.fs := {| Fs.dirs := []; Fs.files := [] |} |}.

Definition repomix_url : str := u "https://fastmcp.me/MCP/Details/217/repomix".

(** A marketplace rooted at [/market], a plugin directory [foo] in it, and
    two records for it. *)
Definition market : marketplace.Marketplace :=
  marketplace.__init__ [u "/"; u "market"].

Definition foo_path : Fs.Path := [u "/"; u "market"; u "plugins"; u "foo"].

Definition info_a : MCPInfo :=
  {| name := u "Foo"; description := u "first"; author := []; tools := [];
     install_command := u "npx"; install_args := [u "-y"; u "foo"];
     connection_type := u "stdio"; http_url := None; env_vars := [];
     homepage := None; source_url := u "https://smithery.ai/server/foo" |}.


(** The catalog [initialize] writes by default. *)
Definition default_catalog : MarketplaceConfig :=
  {| mc_name := u "mcp2plugin-marketplace";
     mc_description := u "Converted MCP servers as Claude Code plugins";
     mc_owner := {| mo_name := u "mcp2plugin"; mo_email := None |};
     mc_plugins := [] |}.

(** A record with a description, a tool and an install command. *)
Definition complete_info : MCPInfo :=
  {| name := u "Foo"; description := u "does things"; author := [];
     tools := [{| t_name := u "get_foo"; t_description := [] |}];
     install_command := u "npx"; install_args := [];
     connection_type := u "stdio"; http_url := None; env_vars := [];
     homepage := None; source_url := u "https://smithery.ai/server/foo" |}.

(** A record with connection type "http" whose URL is the empty string. *)
Definition http_with_empty_url : MCPInfo :=
  {| name := u "Demo"; description := []; author := [];
     tools := []; install_command := []; install_args := [];
     connection_type := u "http"; http_url := Some [];
     env_vars := []; homepage := None;
     source_url := u "https://smithery.ai/server/demo" |}.

(** A converter that writes under [/market/plugins], without a model. *)
Definition plain_converter
  : converter.Converter (js := json_files) (net := one_page) :=
  {| converter.output_dir := [u "/"; u "market"; u "plugins"];
     converter.marketplace_path := [u "/"; u "market"];
     converter.marketplace := market;
     converter.generator :=
       {| plugin_generator.output_dir := [u "/"; u "market"; u "plugins"] |};
     converter.use_llm := false;
     converter.gemini_parser := None;
     converter.sources :=
       [fastmcp.FastMCPSource (db := ascii_db) (ip := plain_interp)
                              (html := flat_html);
        smithery.SmitherySource (db := ascii_db) (ip := plain_interp)
                                (html := flat_html)] |}.

(** A network without connection: every request fails. *)
Definition offline : Network :=
  {| http_response := fun _ _ => Raise (HTTPError (u "connection refused"));
     llm_response := fun _ _ => Raise (OtherError (u "unavailable"));
     loads_enhancements := fun _ => Raise (OtherError (u "no JSON"));
     getenv_GEMINI_API_KEY := None |}.

(** The same converter without connection. *)
Definition offline_converter
  : converter.Converter (js := json_files) (net := offline) :=
  {| converter.output_dir := [u "/"; u "market"; u "plugins"];
     converter.marketplace_path := [u "/"; u "market"];
     converter.marketplace := market;
     converter.generator :=
       {| plugin_generator.output_dir := [u "/"; u "market"; u "plugins"] |};
     converter.use_llm := false;
     converter.gemini_parser := None;
     converter.sources :=
       [fastmcp.FastMCPSource (db := ascii_db) (ip := plain_interp)
                              (html := flat_html);
        smithery.SmitherySource (db := ascii_db) (ip := plain_interp)
                                (html := flat_html)] |}.

(** A page of smithery.ai and the alias of it on the server host. *)
Definition slack_url : str := u "https://smithery.ai/server/slack".

Definition slack_alias : str := u "https://server.smithery.ai/slack".

(** A catalog file that lists [foo] twice, around [bar], as a file edited
    by hand may: the loader takes it as it is. *)
Definition listed (n d : string) : MarketplacePlugin :=
  {| mp_name := u n; mp_source := u "./plugins/" ++ u n; mp_description := u d;
     mp_category := Some (u "mcp"); mp_homepage := None |}.

Definition twice_listed : MarketplaceConfig :=
  marketplace.with_plugins default_catalog
    [listed "foo" "old"; listed "bar" "other"; listed "foo" "older"].

Definition twice_listed_world : Eff.World (js := json_files) :=
  {| Eff.requests := [];
     Eff.fs :=
       {| Fs.dirs := [marketplace.config_dir market];
          Fs.files := [(marketplace.config_path market,
                        @json_dump json_files
                          (MarketplaceConfig_model_dump twice_listed))] |} |}.

(** A stdio record that asks for two environment variables. *)
Definition info_env : MCPInfo :=
  {| name := u "Foo"; description := u "first"; author := []; tools := [];
     install_command := u "uvx"; install_args := [u "foo-mcp"];
     connection_type := u "stdio"; http_url := None;
     env_vars := [u "FOO_TOKEN"; u "FOO_HOME"];
     homepage := None; source_url := u "https://smithery.ai/server/foo" |}.

End Demo.

(** * Part III: verification *)

Import Spec.


(** ** Strings *)

Lemma str_eqb_eq (a b : str) : Py.str_eqb a b = true <-> a = b.
Proof.
  revert b; induction a as [|x a IH]; intros [|y b]; simpl; split;
    try congruence; try reflexivity.
  - intros H. apply andb_prop in H as [Hx Ha].
    apply N.eqb_eq in Hx. apply IH in Ha. now subst.
  - intros H. injection H as -> ->.
    rewrite N.eqb_refl. simpl. now apply IH.
Qed.

Lemma str_eqb_refl (a : str) : Py.str_eqb a a = true.
Proof. now apply str_eqb_eq. Qed.

Lemma str_eqb_neq (a b : str) : Py.str_eqb a b = false <-> a <> b.
Proof.
  split.
  - intros H E. apply str_eqb_eq in E. congruence.
  - intros H. destruct (Py.str_eqb a b) eqn:E; [|reflexivity].
    apply str_eqb_eq in E. contradiction.
Qed.

Lemma starts_with_app (p s : str) : Py.starts_with p (p ++ s) = true.
Proof. induction p; simpl; [reflexivity|]. now rewrite N.eqb_refl. Qed.

Lemma starts_with_split (p s : str) :
  Py.starts_with p s = true -> exists s', s = p ++ s'.
Proof.
  revert s; induction p as [|a p IH]; intros s H.
  - now exists s.
  - destruct s as [|b s]; simpl in H; [discriminate|].
    apply andb_prop in H as [Hab Hp]. apply N.eqb_eq in Hab. subst b.
    destruct (IH _ Hp) as [s' ->]. now exists s'.
Qed.

Lemma contains_here (p s : str) : Py.starts_with p s = true -> Py.contains p s = true.
Proof. intros H. destruct s; simpl; now rewrite H. Qed.

Lemma contains_app (p a b : str) : Py.contains p (a ++ p ++ b) = true.
Proof.
  induction a as [|c a IH]; simpl.
  - apply contains_here, starts_with_app.
  - rewrite IH. apply orb_true_r.
Qed.

(** ** The matcher against the language of a pattern *)

Section Semantics.
Context {db : UnicodeDB}.
Variable ic : bool.

Lemma firstn_consumed (w s' : str) : firstn (length (w ++ s') - length s') (w ++ s') = w.
Proof.
  rewrite length_app. replace (length w + length s' - length s') with (length w) by lia.
  rewrite firstn_app, Nat.sub_diag, firstn_all. simpl. apply app_nil_r.
Qed.

Lemma star_k_sound {A} (p : char -> bool) (s : str) (k : str -> option A) (x : A) :
  Re.star_k p s k = Some x ->
  exists w s', s = w ++ s' /\ forallb p w = true /\ k s' = Some x.
Proof.
  revert x; induction s as [|c s IH]; intros x H; simpl in H.
  - exists [], []. auto.
  - destruct (p c) eqn:Hc.
    + destruct (Re.star_k p s k) as [y|] eqn:Hs.
      * injection H as <-. destruct (IH _ eq_refl) as (w & s' & -> & Hw & Hk).
        exists (c :: w), s'. simpl. rewrite Hc, Hw. auto.
      * exists [], (c :: s). auto.
    + exists [], (c :: s). auto.
Qed.

Lemma star_k_complete {A} (p : char -> bool) (w rest : str) (k : str -> option A) :
  forallb p w = true -> k rest <> None -> Re.star_k p (w ++ rest) k <> None.
Proof.
  induction w as [|c w IH]; simpl; intros Hw Hk.
  - destruct rest as [|c rest]; simpl; [assumption|].
    destruct (p c); [|assumption].
    destruct (Re.star_k p rest k); [discriminate | assumption].
  - apply andb_prop in Hw as [Hc Hw]. rewrite Hc.
    specialize (IH Hw Hk). destruct (Re.star_k p (w ++ rest) k); congruence.
Qed.

(** Soundness: a successful run of the matcher consumed a text of the
    pattern's language and handed the rest to the continuation. *)
Lemma rmatch_sound {A} (r : Re.regex) :
  forall (s : str) (g : Re.caps) (k : str -> Re.caps -> option A) (x : A),
    Re.rmatch ic r s g k = Some x ->
    exists w s' g', s = w ++ s' /\ sem ic r w s' g g' /\ k s' g' = Some x.
Proof.
  induction r as [|a|r1 IH1 r2 IH2|r1 IH1 r2 IH2|r1 IH1|a|a|i r1 IH1|];
    intros s g k x H; simpl in H.
  - exists [], s, g. repeat split; [constructor | assumption].
  - destruct s as [|c s]; [discriminate|].
    destruct (Re.single_match ic a c) eqn:Hc; [|discriminate].
    exists [c], s, g. repeat split; [now constructor | assumption].
  - apply IH1 in H as (w1 & s1 & g1 & -> & S1 & H).
    apply IH2 in H as (w2 & s2 & g2 & -> & S2 & H).
    exists (w1 ++ w2), s2, g2. rewrite <- app_assoc.
    repeat split; [econstructor; eassumption | assumption].
  - destruct (Re.rmatch ic r1 s g k) as [y|] eqn:H1.
    + injection H as <-. apply IH1 in H1 as (w & s' & g' & -> & S1 & H).
      exists w, s', g'. repeat split; [now apply sem_AltL | assumption].
    + apply IH2 in H as (w & s' & g' & -> & S2 & H).
      exists w, s', g'. repeat split; [now apply sem_AltR | assumption].
  - destruct (Re.rmatch ic r1 s g k) as [y|] eqn:H1.
    + injection H as <-. apply IH1 in H1 as (w & s' & g' & -> & S1 & H).
      exists w, s', g'. repeat split; [now apply sem_OptSome | assumption].
    + exists [], s, g. repeat split; [apply sem_OptNone | assumption].
  - apply star_k_sound in H as (w & s' & -> & Hw & H).
    exists w, s', g. repeat split; [now constructor | assumption].
  - destruct s as [|c s]; [discriminate|].
    destruct (Re.single_match ic a c) eqn:Hc; [|discriminate].
    apply star_k_sound in H as (w & s' & -> & Hw & H).
    exists (c :: w), s', g. repeat split; [now constructor | assumption].
  - apply IH1 in H as (w & s' & g' & -> & S1 & H).
    rewrite firstn_consumed in H.
    exists w, s', ((i, w) :: g'). repeat split; [now constructor | assumption].
  - destruct s as [|c [|c' s]].
    + exists [], [], g. repeat split; [constructor; auto | assumption].
    + destruct (c =? 10)%N eqn:Hc; [|discriminate]. apply N.eqb_eq in Hc. subst c.
      exists [], [10%N], g. repeat split; [constructor; auto | assumption].
    + discriminate.
Qed.

(** Completeness: when some text of the language is followed by a rest the
    continuation accepts, the matcher succeeds (on that split or on one it
    tries earlier). *)
Lemma rmatch_complete {A} (r : Re.regex) (w rest : str) (g g' : Re.caps) :
  sem ic r w rest g g' ->
  forall (k : str -> Re.caps -> option A) (g0 : Re.caps),
    (forall g1, k rest g1 <> None) ->
    Re.rmatch ic r (w ++ rest) g0 k <> None.
Proof.
  induction 1 as [rest g|a c rest g Hc|r1 r2 w1 w2 rest g g1 g2 _ IH1 _ IH2
                  |r1 r2 w rest g g' _ IH|r1 r2 w rest g g' _ IH
                  |r w rest g g' _ IH|r rest g|a w rest g Hw|a c w rest g Hc Hw
                  |i r w rest g g' _ IH|rest g Hr];
    intros k g0 Hk; simpl.
  - apply Hk.
  - rewrite Hc. apply Hk.
  - rewrite <- app_assoc. apply IH1. intros g3. now apply IH2.
  - specialize (IH k g0 Hk). destruct (Re.rmatch ic r1 (w ++ rest) g0 k); congruence.
  - destruct (Re.rmatch ic r1 (w ++ rest) g0 k); [discriminate|]. now apply IH.
  - specialize (IH k g0 Hk). destruct (Re.rmatch ic r (w ++ rest) g0 k); congruence.
  - destruct (Re.rmatch ic r rest g0 k); [discriminate|]. apply Hk.
  - apply star_k_complete; [assumption | apply Hk].
  - rewrite Hc. apply star_k_complete; [assumption | apply Hk].
  - apply IH. intros g1. apply Hk.
  - destruct Hr as [-> | ->]; simpl; apply Hk.
Qed.

Lemma re_match_iff (r : Re.regex) (s : str) :
  Re.re_match ic r s <> None <-> matches_prefix ic r s.
Proof.
  unfold Re.re_match, matches_prefix. split.
  - intros H. destruct (Re.rmatch ic r s [] _) as [m|] eqn:E; [|congruence].
    apply rmatch_sound in E as (w & s' & g' & -> & S & _). now exists w, s', g'.
  - intros (w & rest & g & -> & S).
    eapply rmatch_complete; [eassumption | discriminate].
Qed.

(** What a match object of [re_match] holds. *)
Lemma re_match_sound (r : Re.regex) (s : str) (m : Re.Match) :
  Re.re_match ic r s = Some m ->
  exists rest, s = Re.m_text m ++ rest /\ sem ic r (Re.m_text m) rest [] (Re.m_groups m).
Proof.
  unfold Re.re_match. intros H.
  apply rmatch_sound in H as (w & s' & g' & -> & S & H).
  rewrite firstn_consumed in H. injection H as <-. simpl. now exists s'.
Qed.

(** The fuel [pieces] gives the scan is enough: more fuel changes nothing. *)
Lemma scan_fuel_enough (r : Re.regex) (fuel1 fuel2 : nat) (s : str) :
  length s < fuel1 -> length s < fuel2 -> Re.scan ic fuel1 r s = Re.scan ic fuel2 r s.
Proof.
  revert fuel2 s; induction fuel1 as [|fuel1 IH]; intros fuel2 s H1 H2; [lia|].
  destruct fuel2 as [|fuel2]; [lia|]. cbn [Re.scan].
  destruct (Re.re_match ic r s) as [m|] eqn:E.
  - apply re_match_sound in E as (rest & Hs & _).
    assert (Hle : length (Re.m_text m) <= length s)
      by (apply (f_equal (@length char)) in Hs; rewrite length_app in Hs; lia).
    destruct (length (Re.m_text m)) as [|n] eqn:L.
    + destruct s as [|c s]; [reflexivity|]. do 2 f_equal.
      apply IH; simpl in *; lia.
    + f_equal. apply IH; rewrite length_skipn; lia.
  - destruct s as [|c s]; [reflexivity|]. f_equal. apply IH; simpl in *; lia.
Qed.

(** What a match object of [re_search] holds. *)
Lemma re_search_sound (r : Re.regex) (s : str) (m : Re.Match) :
  Re.re_search ic r s = Some m ->
  exists before rest,
    s = before ++ Re.m_text m ++ rest /\ length before = Re.m_start m /\
    sem ic r (Re.m_text m) rest [] (Re.m_groups m).
Proof.
  revert m; induction s as [|c s IH]; intros m H; simpl in H.
  - destruct (Re.re_match ic r []) as [m'|] eqn:E; [|discriminate].
    injection H as <-. pose proof E as E0. unfold Re.re_match in E0.
    apply re_match_sound in E as (rest & Hs & S).
    exists [], rest. simpl. repeat split; try assumption.
    apply rmatch_sound in E0 as (? & ? & ? & _ & _ & E0). now injection E0 as <-.
  - destruct (Re.re_match ic r (c :: s)) as [m'|] eqn:E.
    + injection H as <-. pose proof E as E0. unfold Re.re_match in E0.
      apply re_match_sound in E as (rest & Hs & S).
      exists [], rest. simpl. repeat split; try assumption.
      apply rmatch_sound in E0 as (? & ? & ? & _ & _ & E0). now injection E0 as <-.
    + destruct (Re.re_search ic r s) as [m'|] eqn:E'; [|discriminate].
      injection H as <-. destruct (IH _ eq_refl) as (before & rest & -> & Hl & S).
      exists (c :: before), rest. simpl. repeat split; [now f_equal | assumption].
Qed.

Lemma re_search_skip (r : Re.regex) (c : char) (s : str) :
  Re.re_match ic r (c :: s) = None ->
  Re.re_search ic r (c :: s) = option_map Re.shift (Re.re_search ic r s).
Proof. intros H. simpl. now rewrite H. Qed.

Lemma re_search_none (r : Re.regex) (s : str) :
  (forall before after, s = before ++ after -> Re.re_match ic r after = None) ->
  Re.re_search ic r s = None.
Proof.
  induction s as [|c s IH]; intros H; simpl.
  - now rewrite (H [] []).
  - rewrite (H [] (c :: s)) by reflexivity.
    rewrite IH; [reflexivity|]. intros before after ->. now apply (H (c :: before)).
Qed.

End Semantics.

(** ** utils/url_parser.py *)

Section UrlParserProofs.
Context {db : UnicodeDB}.
Import Re url_parser.

Lemma sem_lit (l rest : str) (g : caps) : sem false (lit l) l rest g g.
Proof.
  induction l as [|c l IH]; simpl.
  - constructor.
  - change (c :: l) with ([c] ++ l). econstructor; [|exact IH].
    constructor. simpl. apply N.eqb_refl.
Qed.

Lemma sem_lit_inv (l w rest : str) (g g' : caps) :
  sem false (lit l) w rest g g' -> w = l /\ g' = g.
Proof.
  revert w g g'; induction l as [|c l IH]; intros w g g' H; simpl in H.
  - inversion H; subst. auto.
  - inversion H as [| |r1 r2 w1 w2 rest' g0 g1 g2 H1 H2| | | | | | | |]; subst.
    inversion H1 as [|a c' rest' g0 Hc| | | | | | | | |]; subst.
    simpl in Hc. apply N.eqb_eq in Hc. subst c'.
    apply IH in H2 as [-> ->]. auto.
Qed.

Lemma sem_Cat_cons (r : regex) (rs : list regex) (w1 w2 rest : str) (g g1 g2 : caps) :
  sem false r w1 (w2 ++ rest) g g1 -> sem false (Cat rs) w2 rest g1 g2 ->
  sem false (Cat (r :: rs)) (w1 ++ w2) rest g g2.
Proof. intros H1 H2. simpl. econstructor; eassumption. Qed.

Lemma sem_Cat_one (r : regex) (w rest : str) (g g1 : caps) :
  sem false r w rest g g1 -> sem false (Cat [r]) w rest g g1.
Proof.
  intros H. simpl. rewrite <- (app_nil_r w).
  econstructor; [simpl; exact H | constructor].
Qed.

Lemma sem_Cat_inv (r : regex) (rs : list regex) (w rest : str) (g g2 : caps) :
  sem false (Cat (r :: rs)) w rest g g2 ->
  exists w1 w2 g1, w = w1 ++ w2 /\ sem false r w1 (w2 ++ rest) g g1 /\
                   sem false (Cat rs) w2 rest g1 g2.
Proof.
  intros H. change (Cat (r :: rs)) with (Seq r (Cat rs)) in H.
  inversion H; subst. eauto 7.
Qed.

Lemma sem_Cat_nil_inv (w rest : str) (g g2 : caps) :
  sem false (Cat []) w rest g g2 -> w = [] /\ g2 = g.
Proof. intros H. inversion H; subst. auto. Qed.

(** A URL of the shape the fastmcp.me pattern is written for: scheme,
    optional [www.], the path, a number and a name. *)
Lemma fastmcp_url_matches_template (number mcp_name rest : str) (d c : char) :
  forallb (single_match false (SSet false [CDigit])) (d :: number) = true ->
  forallb (single_match false not_slash_space) (c :: mcp_name) = true ->
  matches_template FASTMCP_PATTERN
    (u "https://fastmcp.me/MCP/Details/" ++ (d :: number) ++ u "/" ++ (c :: mcp_name) ++ rest).
Proof.
  intros Hd Hn.
  exists (u "https://fastmcp.me/MCP/Details/" ++ (d :: number) ++ u "/" ++ (c :: mcp_name)),
         rest, [(2, c :: mcp_name); (1, d :: number)].
  split; [now rewrite <- !app_assoc|].
  unfold FASTMCP_PATTERN.
  change (u "https://fastmcp.me/MCP/Details/")
    with (u "http" ++ (u "s" ++ (u "://" ++ ([] ++ u "fastmcp.me/MCP/Details/")))).
  rewrite <- !app_assoc.
  apply sem_Cat_cons with (g1 := []); [apply sem_lit|].
  apply sem_Cat_cons with (g1 := []); [apply sem_OptSome, sem_lit|].
  apply sem_Cat_cons with (g1 := []); [apply sem_lit|].
  apply sem_Cat_cons with (g1 := []); [apply sem_OptNone|].
  apply sem_Cat_cons with (g1 := []); [apply sem_lit|].
  apply sem_Cat_cons with (g1 := [(1, d :: number)]).
  { apply sem_Group. simpl in Hd. apply andb_prop in Hd as [Hd1 Hd2].
    now apply sem_Plus. }
  apply sem_Cat_cons with (g1 := [(1, d :: number)]); [apply sem_lit|].
  apply sem_Cat_one, sem_Group.
  simpl in Hn. apply andb_prop in Hn as [Hn1 Hn2]. now apply sem_Plus.
Qed.

(** C5. For every URL that matches the fastmcp.me template, [detect_source]
    returns [FASTMCP] and [FastMCPSource.can_handle] returns true; for every
    string that matches neither template, [detect_source] returns
    [UNKNOWN]. *)
Theorem detect_source_by_template (url : str) :
  (matches_template FASTMCP_PATTERN url ->
   detect_source url = FASTMCP /\ fastmcp.can_handle url = true) /\
  (~ matches_template FASTMCP_PATTERN url ->
   ~ matches_template SMITHERY_PATTERN url ->
   detect_source url = UNKNOWN).
Proof.
  unfold matches_template, detect_source, fastmcp.can_handle. split.
  - intros H. apply re_match_iff in H.
    destruct (re_match false FASTMCP_PATTERN url); [auto | congruence].
  - intros HF HS.
    destruct (re_match false FASTMCP_PATTERN url) eqn:EF.
    + exfalso. apply HF, re_match_iff. congruence.
    + destruct (re_match false SMITHERY_PATTERN url) eqn:ES; [|reflexivity].
      exfalso. apply HS, re_match_iff. congruence.
Qed.

End UrlParserProofs.

(** The theorem at the URL of a fastmcp.me page and at a URL of another
    site. *)
Lemma detect_source_by_template_witness :
  (url_parser.detect_source (db := ascii_db) (u "https://fastmcp.me/MCP/Details/217/repomix")
     = url_parser.FASTMCP /\
   fastmcp.can_handle (db := ascii_db) (u "https://fastmcp.me/MCP/Details/217/repomix") = true) /\
  url_parser.detect_source (db := ascii_db) (u "https://example.com/server/slack")
    = url_parser.UNKNOWN.
Proof.
  split.
  - apply (proj1 (detect_source_by_template (db := ascii_db) _)).
    apply (fastmcp_url_matches_template (db := ascii_db) (u "17") (u "epomix") []
             (chr "2") (chr "r")); reflexivity.
  - apply (proj2 (detect_source_by_template (db := ascii_db) _));
      intros H; apply re_match_iff in H; apply H; reflexivity.
Defined.

Section NormalizeProofs.
Context {db : UnicodeDB}.
Import Re url_parser.

(** The slash is not a character of [[^/\s]]. *)
Lemma slash_excluded : single_match false not_slash_space (chr "/") = false.
Proof. reflexivity. Qed.

Lemma forallb_mid {A} (p : A -> bool) (a b : list A) (x : A) :
  forallb p (a ++ x :: b) = true -> p x = true.
Proof.
  rewrite forallb_app. intros H. apply andb_prop in H as [_ H].
  cbn [forallb] in H. now apply andb_prop in H as [H _].
Qed.

(** What a match of the alias pattern looks like. *)
Lemma alias_pattern_inv (w rest : str) (g' : caps) :
  sem false SERVER_ALIAS_PATTERN w rest [] g' ->
  exists server_name,
    w = u "server.smithery.ai/" ++ server_name /\
    g' = [(1, server_name)] /\
    forallb (single_match false not_slash_space) server_name = true.
Proof.
  unfold SERVER_ALIAS_PATTERN. intros H.
  apply sem_Cat_inv in H as (w1 & w2 & g1 & -> & H1 & H2).
  apply sem_lit_inv in H1 as [-> ->].
  apply sem_Cat_inv in H2 as (w3 & w4 & g2 & -> & H3 & H4).
  apply sem_Cat_nil_inv in H4 as [-> ->].
  inversion H3 as [| | | | | | | | |i r w rest' g0 g3 HP|]; subst.
  inversion HP as [| | | | | | | |a c w5 rest' g0 Hc Hw| |]; subst.
  exists (c :: w5). rewrite app_nil_r. repeat split. cbn [forallb].
  apply andb_true_intro. split; assumption.
Qed.

(** The alias pattern matches no text without a slash. *)
Lemma alias_pattern_needs_slash (s : str) :
  forallb (single_match false not_slash_space) s = true ->
  re_search false SERVER_ALIAS_PATTERN s = None.
Proof.
  intros Hs. apply re_search_none. intros before after ->.
  destruct (re_match false SERVER_ALIAS_PATTERN after) as [m|] eqn:E; [|reflexivity].
  exfalso. apply re_match_sound in E as (rest & Ha & S).
  apply alias_pattern_inv in S as (server_name & Hw & _ & _).
  rewrite Hw in Ha. subst after.
  assert (E : before ++ (u "server.smithery.ai/" ++ server_name) ++ rest
              = (before ++ u "server.smithery.ai") ++ chr "/" :: (server_name ++ rest)).
  { change (u "server.smithery.ai/") with (u "server.smithery.ai" ++ [chr "/"]).
    now rewrite <- !app_assoc. }
  rewrite E in Hs. apply forallb_mid in Hs.
  rewrite slash_excluded in Hs. discriminate.
Qed.

(** The canonical URL holds no alias, whatever the server's name. *)
Lemma canonical_has_no_alias (server_name : str) :
  forallb (single_match false not_slash_space) server_name = true ->
  re_search false SERVER_ALIAS_PATTERN (u "https://smithery.ai/server/" ++ server_name) = None.
Proof.
  intros Hs. cbn -[SERVER_ALIAS_PATTERN re_search].
  repeat (rewrite re_search_skip by reflexivity).
  rewrite (alias_pattern_needs_slash _ Hs). reflexivity.
Qed.

Lemma normalize_url_without_alias (url : str) :
  re_search false SERVER_ALIAS_PATTERN url = None -> normalize_url url = url.
Proof. intros H. unfold normalize_url. rewrite H. now destruct (Py.contains _ _). Qed.

(** C6. [normalize_url] is idempotent. *)
Theorem normalize_url_idempotent (url : str) :
  normalize_url (normalize_url url) = normalize_url url.
Proof.
  destruct (re_search false SERVER_ALIAS_PATTERN url) as [m|] eqn:E.
  - destruct (Py.contains (u "server.smithery.ai") url) eqn:Hin.
    + assert (Hn : normalize_url url = u "https://smithery.ai/server/" ++ group_text 1 m).
      { unfold normalize_url. now rewrite Hin, E. }
      rewrite Hn. apply normalize_url_without_alias.
      apply re_search_sound in E as (before & rest & _ & _ & S).
      apply alias_pattern_inv in S as (server_name & _ & Hg & Hs).
      unfold group_text, group. rewrite Hg. simpl lookup.
      now apply canonical_has_no_alias.
    + assert (Hn : normalize_url url = url).
      { unfold normalize_url. now rewrite Hin. }
      now rewrite !Hn.
  - now rewrite !(normalize_url_without_alias _ E).
Qed.

End NormalizeProofs.

(** ** core/plugin_generator.py: the sanitizer *)

Section StripProofs.

Lemma lstrip_suffix (p : char -> bool) (s : str) :
  exists stripped, s = stripped ++ Py.lstrip_with p s /\ forallb p stripped = true.
Proof.
  induction s as [|c s (x & IH & Hx)]; simpl.
  - now exists [].
  - destruct (p c) eqn:Hc.
    + exists (c :: x). simpl. rewrite Hc, Hx. split; [now f_equal | reflexivity].
    + now exists [].
Qed.

Lemma lstrip_head (p : char -> bool) (s : str) (c : char) (t : str) :
  Py.lstrip_with p s = c :: t -> p c = false.
Proof.
  induction s as [|d s IH]; simpl; [discriminate|].
  destruct (p d) eqn:Hd; [assumption|]. intros H. now injection H as <- _.
Qed.

Lemma rstrip_prefix (p : char -> bool) (s : str) :
  exists stripped, s = Py.rstrip_with p s ++ stripped.
Proof.
  unfold Py.rstrip_with. destruct (lstrip_suffix p (rev s)) as (x & Hx & _).
  exists (rev x). rewrite <- rev_app_distr, <- Hx. now rewrite rev_involutive.
Qed.

Lemma starts_with_prefix (p a b : str) :
  Py.starts_with p a = true -> Py.starts_with p (a ++ b) = true.
Proof.
  revert a; induction p as [|c p IH]; intros a H; [reflexivity|].
  destruct a as [|d a]; simpl in *; [discriminate|].
  apply andb_prop in H as [H1 H2]. rewrite H1. now apply IH.
Qed.

Lemma contains_suffix (p a b : str) :
  Py.contains p b = true -> Py.contains p (a ++ b) = true.
Proof.
  intros H. induction a as [|c a IH]; simpl; [assumption|].
  rewrite IH. apply orb_true_r.
Qed.

Lemma contains_prefix (p a b : str) :
  Py.contains p a = true -> Py.contains p (a ++ b) = true.
Proof.
  induction a as [|c a IH]; simpl; intros H.
  - rewrite orb_false_r in H. apply contains_here.
    now apply (starts_with_prefix p [] b).
  - apply orb_prop in H as [H | H].
    + pose proof (starts_with_prefix p (c :: a) b H) as H'.
      cbn [app] in H'. now rewrite H'.
    + rewrite (IH H). apply orb_true_r.
Qed.

Lemma not_contains_suffix (p a b : str) :
  Py.contains p (a ++ b) = false -> Py.contains p b = false.
Proof.
  intros H. destruct (Py.contains p b) eqn:E; [|reflexivity].
  now rewrite contains_suffix in H.
Qed.

Lemma not_contains_prefix (p a b : str) :
  Py.contains p (a ++ b) = false -> Py.contains p a = false.
Proof.
  intros H. destruct (Py.contains p a) eqn:E; [|reflexivity].
  now rewrite contains_prefix in H.
Qed.

(** [s.strip(c)] neither starts nor ends with [c], and holds no text that
    [s] does not hold. *)
Lemma strip_char_spec (c : char) (s : str) :
  Py.starts_with [c] (Py.strip_char c s) = false /\
  Py.ends_with [c] (Py.strip_char c s) = false /\
  forall p, Py.contains p s = false -> Py.contains p (Py.strip_char c s) = false.
Proof.
  unfold Py.strip_char.
  destruct (lstrip_suffix (N.eqb c) s) as (x & Hx & _).
  destruct (rstrip_prefix (N.eqb c) (Py.lstrip_with (N.eqb c) s)) as (y & Hy).
  repeat split.
  - destruct (Py.rstrip_with _ _) as [|d t] eqn:E; [reflexivity|].
    simpl in Hy. apply lstrip_head in Hy.
    simpl. now rewrite Hy.
  - unfold Py.ends_with, Py.rstrip_with. rewrite rev_involutive.
    destruct (Py.lstrip_with _ (rev _)) as [|d t] eqn:E; [reflexivity|].
    apply lstrip_head in E. simpl. now rewrite E.
  - intros p H. rewrite Hx in H. apply not_contains_suffix in H.
    rewrite Hy in H. now apply not_contains_prefix in H.
Qed.

End StripProofs.

Section SanitizeProofs.
Context {db : UnicodeDB}.
Import Re plugin_generator.

Lemma star_k_total {A} (p : char -> bool) (s : str) (k : str -> option A) :
  (forall t, k t <> None) -> star_k p s k = k (Py.lstrip_with p s).
Proof.
  intros Hk. induction s as [|c s IH]; simpl; [reflexivity|].
  destruct (p c); [|reflexivity]. rewrite IH.
  destruct (k (Py.lstrip_with p s)) eqn:E; [reflexivity|]. now apply Hk in E.
Qed.

Lemma lstrip_length (p : char -> bool) (s : str) :
  length (Py.lstrip_with p s) <= length s.
Proof.
  destruct (lstrip_suffix p s) as (x & Hx & _).
  rewrite Hx at 2. rewrite length_app. lia.
Qed.

Lemma skipn_consumed (w s' : str) : skipn (length (w ++ s') - length s') (w ++ s') = s'.
Proof.
  rewrite length_app. replace (length w + length s' - length s') with (length w) by lia.
  rewrite skipn_app, Nat.sub_diag, skipn_all. reflexivity.
Qed.

(** A run [a+] at the start of a text: the longest one is taken. *)
Lemma re_match_plus (a : single) (c : char) (s : str) :
  single_match false a c = true ->
  exists m, re_match false (Plus a) (c :: s) = Some m /\
    length (m_text m) = S (length s - length (Py.lstrip_with (single_match false a) s)) /\
    skipn (length (m_text m)) (c :: s) = Py.lstrip_with (single_match false a) s.
Proof.
  intros Hc. unfold re_match. cbn [rmatch]. rewrite Hc.
  rewrite star_k_total by discriminate.
  eexists. split; [reflexivity|]. cbn [m_text].
  destruct (lstrip_suffix (single_match false a) s) as (x & Hx & _).
  set (t := Py.lstrip_with (single_match false a) s) in *.
  assert (E : c :: s = (c :: x) ++ t) by (simpl; now f_equal).
  rewrite E at 1 2 3 4. rewrite firstn_consumed. split.
  - rewrite Hx at 1. rewrite length_app. simpl. lia.
  - rewrite E, skipn_app, Nat.sub_diag, skipn_all. reflexivity.
Qed.

Lemma re_match_plus_fails (a : single) (s : str) :
  match s with [] => True | c :: _ => single_match false a c = false end ->
  re_match false (Plus a) s = None.
Proof.
  unfold re_match. destruct s as [|c s]; simpl; [reflexivity|]. now intros ->.
Qed.

(** [re.sub(r"-+", "-", s)] holds no two hyphens in a row, and starts with
    a hyphen only when [s] does. *)
Lemma collapse_hyphens (fuel : nat) (s : str) :
  length s < fuel ->
  let out := flat_map (emit (u "-")) (scan false fuel hyphens s) in
  Py.contains (u "--") out = false /\
  (Py.starts_with (u "-") out = true -> Py.starts_with (u "-") s = true).
Proof.
  cbn zeta. revert s; induction fuel as [|fuel IH]; intros s Hlen; [lia|].
  destruct s as [|c s].
  - simpl. auto.
  - cbn [scan]. destruct (chr "-" =? c)%N eqn:Hc.
    + destruct (re_match_plus (SChar (chr "-")) c s Hc) as (m & Hm & Hl & Hs).
      change (Plus (SChar (chr "-"))) with hyphens in Hm.
      rewrite Hl in Hs. rewrite Hm, Hl. cbv iota. rewrite Hs.
      set (t := Py.lstrip_with (single_match false (SChar (chr "-"))) s).
      assert (Ht : length t < fuel).
      { pose proof (lstrip_length (single_match false (SChar (chr "-"))) s).
        simpl in Hlen. subst t. lia. }
      destruct (IH t Ht) as [IH1 IH2].
      cbn [flat_map].
      set (out' := flat_map (emit (u "-")) (scan false fuel hyphens t)) in *.
      change (emit (u "-") (inr m) ++ out') with (chr "-" :: out'). split.
      2:{ intros _. change (Py.starts_with (u "-") (c :: s)) with ((chr "-" =? c)%N && true).
          now rewrite Hc. }
      cbn [Py.contains]. rewrite IH1, orb_false_r.
      change (Py.starts_with (u "--") (chr "-" :: out'))
        with ((chr "-" =? chr "-")%N && Py.starts_with (u "-") out').
      rewrite N.eqb_refl. cbn [andb].
      destruct (Py.starts_with (u "-") out') eqn:E; [|reflexivity].
      specialize (IH2 eq_refl). subst t.
      destruct (Py.lstrip_with _ s) as [|d t'] eqn:El; [discriminate|].
      apply lstrip_head in El.
      change (Py.starts_with (u "-") (d :: t')) with ((chr "-" =? d)%N && true) in IH2.
      cbn [single_match] in El. rewrite El in IH2. discriminate.
    + rewrite (re_match_plus_fails (SChar (chr "-")) (c :: s) Hc
               : re_match false hyphens (c :: s) = None).
      simpl in Hlen. assert (Ht : length s < fuel) by lia.
      destruct (IH s Ht) as [IH1 IH2].
      cbn [flat_map]. set (out' := flat_map (emit (u "-")) (scan false fuel hyphens s)) in *.
      change (emit (u "-") (inl [c]) ++ out') with (c :: out').
      change (Py.starts_with (u "-") (c :: out')) with ((chr "-" =? c)%N && true).
      rewrite Hc. split; [|discriminate].
      cbn [Py.contains]. rewrite IH1, orb_false_r.
      change (Py.starts_with (u "--") (c :: out'))
        with ((chr "-" =? c)%N && Py.starts_with (u "-") out').
      now rewrite Hc.
Qed.

(** C7. The sanitizer maps "My Cool MCP!!" to "my-cool-mcp" and "___" to
    the placeholder "unknown-plugin"; its output never starts with a hyphen,
    never ends with one, and never holds two hyphens in a row. *)
Theorem sanitize_name_kebab_case :
  _sanitize_name (u "My Cool MCP!!") = u "my-cool-mcp" /\
  _sanitize_name (u "___") = u "unknown-plugin" /\
  forall name : str,
    Py.starts_with (u "-") (_sanitize_name name) = false /\
    Py.ends_with (u "-") (_sanitize_name name) = false /\
    Py.contains (u "--") (_sanitize_name name) = false.
Proof.
  split; [reflexivity|]. split; [reflexivity|].
  intros name. unfold _sanitize_name.
  set (s2 := re_sub false spaces_and_underscores (u "-") _).
  set (s3 := re_sub false hyphens (u "-") s2).
  assert (H3 : Py.contains (u "--") s3 = false).
  { subst s3. unfold re_sub, pieces.
    apply (collapse_hyphens (S (length s2)) s2). lia. }
  destruct (strip_char_spec (chr "-") s3) as (Hs & He & Hc).
  specialize (Hc _ H3). unfold Py.or_else.
  destruct (Py.strip_char (chr "-") s3) as [|c t]; [now vm_compute|].
  cbn [Py.truthy]. auto.
Qed.

End SanitizeProofs.

(** ** core/plugin_generator.py: the descriptor *)

Section DescriptorProofs.
Context {db : UnicodeDB}.
Import models plugin_generator.

Lemma dump_single_server (c : PluginConfig) (key : str) (server_config : MCPServerConfig) :
  pc_mcpServers c = [(key, server_config)] ->
  match PluginConfig_model_dump c with
  | JDict data =>
      match dict_get (u "mcpServers") data with
      | Some (JDict servers) => dict_get key servers
      | _ => None
      end
  | _ => None
  end = Some (drop_none (MCPServerConfig_model_dump server_config)).
Proof.
  intros H. unfold PluginConfig_model_dump. rewrite H.
  destruct (pc_author c), (pc_homepage c), (pc_repository c);
    cbn -[drop_none MCPServerConfig_model_dump];
    rewrite str_eqb_refl; reflexivity.
Qed.

Lemma emitted_server_config_eq (mcp_info : MCPInfo) (plugin_name : str) :
  emitted_server_config mcp_info plugin_name =
  match pc_mcpServers (_create_plugin_config mcp_info plugin_name) with
  | [(_, server_config)] => Some (drop_none (MCPServerConfig_model_dump server_config))
  | _ => None
  end.
Proof.
  unfold emitted_server_config.
  erewrite dump_single_server; reflexivity.
Qed.

(** C4, as amended.  For every record with connection type "http" and a
    URL that is present and not empty, the serialized server config is
    exactly [type = "http"] and [url], so it has no [command] and no [args];
    for every record with connection type "stdio" and an empty install
    command, the emitted config has [command = "npx"]. *)
Theorem server_config_by_connection_type (mcp_info : MCPInfo) (plugin_name : str) :
  (forall url : str,
     connection_type mcp_info = u "http" ->
     http_url mcp_info = Some url ->
     url <> [] ->
     emitted_server_config mcp_info plugin_name
       = Some (JDict [(u "type", JStr (u "http")); (u "url", JStr url)])) /\
  (connection_type mcp_info = u "stdio" ->
   install_command mcp_info = [] ->
   exists config,
     emitted_server_config mcp_info plugin_name = Some (JDict config) /\
     dict_get (u "command") config = Some (JStr (u "npx"))).
Proof.
  rewrite emitted_server_config_eq. unfold _create_plugin_config. cbn [pc_mcpServers].
  split.
  - intros url Hc Hu Hne. rewrite Hc, Hu. cbn [Py.str_eqb u andb].
    destruct url as [|c url]; [contradiction|]. reflexivity.
  - intros Hc Hi. rewrite Hc, Hi.
    replace (Py.str_eqb (u "stdio") (u "http")) with false by reflexivity.
    cbn [andb]. destruct (Py.truthy (env_vars mcp_info));
      eexists; (split; [reflexivity|]); reflexivity.
Qed.

End DescriptorProofs.

(** C4 as stated fails: a record with connection type "http" and a URL
    that is not [None] but empty gets the stdio config, with [command] and
    [args]. *)
Lemma http_with_empty_url_gets_command :
  models.connection_type Demo.http_with_empty_url = u "http" /\
  models.http_url Demo.http_with_empty_url <> None /\
  forall db : UnicodeDB,
    emitted_server_config (db := db) Demo.http_with_empty_url (u "demo")
      = Some (models.JDict
                [(u "command", models.JStr (u "npx"));
                 (u "args", models.JList [models.JStr (u "-y");
                                          models.JStr (u "mcp-server-demo")])]).
Proof.
  split; [reflexivity|]. split; [discriminate|]. intros db. reflexivity.
Qed.

(** The theorem at a hosted record with the URL [https://x/y] and at a
    local record without install command. *)
Lemma server_config_by_connection_type_witness :
  emitted_server_config (db := ascii_db)
    {| models.name := u "Demo"; models.description := []; models.author := [];
       models.tools := []; models.install_command := []; models.install_args := [];
       models.connection_type := u "http"; models.http_url := Some (u "https://x/y");
       models.env_vars := []; models.homepage := None;
       models.source_url := u "https://smithery.ai/server/demo" |} (u "demo")
    = Some (models.JDict [(u "type", models.JStr (u "http"));
                          (u "url", models.JStr (u "https://x/y"))]) /\
  exists config,
    emitted_server_config (db := ascii_db)
      {| models.name := u "Demo"; models.description := []; models.author := [];
         models.tools := []; models.install_command := []; models.install_args := [];
         models.connection_type := u "stdio"; models.http_url := None;
         models.env_vars := []; models.homepage := None;
         models.source_url := u "https://smithery.ai/server/demo" |} (u "demo")
      = Some (models.JDict config) /\
    models.dict_get (u "command") config = Some (models.JStr (u "npx")).
Proof.
  split.
  - apply (proj1 (server_config_by_connection_type (db := ascii_db) _ _));
      [reflexivity | reflexivity | discriminate].
  - apply (proj2 (server_config_by_connection_type (db := ascii_db) _ _)); reflexivity.
Defined.

(** ** core/marketplace.py *)

Section FsProofs.
Context {Text : Type}.

Lemma path_eqb_refl (p : Fs.Path) : Fs.path_eqb p p = true.
Proof. induction p as [|a p IH]; simpl; [reflexivity|]. now rewrite str_eqb_refl. Qed.

Lemma read_write_in (p : Fs.Path) (t : Text) (fl : list (Fs.Path * Text)) :
  Fs.read p (Fs.write_in p t fl) = Some t.
Proof.
  induction fl as [|[q t'] fl IH]; simpl.
  - now rewrite path_eqb_refl.
  - destruct (Fs.path_eqb p q) eqn:E; simpl.
    + now rewrite path_eqb_refl.
    + now rewrite E.
Qed.

Lemma files_mkdir (s : Fs.FS Text) (p : Fs.Path) : Fs.files (Fs.mkdir s p) = Fs.files s.
Proof. unfold Fs.mkdir. now destruct (Fs.is_dir s p). Qed.

(** [path_eqb] decides the equality of paths. *)
Lemma path_eqb_eq (a b : Fs.Path) : Fs.path_eqb a b = true <-> a = b.
Proof.
  revert b; induction a as [|x a IH]; intros [|y b]; cbn; split;
    try congruence; try reflexivity.
  - intros H. apply andb_prop in H as [Hx Ha].
    apply str_eqb_eq in Hx. apply IH in Ha. now subst.
  - intros H. injection H as -> ->. rewrite str_eqb_refl. now apply IH.
Qed.

(** Writing a file leaves the content of the other files as it is. *)
Lemma read_write_in_other (p q : Fs.Path) (t : Text) (fl : list (Fs.Path * Text)) :
  Fs.path_eqb p q = false -> Fs.read p (Fs.write_in q t fl) = Fs.read p fl.
Proof.
  intros Hne. induction fl as [|[q0 t0] fl IH]; cbn.
  - now rewrite Hne.
  - destruct (Fs.path_eqb q q0) eqn:E; cbn.
    + apply path_eqb_eq in E. subst q0. now rewrite Hne.
    + now rewrite IH.
Qed.

End FsProofs.

Section CatalogLists.
Import models marketplace.

Lemma count_name_app (n : str) (a b : list MarketplacePlugin) :
  count_name n (a ++ b) = count_name n a + count_name n b.
Proof. unfold count_name. now rewrite filter_app, length_app. Qed.

Lemma index_of_none (n : str) (l : list MarketplacePlugin) :
  index_of n l = None -> count_name n l = 0.
Proof.
  induction l as [|p l IH]; simpl; [reflexivity|]. unfold count_name. simpl.
  destruct (Py.str_eqb (mp_name p) n); [discriminate|].
  destruct (index_of n l); [discriminate|]. intros _. now apply IH.
Qed.

Lemma index_of_some (n : str) (l : list MarketplacePlugin) (i : nat) :
  index_of n l = Some i ->
  exists p, nth_error l i = Some p /\ mp_name p = n /\
            forall j q, j < i -> nth_error l j = Some q -> mp_name q <> n.
Proof.
  revert i; induction l as [|p l IH]; intros i H; simpl in H; [discriminate|].
  destruct (Py.str_eqb (mp_name p) n) eqn:E.
  - injection H as <-. exists p. apply str_eqb_eq in E. repeat split; auto. lia.
  - destruct (index_of n l) as [k|]; [|discriminate]. injection H as <-.
    destruct (IH k eq_refl) as (q & Hq & Hn & Hlt).
    exists q. repeat split; auto. intros [|j] r Hj Hr; simpl in Hr.
    + injection Hr as <-. now apply str_eqb_neq.
    + apply (Hlt j); [lia | assumption].
Qed.

Lemma set_nth_spec (i : nat) (e : MarketplacePlugin) (l : list MarketplacePlugin) :
  i < length l ->
  nth_error (set_nth i e l) i = Some e /\
  length (set_nth i e l) = length l /\
  forall j, j <> i -> nth_error (set_nth i e l) j = nth_error l j.
Proof.
  revert i; induction l as [|p l IH]; intros i Hi; simpl in Hi; [lia|].
  destruct i as [|i]; simpl.
  - repeat split; auto. intros [|j] Hj; [contradiction | reflexivity].
  - destruct (IH i) as (H1 & H2 & H3); [lia|]. repeat split; auto.
    intros [|j] Hj; simpl; [reflexivity|]. apply H3. lia.
Qed.

(** Replacing the first entry named [n] by an entry named [n] keeps the
    first position of the name and the number of entries with it. *)
Lemma set_nth_same_name (n : str) (e : MarketplacePlugin) (l : list MarketplacePlugin)
      (i : nat) :
  mp_name e = n -> index_of n l = Some i ->
  index_of n (set_nth i e l) = Some i /\
  count_name n (set_nth i e l) = count_name n l /\
  map mp_name (set_nth i e l) = map mp_name l.
Proof.
  intros He. revert i; induction l as [|p l IH]; intros i H; simpl in H; [discriminate|].
  destruct (Py.str_eqb (mp_name p) n) eqn:E.
  - injection H as <-. simpl. unfold count_name. simpl.
    rewrite He, str_eqb_refl, E. apply str_eqb_eq in E.
    repeat split; auto. now rewrite E.
  - destruct (index_of n l) as [k|]; [|discriminate]. injection H as <-.
    destruct (IH k eq_refl) as (H1 & H2 & H3). simpl. unfold count_name in *. simpl.
    rewrite E, H1. repeat split; auto. now rewrite H3.
Qed.

Lemma index_of_app_new (n : str) (e : MarketplacePlugin) (l : list MarketplacePlugin) :
  mp_name e = n -> index_of n l = None -> index_of n (l ++ [e]) = Some (length l).
Proof.
  intros He. induction l as [|p l IH]; simpl.
  - now rewrite He, str_eqb_refl.
  - destruct (Py.str_eqb (mp_name p) n); [discriminate|].
    destruct (index_of n l); [discriminate|]. intros _. now rewrite IH.
Qed.

Lemma count_name_unique (n : str) (l : list MarketplacePlugin) :
  NoDup (map mp_name l) -> count_name n l <= 1.
Proof.
  induction l as [|p l IH]; simpl; intros H; [unfold count_name; simpl; lia|].
  inversion H as [|x xs Hnotin Hnd]; subst. specialize (IH Hnd).
  unfold count_name in *. simpl.
  destruct (Py.str_eqb (mp_name p) n) eqn:E; [|assumption]. simpl.
  apply str_eqb_eq in E. subst n.
  destruct (filter _ l) as [|q rest] eqn:F; [simpl; lia|]. exfalso.
  assert (Hq : In q (filter (fun p0 => Py.str_eqb (mp_name p0) (mp_name p)) l))
    by (rewrite F; now left).
  apply filter_In in Hq as [Hin Hq]. apply str_eqb_eq in Hq.
  apply Hnotin. rewrite <- Hq. now apply in_map.
Qed.

Lemma count_name_index (n : str) (l : list MarketplacePlugin) (i : nat) :
  index_of n l = Some i -> 1 <= count_name n l.
Proof.
  revert i; induction l as [|p l IH]; intros i H; simpl in H; [discriminate|].
  unfold count_name in *. simpl.
  destruct (Py.str_eqb (mp_name p) n); [simpl; lia|].
  destruct (index_of n l) as [k|]; [|discriminate]. now apply (IH k).
Qed.

(** What one call of the update does to the list. *)
Lemma upsert_spec (e : MarketplacePlugin) (l : list MarketplacePlugin) :
  exists i,
    index_of (mp_name e) (upsert e l) = Some i /\
    nth_error (upsert e l) i = Some e /\
    (index_of (mp_name e) l = Some i -> upsert e l = set_nth i e l) /\
    (index_of (mp_name e) l = None -> upsert e l = l ++ [e] /\ i = length l) /\
    count_name (mp_name e) (upsert e l) = Nat.max 1 (count_name (mp_name e) l) /\
    (NoDup (map mp_name l) -> NoDup (map mp_name (upsert e l))).
Proof.
  unfold upsert. destruct (index_of (mp_name e) l) as [i|] eqn:E.
  - exists i. destruct (set_nth_same_name (mp_name e) e l i eq_refl E) as (H1 & H2 & H3).
    destruct (index_of_some _ _ _ E) as (p & Hp & _).
    assert (Hi : i < length l) by (apply nth_error_Some; congruence).
    destruct (set_nth_spec i e l Hi) as (H4 & _).
    repeat split; auto; try discriminate.
    + pose proof (count_name_index _ _ _ E). rewrite H2. lia.
    + now rewrite H3.
  - exists (length l). repeat split; auto; try discriminate.
    + now apply index_of_app_new.
    + rewrite nth_error_app2, Nat.sub_diag by lia. reflexivity.
    + rewrite count_name_app, (index_of_none _ _ E). unfold count_name. simpl.
      now rewrite str_eqb_refl.
    + intros Hnd. rewrite map_app. simpl.
      apply NoDup_app; [assumption | repeat constructor; auto | ].
      intros x Hx [<- | []]. apply in_map_iff in Hx as (q & Hq & Hin).
      assert (Hc : 1 <= count_name (mp_name e) l).
      { unfold count_name.
        assert (Hf : In q (filter (fun p => Py.str_eqb (mp_name p) (mp_name e)) l))
          by (apply filter_In; split; [assumption | now apply str_eqb_eq]).
        destruct (filter _ l); [contradiction | simpl; lia]. }
      rewrite (index_of_none _ _ E) in Hc. lia.
Qed.

Lemma filter_shorter {A} (f : A -> bool) (l : list A) :
  (length (filter f l) <? length l) = true <-> exists x, In x l /\ f x = false.
Proof.
  rewrite Nat.ltb_lt. induction l as [|a l IH]; simpl.
  - split; [lia | intros (x & [] & _)].
  - pose proof (filter_length_le f l) as Hle. destruct (f a) eqn:E; simpl.
    + rewrite <- Nat.succ_lt_mono, IH. split.
      * intros (x & Hx & Hf). eauto.
      * intros (x & [<- | Hx] & Hf); [congruence | eauto].
    + split; [intros _; eauto | lia].
Qed.

End CatalogLists.

(** ** The stand-ins do what is assumed of the libraries *)

Section DemoProofs.
Import models Ext Demo.

Lemma plugin_round_trip (p : MarketplacePlugin) :
  plugin_of_json (MarketplacePlugin_model_dump p) = Some p.
Proof. destruct p as [n s d [c|] [h|]]; reflexivity. Qed.

Lemma plugins_round_trip (l : list MarketplacePlugin) :
  plugins_of_json (map MarketplacePlugin_model_dump l) = Some l.
Proof.
  induction l as [|p l IH]; [reflexivity|].
  cbn [map plugins_of_json]. now rewrite plugin_round_trip, IH.
Qed.

Lemma config_round_trip (c : MarketplaceConfig) :
  config_of_json (MarketplaceConfig_model_dump c) = Ok c.
Proof.
  destruct c as [n d [on [oe|]] ps];
    unfold MarketplaceConfig_model_dump, config_of_json;
    cbn -[plugins_of_json MarketplacePlugin_model_dump];
    now rewrite plugins_round_trip.
Qed.

Lemma dedupe_mem (x : str) (l : list str) : In x (dedupe l) <-> In x l.
Proof.
  induction l as [|y l IH]; simpl; [tauto|].
  destruct (Py.mem y l) eqn:E; simpl; rewrite IH; [|tauto].
  split; [tauto|]. intros [<- | H]; [|assumption].
  unfold Py.mem in E. apply existsb_exists in E as (z & Hz & Hyz).
  apply str_eqb_eq in Hyz. now subst.
Qed.

Lemma dedupe_NoDup (l : list str) : NoDup (dedupe l).
Proof.
  induction l as [|y l IH]; simpl; [constructor|].
  destruct (Py.mem y l) eqn:E; [assumption|]. constructor; [|assumption].
  rewrite dedupe_mem. intros H.
  assert (Py.mem y l = true); [|congruence].
  unfold Py.mem. apply existsb_exists. exists y. split; [assumption | apply str_eqb_refl].
Qed.

End DemoProofs.

(** ** core/marketplace.py: the catalog on disk *)

Section MarketplaceProofs.
Context {js : Ext.Json} {net : Ext.Network}.
Import models Ext marketplace.

(** What is assumed of the libraries: loading what was dumped gives it
    back, and so does validating the dump of a catalog. *)
Hypothesis json_round_trip : forall j : json, json_load (json_dump j) = Ok j.
Hypothesis validate_dump :
  forall c : MarketplaceConfig, validate (MarketplaceConfig_model_dump c) = Ok c.

Lemma save_config_run (self : Marketplace) (c : MarketplaceConfig) (w : Eff.World) :
  _save_config self c w = (saved self c w, Ok tt).
Proof. reflexivity. Qed.

Lemma load_config_holds (self : Marketplace) (w : Eff.World) (c : MarketplaceConfig) :
  holds self w c -> _load_config self w = (w, Ok c).
Proof.
  intros (text & data & Hr & Hl & Hv).
  unfold _load_config, Eff.bind, Eff.path_exists, Fs.exists_file, Eff.read_file, Eff.lift.
  rewrite Hr. cbn. rewrite Hr, Hl. exact (f_equal (pair w) Hv).
Qed.

Lemma saved_holds (self : Marketplace) (c : MarketplaceConfig) (w : Eff.World) :
  holds self (saved self c w) c.
Proof.
  exists (json_dump (MarketplaceConfig_model_dump c)), (MarketplaceConfig_model_dump c).
  repeat split; auto. unfold saved. cbn. apply read_write_in.
Qed.

(** Whatever the state of the disk, a catalog that loads is on disk
    afterwards. *)
Lemma load_config_leaves_catalog (self : Marketplace) (w w0 : Eff.World)
      (c : MarketplaceConfig) :
  _load_config self w = (w0, Ok c) -> holds self w0 c.
Proof.
  unfold _load_config, Eff.bind, Eff.path_exists, Eff.read_file, Eff.lift.
  destruct (negb (Fs.exists_file (Eff.fs w) (config_path self))).
  - unfold initialize_default, initialize, Eff.bind, Eff.mkdir, Eff.update_fs,
      Eff.path_exists. cbn.
    match goal with |- context [negb ?b] => destruct (negb b) end.
    + rewrite save_config_run. cbn. rewrite read_write_in.
      destruct (json_load _) as [data|] eqn:El; [|discriminate]. intros H.
      injection H as <- Hv. eexists _, data. repeat split; eauto.
      cbn. apply read_write_in.
    + cbn. destruct (Fs.read _ _) as [text|] eqn:Hr; [|discriminate].
      destruct (json_load text) as [data|] eqn:El; [|discriminate]. intros H.
      injection H as <- Hv. exists text, data. auto.
  - cbn. destruct (Fs.read _ _) as [text|] eqn:Hr; [|discriminate].
    destruct (json_load text) as [data|] eqn:El; [|discriminate]. intros H.
    injection H as <- Hv. exists text, data. auto.
Qed.

Lemma add_plugin_run (self : Marketplace) (plugin_path : Fs.Path) (mcp_info : MCPInfo)
      (w w0 : Eff.World) (c : MarketplaceConfig) :
  _load_config self w = (w0, Ok c) ->
  add_plugin self plugin_path mcp_info w =
  (saved self (with_plugins c (upsert (plugin_entry self plugin_path mcp_info)
                                      (mc_plugins c))) w0, Ok tt).
Proof. intros H. unfold add_plugin, Eff.bind. now rewrite H. Qed.


(** Loading an existing catalog file changes nothing. *)
Lemma load_config_existing (self : Marketplace) (w w0 : Eff.World) (c : MarketplaceConfig) :
  _load_config self w = (w0, Ok c) ->
  Fs.exists_file (Eff.fs w) (config_path self) = true ->
  w0 = w.
Proof.
  unfold _load_config, Eff.bind, Eff.path_exists, Eff.read_file, Eff.lift.
  intros H Hex. rewrite Hex in H. cbn in H.
  destruct (Fs.read _ _); [|discriminate].
  destruct (json_load _); [|discriminate]. now injection H as <- _.
Qed.

(** The update and the removal keep a catalog unique by name. *)
Lemma filter_keeps_unique (f : MarketplacePlugin -> bool) (l : list MarketplacePlugin) :
  NoDup (map mp_name l) -> NoDup (map mp_name (filter f l)).
Proof.
  induction l as [|p l IH]; simpl; intros H; [constructor|].
  inversion H as [|x xs Hnotin Hnd]; subst. destruct (f p); simpl; [|now apply IH].
  constructor; [|now apply IH]. intros Hin. apply Hnotin.
  apply in_map_iff in Hin as (q & Hq & Hin). apply filter_In in Hin as [Hin _].
  rewrite <- Hq. now apply in_map.
Qed.

(** On a missing catalog file [remove_plugin] writes the default catalog
    before it reports that nothing was removed. *)
Lemma remove_plugin_creates_missing_catalog (self : Marketplace) (w : Eff.World) (n : str) :
  Fs.exists_file (Eff.fs w) (config_path self) = false ->
  exists w', remove_plugin self n w = (w', Ok false) /\
             Fs.exists_file (Eff.fs w') (config_path self) = true.
Proof.
  intros Hmissing.
  unfold remove_plugin, _load_config, initialize_default, initialize, Eff.bind,
    Eff.path_exists, Eff.mkdir, Eff.update_fs, Eff.read_file, Eff.lift.
  rewrite Hmissing. cbn. unfold Fs.exists_file in *.
  rewrite files_mkdir, Hmissing. cbn. rewrite read_write_in, json_round_trip, validate_dump.
  cbn. eexists. split; [reflexivity|]. cbn. unfold Fs.exists_file. cbn.
  now rewrite read_write_in.
Qed.

(** C10, as amended.  For every catalog the code loads, [remove_plugin]
    leaves the entries whose name differs from the given one, all of them
    and in their order, and returns true exactly when an entry had that
    name; a removal rewrites the catalog file and nothing else.  When no
    entry has the name and the catalog file exists, it returns false and the
    world is the one it was given: nothing is written.  When the catalog
    file is missing, it returns false after the default catalog has been
    written. *)
Theorem remove_plugin_removes_all
        (self : Marketplace) (w w0 : Eff.World) (c : MarketplaceConfig) (n : str) :
  _load_config self w = (w0, Ok c) ->
  let kept := filter (fun p => negb (Py.str_eqb (mp_name p) n)) (mc_plugins c) in
  exists (w' : Eff.World) (removed : bool),
    remove_plugin self n w = (w', Ok removed) /\
    holds self w' (with_plugins c kept) /\
    (forall p, In p kept <-> In p (mc_plugins c) /\ mp_name p <> n) /\
    count_name n kept = 0 /\
    (removed = true <-> exists p, In p (mc_plugins c) /\ mp_name p = n) /\
    (removed = true ->
     Eff.requests w' = Eff.requests w0 /\
     forall p, p <> config_path self ->
               Fs.read p (Fs.files (Eff.fs w')) = Fs.read p (Fs.files (Eff.fs w0))) /\
    (removed = false -> w' = w0) /\
    (Fs.exists_file (Eff.fs w) (config_path self) = true -> w0 = w) /\
    (Fs.exists_file (Eff.fs w) (config_path self) = false ->
     removed = false /\ Fs.exists_file (Eff.fs w') (config_path self) = true).
Proof.
  intros Hload kept.
  pose proof (load_config_leaves_catalog _ _ _ _ Hload) as Hh.
  assert (Hkept : forall p, In p kept <-> In p (mc_plugins c) /\ mp_name p <> n).
  { intros p. unfold kept. rewrite filter_In, negb_true_iff, str_eqb_neq. tauto. }
  assert (Hcount : count_name n kept = 0).
  { unfold count_name. destruct (filter _ kept) as [|q rest] eqn:F; [reflexivity|].
    assert (Hq : In q (filter (fun p => Py.str_eqb (mp_name p) n) kept))
      by (rewrite F; now left).
    apply filter_In in Hq as [Hin Hq]. apply str_eqb_eq in Hq.
    apply Hkept in Hin as [_ Hne]. contradiction. }
  assert (Hmissing : forall w' removed,
             remove_plugin self n w = (w', Ok removed) ->
             Fs.exists_file (Eff.fs w) (config_path self) = false ->
             removed = false /\ Fs.exists_file (Eff.fs w') (config_path self) = true).
  { intros w' removed Hrun Hm.
    destruct (remove_plugin_creates_missing_catalog self w n Hm) as (w'' & Hrun' & Hex).
    rewrite Hrun in Hrun'. injection Hrun' as <- ->. auto. }
  assert (Hrun : remove_plugin self n w
                 = if length kept <? length (mc_plugins c)
                   then (saved self (with_plugins c kept) w0, Ok true)
                   else (w0, Ok false)).
  { unfold remove_plugin, Eff.bind. rewrite Hload. fold kept.
    destruct (length kept <? length (mc_plugins c)); [|reflexivity].
    now rewrite save_config_run. }
  destruct (length kept <? length (mc_plugins c)) eqn:Hlt.
  - exists (saved self (with_plugins c kept) w0), true.
    apply filter_shorter in Hlt as (q & Hq & Hf).
    apply negb_false_iff, str_eqb_eq in Hf.
    split; [exact Hrun|]. split; [apply saved_holds|].
    split; [exact Hkept|]. split; [exact Hcount|].
    split; [split; [intros _; now exists q | reflexivity]|].
    split.
    { intros _. split; [reflexivity|]. intros p Hp. unfold saved.
      cbn [Eff.fs Fs.write Fs.files]. rewrite read_write_in_other, files_mkdir; [reflexivity|].
      destruct (Fs.path_eqb p _) eqn:E; [|reflexivity]. now apply path_eqb_eq in E. }
    split; [discriminate|].
    split; [now apply load_config_existing with (c := c)|].
    now apply Hmissing.
  - exists w0, false.
    assert (Hall : forall p, In p (mc_plugins c) -> mp_name p <> n).
    { intros p Hp Hn.
      assert (Hs : (length kept <? length (mc_plugins c)) = true); [|congruence].
      apply filter_shorter. exists p. split; [assumption|].
      now apply negb_false_iff, str_eqb_eq. }
    assert (Hsame : kept = mc_plugins c).
    { unfold kept. apply forallb_filter_id. apply forallb_forall. intros p Hp.
      now apply negb_true_iff, str_eqb_neq, Hall. }
    split; [exact Hrun|]. split; [rewrite Hsame; now destruct c|].
    split; [exact Hkept|]. split; [exact Hcount|].
    split; [split; [discriminate | intros (p & Hp & Hn); now apply Hall in Hp]|].
    split; [discriminate|]. split; [reflexivity|].
    split; [now apply load_config_existing with (c := c)|].
    now apply Hmissing.
Qed.

End MarketplaceProofs.

(** ** llm/gemini.py *)

Section GeminiProofs.
Context {db : UnicodeDB} {js : Ext.Json} {net : Ext.Network}.
Import models Ext gemini.

Lemma truthy_nonempty {A} (l : list A) : Py.truthy l = true <-> l <> [].
Proof. destruct l; simpl; split; congruence. Qed.

Lemma apply_enhancements_frame (mcp_info : MCPInfo) (e : Enhancements) :
  keeps_present mcp_info (apply_enhancements mcp_info e) /\
  same_other_fields mcp_info (apply_enhancements mcp_info e).
Proof.
  unfold apply_enhancements, keeps_present, same_other_fields.
  destruct mcp_info as [n d a t ic ia ct hu ev hp su]. cbn [description tools install_command
    install_args name author connection_type http_url env_vars homepage source_url].
  cbv beta zeta.
  destruct d, t, ic, ia;
    repeat match goal with
           | |- context [if ?c then _ else _] => destruct c eqn:?
           | |- context [match build_tools ?x with _ => _ end] => destruct (build_tools x)
           end;
    cbn in *; repeat split; intros; congruence.
Qed.

(** C3. [enhance_mcp_info] returns a record in which each of description,
    tools, install command and install arguments that was present has kept
    its value, and every other field is the input's; when description,
    tools and install command are all present it returns the input itself
    and sends no request. *)
Theorem enhance_fills_only_missing_fields
        (self : GeminiParser) (mcp_info : MCPInfo) (html_content : str) (w : Eff.World) :
  exists (w' : Eff.World) (enhanced : MCPInfo),
    enhance_mcp_info self mcp_info html_content w = (w', Ok enhanced) /\
    keeps_present mcp_info enhanced /\
    same_other_fields mcp_info enhanced /\
    (description mcp_info <> [] -> tools mcp_info <> [] -> install_command mcp_info <> [] ->
     enhanced = mcp_info /\ w' = w).
Proof.
  assert (Hsame : keeps_present mcp_info mcp_info /\ same_other_fields mcp_info mcp_info)
    by (unfold keeps_present, same_other_fields; repeat split; auto).
  unfold enhance_mcp_info.
  destruct (negb (negb (Py.truthy (description mcp_info))
                  || negb (Py.truthy (tools mcp_info))
                  || negb (Py.truthy (install_command mcp_info)))) eqn:Hneeds.
  - exists w, mcp_info. destruct Hsame as [Hk Hs].
    split; [reflexivity|]. split; [exact Hk|]. split; [exact Hs|]. auto.
  - assert (Hmissing : ~ (description mcp_info <> [] /\ tools mcp_info <> [] /\
                          install_command mcp_info <> [])).
    { intros (H1 & H2 & H3). apply truthy_nonempty in H1, H2, H3.
      rewrite H1, H2, H3 in Hneeds. discriminate. }
    unfold Eff.try_except, Eff.bind, Eff.generate_content, Eff.lift, Eff.ret.
    destruct (llm_response _ _) as [text|err].
    + destruct (loads_enhancements _) as [e|err].
      * eexists _, _. split; [reflexivity|].
        destruct (apply_enhancements_frame mcp_info e) as [Hk Hs].
        split; [exact Hk|]. split; [exact Hs|].
        intros H1 H2 H3. exfalso. apply Hmissing. auto.
      * eexists _, _. split; [reflexivity|]. destruct Hsame as [Hk Hs].
        split; [exact Hk|]. split; [exact Hs|].
        intros H1 H2 H3. exfalso. apply Hmissing. auto.
    + eexists _, _. split; [reflexivity|]. destruct Hsame as [Hk Hs].
      split; [exact Hk|]. split; [exact Hs|].
      intros H1 H2 H3. exfalso. apply Hmissing. auto.
Qed.

End GeminiProofs.

(** ** sources: the records [fetch] returns *)

Section SourceProofs.
Context {db : UnicodeDB} {ip : Ext.Interp} {js : Ext.Json} {html : Ext.Html}
        {net : Ext.Network}.
Import Re models Ext.


(** When no command pattern matches the page and no package name is found
    in it, the fastmcp.me extractor synthesizes [npx -y mcp-server-<name>]. *)
Lemma fastmcp_install_command_default (soup : Tag) (mcp_name : str) :
  fastmcp.first_install_pattern fastmcp.install_patterns (get_text soup) = None ->
  fastmcp.first_package_pattern
    [u "@[^/\s]+/" ++ mcp_name; u "mcp-server-" ++ mcp_name; mcp_name ++ u "-mcp"]
    (get_text soup) = Ok None ->
  fastmcp._extract_install_command soup mcp_name
    = Ok (u "npx", [u "-y"; u "mcp-server-" ++ Py.lower mcp_name]).
Proof. intros H1 H2. unfold fastmcp._extract_install_command. now rewrite H1, H2. Qed.


(** When the page shows no sign of a hosted server and no command pattern
    matches it, the smithery.ai extractor synthesizes
    [npx -y @smithery/cli run <name>]. *)
Lemma smithery_install_command_default (soup : Tag) (server_name : str) :
  re_search true smithery.hosted_indicator (get_text soup) = None ->
  smithery.first_install_pattern smithery.install_patterns (get_text soup) = None ->
  smithery._determine_connection soup server_name
    = (u "stdio", u "npx", [u "-y"; u "@smithery/cli"; u "run"; server_name], None).
Proof. intros H1 H2. unfold smithery._determine_connection. now rewrite H1, H2. Qed.


End SourceProofs.


(** ** The theorems at concrete inputs *)



(** Removing [foo] from the catalog that lists it twice around [bar]: the
    answer is true, and only [bar] is left. *)
Lemma remove_plugin_removes_all_witness :
  exists w' : Eff.World (js := Demo.json_files),
    marketplace.remove_plugin Demo.market (u "foo") Demo.twice_listed_world
      = (w', Ext.Ok true) /\
    holds Demo.market w'
      (marketplace.with_plugins Demo.default_catalog [Demo.listed "bar" "other"]).
Proof.
  destruct (remove_plugin_removes_all (js := Demo.json_files)
              (fun j => eq_refl) config_round_trip
              Demo.market Demo.twice_listed_world Demo.twice_listed_world
              Demo.twice_listed (u "foo") eq_refl)
    as (w' & removed & Hrun & Hh & _ & _ & Hiff & _).
  assert (Hr : removed = true).
  { apply Hiff. exists (Demo.listed "foo" "old"). split; [now left | reflexivity]. }
  subst removed. exists w'. split; [exact Hrun | exact Hh].
Defined.

(** C10 as stated fails where the catalog file is missing: no entry
    matches, the answer is false, and the call has written the catalog file
    with the default catalog. *)
Lemma remove_plugin_writes_a_missing_catalog :
  Fs.read (marketplace.config_path Demo.market) (Fs.files (Eff.fs Demo.empty_world))
    = None /\
  exists w' : Eff.World (js := Demo.json_files),
    marketplace.remove_plugin Demo.market (u "foo") Demo.empty_world
      = (w', Ext.Ok false) /\
    Fs.read (marketplace.config_path Demo.market) (Fs.files (Eff.fs w'))
      = Some (@Ext.json_dump Demo.json_files
                (models.MarketplaceConfig_model_dump Demo.default_catalog)).
Proof.
  split; [reflexivity|]. eexists. split; vm_compute; reflexivity.
Qed.

(** A record with description, tools and install command comes back as it
    is, and nothing is sent. *)
Lemma enhance_fills_only_missing_fields_witness :
  exists (w' : Eff.World (js := Demo.json_files)),
    gemini.enhance_mcp_info (db := ascii_db) (net := Demo.one_page)
      {| gemini.api_key := u "key"; gemini.model := u "gemini-2.0-flash" |}
      Demo.complete_info (u "<html></html>") Demo.empty_world
      = (w', Ext.Ok Demo.complete_info) /\
    w' = Demo.empty_world.
Proof.
  destruct (enhance_fills_only_missing_fields (db := ascii_db) (net := Demo.one_page)
              {| gemini.api_key := u "key"; gemini.model := u "gemini-2.0-flash" |}
              Demo.complete_info (u "<html></html>") Demo.empty_world)
    as (w' & enhanced & Hrun & _ & _ & Hgate).
  destruct Hgate as [-> ->]; try discriminate.
  exists Demo.empty_world. split; [exact Hrun | reflexivity].
Defined.

(** ** sources: environment variables *)

Section EnvVarProofs.
Context {db : UnicodeDB} {ip : Ext.Interp} {html : Ext.Html}.
Import Re models Ext.

(** What is assumed of a set: it iterates over its elements, each once. *)
Hypothesis set_list_NoDup : forall l : list str, NoDup (set_list l).
Hypothesis set_list_In : forall (l : list str) (x : str), In x (set_list l) <-> In x l.

Lemma firstn_subset {A} (n : nat) (l : list A) (x : A) : In x (firstn n l) -> In x l.
Proof. intros H. rewrite <- (firstn_skipn n l). apply in_or_app. now left. Qed.

Lemma firstn_NoDup {A} (n : nat) (l : list A) : NoDup l -> NoDup (firstn n l).
Proof.
  intros H. rewrite <- (firstn_skipn n l) in H. now apply NoDup_app_remove_r in H.
Qed.

Lemma not_existsb {A} (f : A -> bool) (l : list A) :
  existsb f l = false -> forall x, In x l -> f x = false.
Proof.
  intros H x Hx. destruct (f x) eqn:E; [|reflexivity].
  assert (existsb f l = true) by (apply existsb_exists; eauto). congruence.
Qed.

Lemma filter_accepted (stoplist : list str) (v : str) :
  (3 <? length v) && negb (existsb (fun x => Py.contains x (Py.lower v)) stoplist) = true ->
  accepted stoplist v.
Proof.
  intros H. apply andb_prop in H as [H1 H2]. apply Nat.ltb_lt in H1.
  apply negb_true_iff in H2. split; [assumption | now apply not_existsb].
Qed.

Lemma keep_env_var_spec (env_vars : list str) (m v : str) :
  In v (fastmcp.keep_env_var env_vars m) ->
  In v env_vars \/ (v = m /\ accepted fastmcp.env_stoplist v).
Proof.
  unfold fastmcp.keep_env_var.
  destruct (negb (Py.mem m env_vars)); cbn [andb]; [|tauto].
  destruct (3 <? length m) eqn:H1; [|tauto].
  destruct (negb (existsb _ _)) eqn:H2; [|tauto].
  intros H. apply in_app_or in H as [H | [<- | []]]; [tauto|]. right.
  split; [reflexivity|]. apply filter_accepted. now rewrite H1, H2.
Qed.

Lemma keep_env_vars_spec (ms env_vars : list str) (v : str) :
  In v (fold_left fastmcp.keep_env_var ms env_vars) ->
  In v env_vars \/ (In v ms /\ accepted fastmcp.env_stoplist v).
Proof.
  revert env_vars; induction ms as [|m ms IH]; intros env_vars H; simpl in H; [tauto|].
  apply IH in H as [H | [H1 H2]].
  - apply keep_env_var_spec in H as [H | [-> H]]; [tauto|]. right. split; [now left | assumption].
  - right. split; [now right | assumption].
Qed.

Lemma fastmcp_collect_spec (patterns : list regex) (text : str) (env_vars : list str)
      (v : str) :
  In v (fold_left (fun env_vars pattern =>
                     fold_left fastmcp.keep_env_var (re_findall false pattern text) env_vars)
                  patterns env_vars) ->
  In v env_vars \/
  (accepted fastmcp.env_stoplist v /\
   exists pattern, In pattern patterns /\ In v (re_findall false pattern text)).
Proof.
  revert env_vars; induction patterns as [|p patterns IH]; intros env_vars H; simpl in H;
    [tauto|].
  apply IH in H as [H | (Ha & q & Hq & Hv)].
  - apply keep_env_vars_spec in H as [H | [H1 H2]]; [tauto|].
    right. split; [assumption|]. exists p. split; [now left | assumption].
  - right. split; [assumption|]. exists q. split; [now right | assumption].
Qed.

Lemma accepted_filter (stoplist : list str) (v : str) :
  accepted stoplist v ->
  (3 <? length v) && negb (existsb (fun x => Py.contains x (Py.lower v)) stoplist) = true.
Proof.
  intros [H1 H2]. apply andb_true_intro. split; [now apply Nat.ltb_lt|].
  apply negb_true_iff. destruct (existsb _ stoplist) eqn:E; [|reflexivity].
  apply existsb_exists in E as (x & Hx & Hc). rewrite (H2 x Hx) in Hc. discriminate.
Qed.

Lemma mem_In (x : str) (l : list str) : Py.mem x l = true <-> In x l.
Proof.
  unfold Py.mem. rewrite existsb_exists. split.
  - intros (y & Hy & E). apply str_eqb_eq in E. now subst.
  - intros H. exists x. split; [assumption | apply str_eqb_refl].
Qed.

(** The loops of the fastmcp.me extractor miss nothing: a match that is
    accepted is in the list, once. *)
Lemma keep_env_var_complete (env_vars : list str) (m v : str) :
  In v env_vars \/ (v = m /\ accepted fastmcp.env_stoplist v) ->
  In v (fastmcp.keep_env_var env_vars m).
Proof.
  unfold fastmcp.keep_env_var. intros [H | [-> Ha]].
  - destruct (negb (Py.mem m env_vars) && (3 <? length m)); [|assumption].
    destruct (negb (existsb _ _)); [|assumption]. apply in_or_app. now left.
  - destruct (Py.mem m env_vars) eqn:Em; cbn [negb andb]; [now apply mem_In|].
    apply accepted_filter in Ha. apply andb_prop in Ha as [H1 H2]. rewrite H1, H2.
    apply in_or_app. right. now left.
Qed.

Lemma keep_env_var_NoDup (env_vars : list str) (m : str) :
  NoDup env_vars -> NoDup (fastmcp.keep_env_var env_vars m).
Proof.
  intros H. unfold fastmcp.keep_env_var.
  destruct (Py.mem m env_vars) eqn:Em; cbn [negb andb]; [assumption|].
  destruct (3 <? length m); [|assumption].
  destruct (negb (existsb _ _)); [|assumption].
  apply NoDup_app; [assumption | repeat constructor; auto | ].
  intros x Hx [<- | []]. apply mem_In in Hx. congruence.
Qed.

Lemma keep_env_vars_complete (ms env_vars : list str) (v : str) :
  In v env_vars \/ (In v ms /\ accepted fastmcp.env_stoplist v) ->
  In v (fold_left fastmcp.keep_env_var ms env_vars).
Proof.
  revert env_vars; induction ms as [|m ms IH]; intros env_vars H; simpl.
  - destruct H as [H | [[] _]]. exact H.
  - apply IH. destruct H as [H | [[<- | H] Ha]].
    + left. apply keep_env_var_complete. now left.
    + left. apply keep_env_var_complete. now right.
    + right. now split.
Qed.

Lemma keep_env_vars_NoDup (ms env_vars : list str) :
  NoDup env_vars -> NoDup (fold_left fastmcp.keep_env_var ms env_vars).
Proof.
  revert env_vars; induction ms as [|m ms IH]; intros env_vars H; simpl; [assumption|].
  now apply IH, keep_env_var_NoDup.
Qed.

Lemma fastmcp_collect_complete (patterns : list regex) (text : str) (env_vars : list str)
      (v : str) :
  In v env_vars \/
  (accepted fastmcp.env_stoplist v /\
   exists pattern, In pattern patterns /\ In v (re_findall false pattern text)) ->
  In v (fold_left (fun env_vars pattern =>
                     fold_left fastmcp.keep_env_var (re_findall false pattern text) env_vars)
                  patterns env_vars).
Proof.
  revert env_vars; induction patterns as [|p patterns IH]; intros env_vars H; simpl.
  - destruct H as [H | (_ & q & [] & _)]. exact H.
  - apply IH. destruct H as [H | (Ha & q & [<- | Hq] & Hv)].
    + left. apply keep_env_vars_complete. now left.
    + left. apply keep_env_vars_complete. right. now split.
    + right. split; [assumption|]. now exists q.
Qed.

Lemma fastmcp_collect_NoDup (patterns : list regex) (text : str) (env_vars : list str) :
  NoDup env_vars ->
  NoDup (fold_left (fun env_vars pattern =>
                      fold_left fastmcp.keep_env_var (re_findall false pattern text) env_vars)
                   patterns env_vars).
Proof.
  revert env_vars; induction patterns as [|p patterns IH]; intros env_vars H; simpl;
    [assumption|].
  now apply IH, keep_env_vars_NoDup.
Qed.

(** C8, as amended.  Each extractor has a set of candidates: the capture
    groups of its patterns in the text of the page (and, for smithery.ai,
    of the quoted-name pattern in the config sections of the page) that are
    longer than 3 characters and hold, in lower case, none of the stop
    words of that extractor: url, uri, http, json, xml for fastmcp.me;
    type, string, number, boolean for smithery.ai.  Every such capture is a
    candidate, once.  The extractor returns the first 10 candidates in the
    order the set is iterated: all of them when there are at most 10. *)
Theorem env_vars_are_filtered (soup : Tag) :
  (exists candidates : list str,
     NoDup candidates /\
     (forall v, In v candidates <->
        accepted [u "url"; u "uri"; u "http"; u "json"; u "xml"] v /\
        exists pattern, In pattern fastmcp.env_patterns /\
                        In v (re_findall false pattern (get_text soup))) /\
     fastmcp._extract_env_vars soup = firstn 10 candidates /\
     length (fastmcp._extract_env_vars soup) = Nat.min 10 (length candidates)) /\
  (exists candidates : list str,
     NoDup candidates /\
     (forall v, In v candidates <->
        accepted [u "type"; u "string"; u "number"; u "boolean"] v /\
        ((exists section,
            In section
               (find_all soup
                  (by_class [u "div"; u "section"; u "pre"; u "code"]
                     {| pat := Alts [Lit "config"; Lit "env"; Lit "setting"];
                        ignorecase := true |})) /\
            In v (re_findall false smithery.quoted_var (get_text section))) \/
         exists pattern, In pattern smithery.env_patterns /\
                         In v (re_findall false pattern (get_text soup)))) /\
     smithery._extract_env_vars soup = firstn 10 candidates /\
     length (smithery._extract_env_vars soup) = Nat.min 10 (length candidates)).
Proof.
  split.
  - unfold fastmcp._extract_env_vars. eexists. split; [apply set_list_NoDup|].
    split; [|split; [reflexivity | apply length_firstn]].
    intros v. rewrite set_list_In. split.
    + intros Hv. apply fastmcp_collect_spec in Hv as [[] | Hv]. exact Hv.
    + intros Hv. apply fastmcp_collect_complete. now right.
  - unfold smithery._extract_env_vars. eexists.
    split; [apply NoDup_filter, set_list_NoDup|].
    split; [|split; [reflexivity | apply length_firstn]].
    intros v. rewrite filter_In, set_list_In, in_app_iff, !in_flat_map. split.
    + intros [[(x & Hx & Hv) | (x & Hx & Hv)] Hf];
        (split; [now apply filter_accepted|]); [left | right]; now exists x.
    + intros [Ha [(x & Hx & Hv) | (x & Hx & Hv)]];
        (split; [|now apply accepted_filter]); [left | right]; now exists x.
Qed.

End EnvVarProofs.

(** C8 as stated fails: the stop words differ between the extractors.  The
    fastmcp.me extractor returns [DATA_TYPE], which holds "TYPE"; the
    smithery.ai extractor returns [BASE_URL], which holds "URL". *)
Lemma stoplists_differ :
  fastmcp._extract_env_vars (db := ascii_db) (ip := Demo.plain_interp)
      (html := Demo.flat_html) (u "export $DATA_TYPE")
    = [u "DATA_TYPE"] /\
  smithery._extract_env_vars (db := ascii_db) (ip := Demo.plain_interp)
      (html := Demo.flat_html) (u "set ${BASE_URL} first")
    = [u "BASE_URL"].
Proof. split; reflexivity. Qed.

(** The fastmcp.me extractor on a text with a repeated name and a name
    that holds a stop word: the two accepted names are the candidates, and
    both are returned. *)
Lemma env_vars_are_filtered_witness :
  exists candidates : list str,
    fastmcp._extract_env_vars (db := ascii_db) (ip := Demo.plain_interp)
      (html := Demo.flat_html) (u "API_KEY=1 $API_KEY ${API_URL} $TOKEN_A")
      = firstn 10 candidates /\
    NoDup candidates /\
    (In (u "TOKEN_A") candidates <->
     accepted (db := ascii_db) [u "url"; u "uri"; u "http"; u "json"; u "xml"] (u "TOKEN_A") /\
     exists pattern,
       In pattern fastmcp.env_patterns /\
       In (u "TOKEN_A")
          (Re.re_findall (db := ascii_db) false pattern
             (u "API_KEY=1 $API_KEY ${API_URL} $TOKEN_A"))) /\
    fastmcp._extract_env_vars (db := ascii_db) (ip := Demo.plain_interp)
      (html := Demo.flat_html) (u "API_KEY=1 $API_KEY ${API_URL} $TOKEN_A")
      = [u "API_KEY"; u "TOKEN_A"].
Proof.
  destruct (env_vars_are_filtered (db := ascii_db) (ip := Demo.plain_interp)
              (html := Demo.flat_html) dedupe_NoDup (fun l x => dedupe_mem x l)
              (u "API_KEY=1 $API_KEY ${API_URL} $TOKEN_A"))
    as [(candidates & Hnd & Hiff & Heq & _) _].
  exists candidates. split; [exact Heq|]. split; [exact Hnd|].
  split; [apply Hiff | reflexivity].
Defined.

(** ** core/converter.py *)

Section ConverterProofs.
Context {db : UnicodeDB} {ip : Ext.Interp} {js : Ext.Json} {html : Ext.Html}
        {net : Ext.Network}.
Import Re models Ext url_parser converter.
Local Open Scope eff_scope.

Lemma detect_source_unknown (url : str) :
  ~ matches_template FASTMCP_PATTERN url ->
  ~ matches_template SMITHERY_PATTERN url ->
  detect_source url = UNKNOWN.
Proof.
  unfold matches_template, detect_source. intros HF HS.
  destruct (re_match false FASTMCP_PATTERN url) eqn:EF.
  - exfalso. apply HF, re_match_iff. congruence.
  - destruct (re_match false SMITHERY_PATTERN url) eqn:ES; [|reflexivity].
    exfalso. apply HS, re_match_iff. congruence.
Qed.

Lemma message_lists_templates (url : str) :
  Py.contains (u "https://fastmcp.me/MCP/Details/{id}/{name}") (unknown_url_message url) = true /\
  Py.contains (u "https://smithery.ai/server/{name}") (unknown_url_message url) = true.
Proof.
  split.
  - replace (unknown_url_message url)
      with ((u "Unknown URL format: " ++ url ++ [10%N] ++ u "Supported sources:" ++ [10%N]
               ++ u "  - fastmcp.me: ")
              ++ u "https://fastmcp.me/MCP/Details/{id}/{name}"
              ++ ([10%N] ++ u "  - smithery.ai: https://smithery.ai/server/{name}")).
    + apply contains_app.
    + unfold unknown_url_message. rewrite <- !app_assoc. reflexivity.
  - replace (unknown_url_message url)
      with ((u "Unknown URL format: " ++ url ++ [10%N] ++ u "Supported sources:" ++ [10%N]
               ++ u "  - fastmcp.me: https://fastmcp.me/MCP/Details/{id}/{name}" ++ [10%N]
               ++ u "  - smithery.ai: ")
              ++ u "https://smithery.ai/server/{name}" ++ []).
    + apply contains_app.
    + unfold unknown_url_message. rewrite <- !app_assoc. reflexivity.
Qed.

(** C9. For a URL that, once normalized, matches neither template,
    [convert] raises a [ConversionError] whose message lists the two
    supported templates, and leaves the world as it was: no request is
    sent, no file is written, the catalog is not touched.  A caller that
    catches the error goes on as if the call had not been made. *)
Theorem convert_rejects_unknown_url (self : Converter) (url : str) (w : Eff.World) :
  ~ matches_template FASTMCP_PATTERN (normalize_url url) ->
  ~ matches_template SMITHERY_PATTERN (normalize_url url) ->
  exists message : str,
    convert self url w = (w, Raise (ConversionError message)) /\
    Py.contains (u "https://fastmcp.me/MCP/Details/{id}/{name}") message = true /\
    Py.contains (u "https://smithery.ai/server/{name}") message = true /\
    forall (A : Type) (next : Eff.M A),
      (Eff.try_except (convert self url ;;; Eff.ret tt) (fun _ => Eff.ret tt) ;;; next) w
      = next w.
Proof.
  intros HF HS. pose proof (detect_source_unknown _ HF HS) as Hd.
  exists (unknown_url_message (normalize_url url)).
  assert (Hrun : convert self url w
                 = (w, Raise (ConversionError (unknown_url_message (normalize_url url))))).
  { unfold convert. rewrite Hd. reflexivity. }
  destruct (message_lists_templates (normalize_url url)) as [H1 H2].
  repeat split; try assumption.
  intros A next. unfold Eff.bind, Eff.try_except. rewrite Hrun. reflexivity.
Qed.

End ConverterProofs.

(** The theorem at a URL of another site. *)
Lemma convert_rejects_unknown_url_witness :
  exists message : str,
    converter.convert (db := ascii_db) Demo.plain_converter (u "https://example.com/server/slack") Demo.empty_world
      = (Demo.empty_world, Ext.Raise (Ext.ConversionError message)) /\
    Py.contains (u "https://fastmcp.me/MCP/Details/{id}/{name}") message = true /\
    Py.contains (u "https://smithery.ai/server/{name}") message = true.
Proof.
  destruct (convert_rejects_unknown_url (db := ascii_db) Demo.plain_converter
              (u "https://example.com/server/slack") Demo.empty_world)
    as (message & Hrun & H1 & H2 & _).
  - intros H. apply re_match_iff in H. apply H. reflexivity.
  - intros H. apply re_match_iff in H. apply H. reflexivity.
  - exists message. auto.
Defined.

(** The same converter on the page of the end-to-end scenario: the plugin
    directory is [/market/plugins/repomix], and the catalog lists it. *)
Example convert_repomix :
  exists w' : Eff.World (js := Demo.json_files),
    converter.convert (db := ascii_db) Demo.plain_converter Demo.repomix_url Demo.empty_world
      = (w', Ext.Ok [u "/"; u "market"; u "plugins"; u "repomix"]) /\
    Eff.requests w' = [Ext.HttpGet Demo.repomix_url] /\
    holds Demo.market w'
      (marketplace.with_plugins Demo.default_catalog
         [{| models.mp_name := u "repomix";
             models.mp_source := u "./plugins/repomix";
             models.mp_description := u "MCP server: repomix";
             models.mp_category := Some (u "mcp");
             models.mp_homepage := None |}]).
Proof.
  eexists. split; [vm_compute; reflexivity|]. split; [reflexivity|].
  eexists _, _. repeat split; vm_compute; reflexivity.
Qed.

(** * Part IV: further properties of the code *)

(** What the functions do beyond the statements of Part III: the name in a
    URL, the requests and the records of the sources, the files the generator
    writes, reading the catalog, and the steps of the converter from the
    constructor to the catalog entry. *)

(** ** utils/url_parser.py: the name in a URL *)

Section UrlShapes.
Context {db : UnicodeDB}.
Import Re url_parser.

(** An optional literal consumes the literal or nothing, and records no group. *)
Lemma sem_opt_lit_inv (l w rest : str) (g g' : caps) :
  sem false (Opt (lit l)) w rest g g' -> (w = l \/ w = []) /\ g' = g.
Proof.
  intros H. inversion H; subst.
  - match goal with H' : sem _ (lit _) _ _ _ _ |- _ => apply sem_lit_inv in H' as [-> ->] end.
    auto.
  - auto.
Qed.

(** A group around a repetition records the characters it consumed: one or
    more, all of the class. *)
Lemma sem_group_plus_inv (i : nat) (a : single) (w rest : str) (g g' : caps) :
  sem false (Group i (Plus a)) w rest g g' ->
  g' = (i, w) :: g /\ w <> [] /\ forallb (single_match false a) w = true.
Proof.
  intros H. inversion H as [| | | | | | | | |i' r w' rest' g0 g3 HP|]; subst.
  inversion HP as [| | | | | | | |a' c w5 rest' g0 Hc Hw| |]; subst.
  repeat split; [discriminate|]. cbn [forallb]. now rewrite Hc, Hw.
Qed.

(** A successful run on a sequence of patterns splits at any point of the
    sequence. *)
Lemma rmatch_Cat_sound {A} (rs rs' : list regex) :
  forall (s : str) (g : caps) (k : str -> caps -> option A) (x : A),
    rmatch false (Cat (rs ++ rs')) s g k = Some x ->
    exists w s' g', s = w ++ s' /\ sem false (Cat rs) w s' g g' /\
                    rmatch false (Cat rs') s' g' k = Some x.
Proof.
  induction rs as [|r rs IH]; intros s g k x H.
  - exists [], s, g. repeat split; [constructor | exact H].
  - cbn [app] in H. change (Cat (r :: rs ++ rs')) with (Seq r (Cat (rs ++ rs'))) in H.
    cbn [rmatch] in H.
    apply rmatch_sound in H as (w1 & s1 & g1 & -> & S1 & H).
    apply IH in H as (w2 & s2 & g2 & -> & S2 & H).
    exists (w1 ++ w2), s2, g2. rewrite <- app_assoc.
    repeat split; [|exact H]. change (Cat (r :: rs)) with (Seq r (Cat rs)).
    econstructor; eassumption.
Qed.

(** A pattern that ends with a group [([...]+)]: the group takes the
    longest run there is. *)
Lemma rmatch_last_group {A} (i : nat) (a : single) (s : str) (g : caps)
      (k : str -> caps -> option A) (x : A) :
  (forall t g1, k t g1 <> None) ->
  rmatch false (Cat [Group i (Plus a)]) s g k = Some x ->
  exists c t run,
    s = c :: t /\ single_match false a c = true /\
    t = run ++ Py.lstrip_with (single_match false a) t /\
    forallb (single_match false a) run = true /\
    k (Py.lstrip_with (single_match false a) t) ((i, c :: run) :: g) = Some x.
Proof.
  intros Hk H. cbn [Cat fold_right rmatch] in H.
  destruct s as [|c t]; [discriminate|].
  destruct (single_match false a c) eqn:Hc; [|discriminate].
  rewrite star_k_total in H by (intros t'; apply Hk).
  destruct (lstrip_suffix (single_match false a) t) as (run & Hrun & Hall).
  exists c, t, run. repeat split; try assumption.
  replace (c :: run) with (firstn (length (c :: t) - length (Py.lstrip_with (single_match false a) t)) (c :: t)); [exact H|].
  rewrite Hrun at 1 3. change (c :: run ++ ?y) with ((c :: run) ++ y).
  apply firstn_consumed.
Qed.

(** What [re_match] returns for a pattern that ends with such a group. *)
Lemma re_match_last_group (rs : list regex) (i : nat) (a : single) (s : str) (m : Match) :
  re_match false (Cat (rs ++ [Group i (Plus a)])) s = Some m ->
  exists w c run rest g,
    s = w ++ (c :: run) ++ rest /\
    sem false (Cat rs) w ((c :: run) ++ rest) [] g /\
    forallb (single_match false a) (c :: run) = true /\
    rest = Py.lstrip_with (single_match false a) rest /\
    m_text m = w ++ c :: run /\
    m_groups m = (i, c :: run) :: g.
Proof.
  unfold re_match. intros H.
  apply rmatch_Cat_sound in H as (w & s' & g & -> & S & H).
  apply rmatch_last_group in H as (c & t & run & -> & Hc & Ht & Hrun & H);
    [|discriminate].
  injection H as <-. cbn [m_text m_groups].
  set (rest := Py.lstrip_with (single_match false a) t) in *.
  exists w, c, run, rest, g.
  assert (E : c :: t = (c :: run) ++ rest) by (simpl; now f_equal).
  rewrite E in *. repeat split; try assumption.
  - cbn [forallb]. now rewrite Hc, Hrun.
  - subst rest. destruct (Py.lstrip_with (single_match false a) t) as [|d t'] eqn:El;
      [reflexivity|]. apply lstrip_head in El. simpl. now rewrite El.
  - replace (w ++ (c :: run) ++ rest) with ((w ++ c :: run) ++ rest)
      by (now rewrite <- app_assoc).
    apply firstn_consumed.
Qed.

(** [[^/\s]] refuses exactly the slash and white space. *)
Lemma not_slash_space_spec (c : char) :
  single_match false not_slash_space c = negb ((chr "/" =? c)%N || Py.is_space c).
Proof. cbn. now rewrite orb_false_r. Qed.

(** The class of a name segment: neither a slash nor white space. *)
Lemma not_slash_space_true (c : char) :
  single_match false not_slash_space c = true -> c <> chr "/" /\ Py.is_space c = false.
Proof.
  rewrite not_slash_space_spec, negb_true_iff. intros H.
  apply orb_false_elim in H as [H1 H2]. apply N.eqb_neq in H1. auto.
Qed.

(** What ends a name segment: a slash or white space. *)
Lemma not_slash_space_false (c : char) :
  single_match false not_slash_space c = false -> c = chr "/" \/ Py.is_space c = true.
Proof.
  rewrite not_slash_space_spec, negb_false_iff. intros H.
  apply orb_prop in H as [H | H]; [left; symmetry; now apply N.eqb_eq | now right].
Qed.

(** What comes before the name in a URL of fastmcp.me. *)
Lemma fastmcp_prefix_inv (w rest : str) (g : caps) :
  sem false (Cat [Lit "http"; Opt (Lit "s"); Lit "://"; Opt (Lit "www.");
                  Lit "fastmcp.me/MCP/Details/";
                  Group 1 (Plus (SSet false [CDigit])); Lit "/"]) w rest [] g ->
  exists scheme www number,
    w = u "http" ++ scheme ++ u "://" ++ www ++ u "fastmcp.me/MCP/Details/" ++ number ++ u "/" /\
    (scheme = u "s" \/ scheme = []) /\ (www = u "www." \/ www = []) /\
    number <> [] /\ g = [(1, number)].
Proof.
  intros H.
  apply sem_Cat_inv in H as (w1 & r1 & g1 & -> & H1 & H).
  apply sem_lit_inv in H1 as [-> ->].
  apply sem_Cat_inv in H as (w2 & r2 & g2 & -> & H2 & H).
  apply sem_opt_lit_inv in H2 as [Hs ->].
  apply sem_Cat_inv in H as (w3 & r3 & g3 & -> & H3 & H).
  apply sem_lit_inv in H3 as [-> ->].
  apply sem_Cat_inv in H as (w4 & r4 & g4 & -> & H4 & H).
  apply sem_opt_lit_inv in H4 as [Hw ->].
  apply sem_Cat_inv in H as (w5 & r5 & g5 & -> & H5 & H).
  apply sem_lit_inv in H5 as [-> ->].
  apply sem_Cat_inv in H as (w6 & r6 & g6 & -> & H6 & H).
  apply sem_group_plus_inv in H6 as (-> & Hn & _).
  apply sem_Cat_inv in H as (w7 & r7 & g7 & -> & H7 & H).
  apply sem_lit_inv in H7 as [-> ->].
  apply sem_Cat_nil_inv in H as [-> ->].
  exists w2, w4, w6. rewrite app_nil_r. repeat split; assumption.
Qed.

(** What comes before the name in a URL of smithery.ai. *)
Lemma smithery_prefix_inv (w rest : str) (g : caps) :
  sem false (Cat [Lit "http"; Opt (Lit "s"); Lit "://"; Opt (Lit "server.");
                  Lit "smithery.ai/"; Opt (Lit "server/")]) w rest [] g ->
  exists scheme server dir,
    w = u "http" ++ scheme ++ u "://" ++ server ++ u "smithery.ai/" ++ dir /\
    (scheme = u "s" \/ scheme = []) /\ (server = u "server." \/ server = []) /\
    (dir = u "server/" \/ dir = []) /\ g = [].
Proof.
  intros H.
  apply sem_Cat_inv in H as (w1 & r1 & g1 & -> & H1 & H).
  apply sem_lit_inv in H1 as [-> ->].
  apply sem_Cat_inv in H as (w2 & r2 & g2 & -> & H2 & H).
  apply sem_opt_lit_inv in H2 as [Hs ->].
  apply sem_Cat_inv in H as (w3 & r3 & g3 & -> & H3 & H).
  apply sem_lit_inv in H3 as [-> ->].
  apply sem_Cat_inv in H as (w4 & r4 & g4 & -> & H4 & H).
  apply sem_opt_lit_inv in H4 as [Hw ->].
  apply sem_Cat_inv in H as (w5 & r5 & g5 & -> & H5 & H).
  apply sem_lit_inv in H5 as [-> ->].
  apply sem_Cat_inv in H as (w6 & r6 & g6 & -> & H6 & H).
  apply sem_opt_lit_inv in H6 as [Hd ->].
  apply sem_Cat_nil_inv in H as [-> ->].
  exists w2, w4, w6. rewrite app_nil_r. repeat split; assumption.
Qed.

(** The match object of the fastmcp.me pattern: the URL up to the end of
    the name, and the name as the longest run without slash and white
    space. *)
Lemma fastmcp_match_inv (url : str) (m : Match) :
  re_match false FASTMCP_PATTERN url = Some m ->
  exists scheme www number mcp_name rest,
    url = (u "http" ++ scheme ++ u "://" ++ www ++ u "fastmcp.me/MCP/Details/"
             ++ number ++ u "/") ++ mcp_name ++ rest /\
    (scheme = u "s" \/ scheme = []) /\ (www = u "www." \/ www = []) /\
    number <> [] /\ mcp_name <> [] /\
    forallb (single_match false not_slash_space) mcp_name = true /\
    rest = Py.lstrip_with (single_match false not_slash_space) rest /\
    group 1 m = Some number /\ group 2 m = Some mcp_name.
Proof.
  intros H.
  change FASTMCP_PATTERN
    with (Cat ([Lit "http"; Opt (Lit "s"); Lit "://"; Opt (Lit "www.");
                Lit "fastmcp.me/MCP/Details/";
                Group 1 (Plus (SSet false [CDigit])); Lit "/"]
               ++ [Group 2 (Plus not_slash_space)])) in H.
  apply re_match_last_group in H as (w & c & run & rest & g & -> & S & Hall & Hrest & _ & Hg).
  apply fastmcp_prefix_inv in S as (scheme & www & number & -> & Hs & Hw & Hn & ->).
  exists scheme, www, number, (c :: run), rest.
  repeat split; try assumption; try discriminate.
  - unfold group. now rewrite Hg.
  - unfold group. now rewrite Hg.
Qed.

(** The match object of the smithery.ai pattern. *)
Lemma smithery_match_inv (url : str) (m : Match) :
  re_match false SMITHERY_PATTERN url = Some m ->
  exists scheme server dir server_name rest,
    url = (u "http" ++ scheme ++ u "://" ++ server ++ u "smithery.ai/" ++ dir)
            ++ server_name ++ rest /\
    (scheme = u "s" \/ scheme = []) /\ (server = u "server." \/ server = []) /\
    (dir = u "server/" \/ dir = []) /\ server_name <> [] /\
    forallb (single_match false not_slash_space) server_name = true /\
    rest = Py.lstrip_with (single_match false not_slash_space) rest /\
    group 1 m = Some server_name.
Proof.
  intros H.
  change SMITHERY_PATTERN
    with (Cat ([Lit "http"; Opt (Lit "s"); Lit "://"; Opt (Lit "server.");
                Lit "smithery.ai/"; Opt (Lit "server/")]
               ++ [Group 1 (Plus not_slash_space)])) in H.
  apply re_match_last_group in H as (w & c & run & rest & g & -> & S & Hall & Hrest & _ & Hg).
  apply smithery_prefix_inv in S as (scheme & server & dir & -> & Hs & Hw & Hd & ->).
  exists scheme, server, dir, (c :: run), rest.
  repeat split; try assumption; try discriminate.
  unfold group. now rewrite Hg.
Qed.

(** No URL is of both sites. *)
Lemma patterns_exclusive (url : str) (m1 m2 : Match) :
  re_match false FASTMCP_PATTERN url = Some m1 ->
  re_match false SMITHERY_PATTERN url = Some m2 -> False.
Proof.
  intros H1 H2.
  apply fastmcp_match_inv in H1 as (s1 & w1 & n1 & a1 & r1 & E1 & Hs1 & Hw1 & _).
  apply smithery_match_inv in H2 as (s2 & v2 & d2 & a2 & r2 & E2 & Hs2 & Hv2 & Hd2 & _).
  rewrite E1 in E2. clear E1.
  destruct Hs1 as [-> | ->], Hw1 as [-> | ->], Hs2 as [-> | ->], Hv2 as [-> | ->];
    cbn in E2; discriminate.
Qed.

End UrlShapes.

Section UrlNameProofs.
Context {db : UnicodeDB}.
Import Re url_parser.

(** A string ends with its last part. *)
Lemma ends_with_app (a p : str) : Py.ends_with p (a ++ p) = true.
Proof. unfold Py.ends_with. rewrite rev_app_distr. apply starts_with_app. Qed.

(** A string that [lstrip_with] leaves as it is does not start with a
    stripped character. *)
Lemma lstrip_fixed_head (p : char -> bool) (rest : str) :
  rest = Py.lstrip_with p rest ->
  match rest with [] => True | c :: _ => p c = false end.
Proof.
  destruct rest as [|c t]; [trivial|]. intros H. symmetry in H. now apply lstrip_head in H.
Qed.

(** X1. [extract_mcp_name] returns [None] exactly for the URLs that
    [detect_source] calls [UNKNOWN]: a URL of one of the two sites always
    yields a name. *)
Theorem extract_mcp_name_none_iff_unknown (url : str) :
  extract_mcp_name url = None <-> detect_source url = UNKNOWN.
Proof.
  unfold extract_mcp_name, detect_source.
  destruct (re_match false FASTMCP_PATTERN url) as [m|] eqn:EF.
  - apply fastmcp_match_inv in EF as (? & ? & ? & n & ? & _ & _ & _ & _ & _ & _ & _ & _ & Hg).
    rewrite Hg. cbn. split; discriminate.
  - destruct (re_match false SMITHERY_PATTERN url) as [m|] eqn:ES.
    + apply smithery_match_inv in ES as (? & ? & ? & n & ? & _ & _ & _ & _ & _ & _ & _ & Hg).
      rewrite Hg. cbn. split; discriminate.
    + cbn. split; reflexivity.
Qed.

(** X2. The name [extract_mcp_name] returns is a whole path segment of the
    URL: it is not empty, has no slash and no white space, comes right
    after a slash, and goes up to the end of the URL, a slash or white
    space. *)
Theorem extract_mcp_name_is_path_segment (url mcp_name : str) :
  extract_mcp_name url = Some mcp_name ->
  mcp_name <> [] /\
  (forall c, In c mcp_name -> c <> chr "/" /\ Py.is_space c = false) /\
  exists before after,
    url = before ++ mcp_name ++ after /\
    Py.ends_with (u "/") before = true /\
    match after with
    | [] => True
    | c :: _ => c = chr "/" \/ Py.is_space c = true
    end.
Proof.
  unfold extract_mcp_name. intros H.
  assert (Hseg : exists before after,
             url = before ++ mcp_name ++ after /\
             Py.ends_with (u "/") before = true /\
             mcp_name <> [] /\
             forallb (single_match false not_slash_space) mcp_name = true /\
             after = Py.lstrip_with (single_match false not_slash_space) after).
  { destruct (re_match false FASTMCP_PATTERN url) as [m|] eqn:EF.
    - apply fastmcp_match_inv in EF
        as (scheme & www & number & n & rest & -> & _ & _ & _ & Hn & Hall & Hrest & _ & Hg).
      rewrite Hg in H. injection H as <-.
      eexists _, rest. split; [reflexivity|].
      rewrite !app_assoc. split; [apply ends_with_app | auto].
    - destruct (re_match false SMITHERY_PATTERN url) as [m|] eqn:ES; [|discriminate].
      apply smithery_match_inv in ES
        as (scheme & server & dir & n & rest & -> & _ & _ & Hd & Hn & Hall & Hrest & Hg).
      rewrite Hg in H. injection H as <-.
      eexists _, rest. split; [reflexivity|]. split; [|auto].
      destruct Hd as [-> | ->].
      + change (u "server/") with (u "server" ++ u "/").
        rewrite !app_assoc. apply ends_with_app.
      + change (u "smithery.ai/") with (u "smithery.ai" ++ u "/").
        rewrite app_nil_r, !app_assoc. apply ends_with_app. }
  destruct Hseg as (before & after & Hu & Hb & Hn & Hall & Ha).
  split; [exact Hn|]. split.
  - intros c Hc. apply not_slash_space_true.
    rewrite forallb_forall in Hall. now apply Hall.
  - exists before, after. split; [exact Hu|]. split; [exact Hb|].
    apply lstrip_fixed_head in Ha. destruct after as [|c t]; [trivial|].
    now apply not_slash_space_false.
Qed.

(** X3. Each source accepts exactly the URLs that [detect_source] gives to
    its site, and no URL is accepted by both sources. *)
Theorem can_handle_agrees_with_detect_source (url : str) :
  (fastmcp.can_handle url = true <-> detect_source url = FASTMCP) /\
  (smithery.can_handle url = true <-> detect_source url = SMITHERY) /\
  fastmcp.can_handle url && smithery.can_handle url = false.
Proof.
  unfold fastmcp.can_handle, smithery.can_handle, detect_source.
  destruct (re_match false FASTMCP_PATTERN url) as [m1|] eqn:EF;
    destruct (re_match false SMITHERY_PATTERN url) as [m2|] eqn:ES; cbn.
  - destruct (patterns_exclusive _ _ _ EF ES).
  - repeat split; try discriminate; auto.
  - repeat split; try discriminate; auto.
  - repeat split; try discriminate; auto.
Qed.

(** What a match of the alias pattern holds. *)
Lemma alias_search_inv (url : str) (m : Match) :
  re_search false SERVER_ALIAS_PATTERN url = Some m ->
  exists before c t rest,
    url = before ++ (u "server.smithery.ai/" ++ c :: t) ++ rest /\
    forallb (single_match false not_slash_space) (c :: t) = true /\
    group_text 1 m = c :: t.
Proof.
  intros H. apply re_search_sound in H as (before & rest & Hu & _ & S).
  unfold SERVER_ALIAS_PATTERN in S.
  apply sem_Cat_inv in S as (w1 & w2 & g1 & Hw & H1 & H2).
  apply sem_lit_inv in H1 as [-> ->].
  apply sem_Cat_inv in H2 as (w3 & w4 & g2 & -> & H3 & H4).
  apply sem_Cat_nil_inv in H4 as [-> Hg2].
  apply sem_group_plus_inv in H3 as (Hg & Hn & Hall).
  destruct w3 as [|c t]; [contradiction|].
  exists before, c, t, rest. rewrite Hw, app_nil_r in Hu. split; [exact Hu|].
  split; [exact Hall|]. unfold group_text, group. now rewrite Hg2, Hg.
Qed.

(** [normalize_url] returns its argument or the canonical URL of a server
    whose alias the argument holds. *)
Lemma normalize_url_cases (url : str) :
  normalize_url url = url \/
  exists before c t rest,
    url = before ++ (u "server.smithery.ai/" ++ c :: t) ++ rest /\
    forallb (single_match false not_slash_space) (c :: t) = true /\
    normalize_url url = u "https://smithery.ai/server/" ++ c :: t.
Proof.
  unfold normalize_url.
  destruct (Py.contains (u "server.smithery.ai") url); [|now left].
  destruct (re_search false SERVER_ALIAS_PATTERN url) as [m|] eqn:E; [|now left].
  right. apply alias_search_inv in E as (before & c & t & rest & Hu & Hall & Hg).
  exists before, c, t, rest. rewrite Hg. auto.
Qed.

(** On the URL it returns, [normalize_url] has nothing left to do. *)
Lemma normalize_url_fixed (url : str) :
  normalize_url (normalize_url url) = normalize_url url.
Proof.
  destruct (normalize_url_cases url) as [H | (before & c & t & rest & _ & Hall & H)].
  - now rewrite !H.
  - rewrite H. apply normalize_url_without_alias. now apply canonical_has_no_alias.
Qed.

(** A string of stripped characters only is stripped to the empty string. *)
Lemma lstrip_all (p : char -> bool) (s : str) :
  forallb p s = true -> Py.lstrip_with p s = [].
Proof.
  induction s as [|c s IH]; [reflexivity|]. cbn. intros H.
  apply andb_prop in H as [Hc Hs]. rewrite Hc. now apply IH.
Qed.

(** The smithery.ai pattern on a canonical URL: the name is the server's. *)
Lemma canonical_url_run {A} (K : str -> caps -> option A) (c : char) (t : str) :
  single_match false not_slash_space c = true ->
  (forall s g, K s g <> None) ->
  rmatch false SMITHERY_PATTERN (u "https://smithery.ai/server/" ++ c :: t) [] K
  = K (Py.lstrip_with (single_match false not_slash_space) t)
      [(1, firstn (length (c :: t)
                   - length (Py.lstrip_with (single_match false not_slash_space) t))
                  (c :: t))].
Proof.
  intros Hc HK. unfold SMITHERY_PATTERN.
  remember not_slash_space as nss eqn:E.
  cbn -[Nat.sub firstn length star_k].
  rewrite Hc. rewrite star_k_total by (intros; apply HK).
  destruct (K _ _) eqn:EK; [reflexivity|]. now apply HK in EK.
Qed.

(** On a canonical smithery.ai URL the fastmcp.me pattern fails and the
    smithery.ai pattern captures the name. *)
Lemma canonical_url_match (c : char) (t : str) :
  forallb (single_match false not_slash_space) (c :: t) = true ->
  re_match false FASTMCP_PATTERN (u "https://smithery.ai/server/" ++ c :: t) = None /\
  exists m,
    re_match false SMITHERY_PATTERN (u "https://smithery.ai/server/" ++ c :: t) = Some m /\
    group 1 m = Some (c :: t).
Proof.
  intros H. split; [reflexivity|].
  cbn [forallb] in H. apply andb_prop in H as [Hc Ht].
  unfold re_match. rewrite canonical_url_run by (assumption || discriminate).
  eexists. split; [reflexivity|]. cbn [group m_groups lookup Nat.eqb].
  rewrite (lstrip_all _ _ Ht).
  replace (length (c :: t) - length (@nil char)) with (length (c :: t)) by (simpl; lia).
  now rewrite firstn_all.
Qed.

(** X4. When [normalize_url] changes a URL, the result is
    [https://smithery.ai/server/] followed by a name that comes after
    [server.smithery.ai/] in the URL; the result is a smithery.ai URL for
    [detect_source] and for the smithery.ai source, and
    [extract_mcp_name] gives that name back. *)
Theorem normalized_alias_is_smithery_url (url : str) :
  normalize_url url <> url ->
  exists server_name,
    normalize_url url = u "https://smithery.ai/server/" ++ server_name /\
    Py.contains (u "server.smithery.ai/" ++ server_name) url = true /\
    detect_source (normalize_url url) = SMITHERY /\
    smithery.can_handle (normalize_url url) = true /\
    extract_mcp_name (normalize_url url) = Some server_name.
Proof.
  intros Hne.
  destruct (normalize_url_cases url) as [H | (before & c & t & rest & Hu & Hall & H)];
    [contradiction|].
  exists (c :: t). split; [exact H|].
  split; [rewrite Hu; apply contains_app|].
  destruct (canonical_url_match c t Hall) as (HF & m & HS & Hg).
  unfold detect_source, smithery.can_handle, extract_mcp_name.
  rewrite H, HF, HS. cbn [Py.is_some]. auto.
Qed.

End UrlNameProofs.

Section SmitheryUrlProofs.
Context {db : UnicodeDB} {ip : Ext.Interp} {js : Ext.Json} {html : Ext.Html}
        {net : Ext.Network}.
Import Re models Ext url_parser.

(** [fetch] starts with the steps of [normalize_url]. *)
Lemma smithery_fetch_unfold (url : str) (w : Eff.World) :
  smithery.fetch url w
  = smithery.fetch (normalize_url url) w.
Proof.
  unfold smithery.fetch.
  change (if Py.contains (u "server.smithery.ai") (normalize_url url)
          then match re_search false SERVER_ALIAS_PATTERN (normalize_url url) with
               | Some m => u "https://smithery.ai/server/" ++ group_text 1 m
               | None => normalize_url url
               end
          else normalize_url url) with (normalize_url (normalize_url url)).
  change (if Py.contains (u "server.smithery.ai") url
          then match re_search false SERVER_ALIAS_PATTERN url with
               | Some m => u "https://smithery.ai/server/" ++ group_text 1 m
               | None => url
               end
          else url) with (normalize_url url).
  now rewrite normalize_url_fixed.
Qed.

End SmitheryUrlProofs.

(** ** sources: what [fetch] does on the network *)

Section FetchProofs.
Context {db : UnicodeDB} {ip : Ext.Interp} {js : Ext.Json} {html : Ext.Html}
        {net : Ext.Network}.
Import Re models Ext url_parser.

(** What a successful [fetch] of the fastmcp.me source went through. *)
Lemma fastmcp_fetch_ok (url : str) (w w' : Eff.World) (i : MCPInfo) :
  fastmcp.fetch url w = (w', Ok i) ->
  exists page m,
    http_response (Eff.requests w) url = Ok page /\
    re_match false FASTMCP_PATTERN url = Some m /\
    w' = Eff.send (HttpGet url) w /\
    (name i = group_text 2 m \/ name i <> []) /\
    tools i = fastmcp._extract_tools (BeautifulSoup page) /\
    fastmcp._extract_install_command (BeautifulSoup page) (group_text 2 m)
      = Ok (install_command i, install_args i) /\
    match fastmcp.first_http_url (find_all_string (BeautifulSoup page) fastmcp.http_indicator) with
    | Some found => connection_type i = u "http" /\ http_url i = Some found
    | None => connection_type i = u "stdio" /\ http_url i = None
    end /\
    env_vars i = fastmcp._extract_env_vars (BeautifulSoup page) /\
    source_url i = url.
Proof.
  unfold fastmcp.fetch, Eff.bind, Eff.http_get, Eff.lift, Eff.raise, Eff.ret. intros H.
  destruct (http_response _ _) as [page|]; [|discriminate].
  destruct (re_match false FASTMCP_PATTERN url) as [m|]; [|discriminate].
  destruct (fastmcp._extract_install_command _ _) as [[command args]|] eqn:Hi;
    [|discriminate].
  exists page, m.
  destruct (fastmcp.first_http_url _) as [found|];
    injection H as <- <-; cbn [name tools install_command install_args connection_type
                                http_url env_vars source_url];
    repeat split; auto;
    unfold Py.or_else; destruct (Py.truthy _) eqn:E; auto;
    right; now apply truthy_nonempty.
Qed.

(** What a successful [fetch] of the smithery.ai source went through. *)
Lemma smithery_fetch_ok (url : str) (w w' : Eff.World) (i : MCPInfo) :
  smithery.fetch url w = (w', Ok i) ->
  exists page m,
    http_response (Eff.requests w) (normalize_url url) = Ok page /\
    re_match false SMITHERY_PATTERN (normalize_url url) = Some m /\
    w' = Eff.send (HttpGet (normalize_url url)) w /\
    (name i = group_text 1 m \/ name i <> []) /\
    tools i = smithery._extract_tools (BeautifulSoup page) /\
    smithery._determine_connection (BeautifulSoup page) (group_text 1 m)
      = (connection_type i, install_command i, install_args i, http_url i) /\
    env_vars i = smithery._extract_env_vars (BeautifulSoup page) /\
    source_url i = normalize_url url.
Proof.
  unfold smithery.fetch.
  change (if Py.contains (u "server.smithery.ai") url
          then match re_search false SERVER_ALIAS_PATTERN url with
               | Some m => u "https://smithery.ai/server/" ++ group_text 1 m
               | None => url
               end
          else url) with (normalize_url url).
  unfold Eff.bind, Eff.http_get, Eff.raise, Eff.ret. intros H.
  destruct (http_response _ _) as [page|]; [|discriminate].
  destruct (re_match false SMITHERY_PATTERN (normalize_url url)) as [m|]; [|discriminate].
  exists page, m.
  destruct (smithery._determine_connection _ _) as [[[ct ic] ia] hu].
  injection H as <- <-; cbn [name tools install_command install_args connection_type
                              http_url env_vars source_url].
  repeat split; auto.
  unfold Py.or_else; destruct (Py.truthy _) eqn:E; auto.
  right; now apply truthy_nonempty.
Qed.

End FetchProofs.

Section FetchRequests.
Context {db : UnicodeDB} {ip : Ext.Interp} {js : Ext.Json} {html : Ext.Html}
        {net : Ext.Network}.
Import Re models Ext url_parser.

(** X5. Whatever its outcome, [fetch] sends exactly one request, the GET of
    the URL (of the normalized URL, for smithery.ai), and leaves the file
    system as it is. *)
Theorem fetch_sends_one_request (url : str) (w : Eff.World) :
  (Eff.requests (fst (fastmcp.fetch url w)) = Eff.requests w ++ [HttpGet url] /\
   Eff.fs (fst (fastmcp.fetch url w)) = Eff.fs w) /\
  (Eff.requests (fst (smithery.fetch url w))
     = Eff.requests w ++ [HttpGet (normalize_url url)] /\
   Eff.fs (fst (smithery.fetch url w)) = Eff.fs w).
Proof.
  split.
  - unfold fastmcp.fetch, Eff.bind, Eff.http_get, Eff.lift, Eff.raise, Eff.ret.
    destruct (http_response _ _) as [page|]; [|now cbn].
    destruct (re_match false FASTMCP_PATTERN url) as [m|]; [|now cbn].
    destruct (fastmcp._extract_install_command _ _) as [[command args]|]; [|now cbn].
    destruct (fastmcp.first_http_url _); now cbn.
  - rewrite smithery_fetch_unfold. unfold smithery.fetch.
    change (if Py.contains (u "server.smithery.ai") (normalize_url url)
            then match re_search false SERVER_ALIAS_PATTERN (normalize_url url) with
                 | Some m => u "https://smithery.ai/server/" ++ group_text 1 m
                 | None => normalize_url url
                 end
            else normalize_url url) with (normalize_url (normalize_url url)).
    rewrite normalize_url_fixed.
    unfold Eff.bind, Eff.http_get, Eff.raise, Eff.ret.
    destruct (http_response _ _) as [page|]; [|now cbn].
    destruct (re_match false SMITHERY_PATTERN _) as [m|]; [|now cbn].
    destruct (smithery._determine_connection _ _) as [[[ct ic] ia] hu]. now cbn.
Qed.

(** X6. A failed request is raised by [fetch] as it is.  When the page
    arrives but the URL is not one of the source, [fetch] raises a
    [ValueError] that quotes the URL (the normalized one, for smithery.ai). *)
Theorem fetch_raises_before_parsing (url : str) (w : Eff.World) :
  (forall e, http_response (Eff.requests w) url = Raise e ->
             snd (fastmcp.fetch url w) = Raise e) /\
  (forall e, http_response (Eff.requests w) (normalize_url url) = Raise e ->
             snd (smithery.fetch url w) = Raise e) /\
  (forall page, http_response (Eff.requests w) url = Ok page ->
                fastmcp.can_handle url = false ->
                snd (fastmcp.fetch url w)
                  = Raise (ValueError (u "Invalid fastmcp.me URL: " ++ url))) /\
  (forall page, http_response (Eff.requests w) (normalize_url url) = Ok page ->
                smithery.can_handle (normalize_url url) = false ->
                snd (smithery.fetch url w)
                  = Raise (ValueError (u "Invalid smithery.ai URL: " ++ normalize_url url))).
Proof.
  assert (Hs : forall r : result str,
             http_response (Eff.requests w) (normalize_url url) = r ->
             snd (smithery.fetch url w)
             = match r with
               | Raise e => Raise e
               | Ok page =>
                   if smithery.can_handle (normalize_url url)
                   then snd (smithery.fetch url w)
                   else Raise (ValueError (u "Invalid smithery.ai URL: " ++ normalize_url url))
               end).
  { intros r Hr. rewrite smithery_fetch_unfold at 1. unfold smithery.fetch at 1.
    change (if Py.contains (u "server.smithery.ai") (normalize_url url)
            then match re_search false SERVER_ALIAS_PATTERN (normalize_url url) with
                 | Some m => u "https://smithery.ai/server/" ++ group_text 1 m
                 | None => normalize_url url
                 end
            else normalize_url url) with (normalize_url (normalize_url url)).
    rewrite normalize_url_fixed.
    unfold Eff.bind, Eff.http_get, Eff.raise, Eff.ret. rewrite Hr.
    destruct r as [page|e]; [|reflexivity].
    unfold smithery.can_handle.
    destruct (re_match false SMITHERY_PATTERN (normalize_url url)) as [m|] eqn:E;
      [|reflexivity].
    cbn [Py.is_some].
    rewrite smithery_fetch_unfold. unfold smithery.fetch.
    change (if Py.contains (u "server.smithery.ai") (normalize_url url)
            then match re_search false SERVER_ALIAS_PATTERN (normalize_url url) with
                 | Some m => u "https://smithery.ai/server/" ++ group_text 1 m
                 | None => normalize_url url
                 end
            else normalize_url url) with (normalize_url (normalize_url url)).
    rewrite normalize_url_fixed.
    unfold Eff.bind, Eff.http_get, Eff.raise, Eff.ret. now rewrite Hr, E. }
  repeat split.
  - intros e He. unfold fastmcp.fetch, Eff.bind, Eff.http_get. now rewrite He.
  - intros e He. now rewrite (Hs _ He).
  - intros page Hp Hc. unfold fastmcp.fetch, Eff.bind, Eff.http_get, Eff.raise.
    rewrite Hp. unfold fastmcp.can_handle in Hc.
    destruct (re_match false FASTMCP_PATTERN url); [discriminate | reflexivity].
  - intros page Hp Hc. now rewrite (Hs _ Hp), Hc.
Qed.

End FetchRequests.

Section FetchedRecords.
Context {db : UnicodeDB} {ip : Ext.Interp} {js : Ext.Json} {html : Ext.Html}
        {net : Ext.Network}.
Import Re models Ext url_parser.

(** X7. Every record [fetch] returns has a name that is not empty, at most
    20 tools and at most 10 environment variables. *)
Theorem fetched_record_is_bounded (url : str) (w w' : Eff.World) (i : MCPInfo) :
  fastmcp.fetch url w = (w', Ok i) \/ smithery.fetch url w = (w', Ok i) ->
  name i <> [] /\ length (tools i) <= 20 /\ length (env_vars i) <= 10.
Proof.
  intros [H | H].
  - apply fastmcp_fetch_ok in H
      as (page & m & _ & Hm & _ & Hn & Ht & _ & _ & He & _).
    rewrite Ht, He. repeat split.
    + destruct Hn as [Hn | Hn]; [|exact Hn]. rewrite Hn.
      apply fastmcp_match_inv in Hm as (? & ? & ? & n & ? & _ & _ & _ & _ & Hne & _ & _ & _ & Hg).
      unfold group_text. now rewrite Hg.
    + apply firstn_le_length.
    + apply firstn_le_length.
  - apply smithery_fetch_ok in H
      as (page & m & _ & Hm & _ & Hn & Ht & _ & He & _).
    rewrite Ht, He. repeat split.
    + destruct Hn as [Hn | Hn]; [|exact Hn]. rewrite Hn.
      apply smithery_match_inv in Hm as (? & ? & ? & n & ? & _ & _ & _ & _ & Hne & _ & _ & Hg).
      unfold group_text. now rewrite Hg.
    + apply firstn_le_length.
    + apply firstn_le_length.
Qed.

(** The alias of a server's name normalizes to its canonical URL. *)
Lemma alias_url_run {A} (K : str -> caps -> option A) (c : char) (t : str) :
  single_match false not_slash_space c = true ->
  (forall s g, K s g <> None) ->
  rmatch false SERVER_ALIAS_PATTERN (u "server.smithery.ai/" ++ c :: t) [] K
  = K (Py.lstrip_with (single_match false not_slash_space) t)
      [(1, firstn (length (c :: t)
                   - length (Py.lstrip_with (single_match false not_slash_space) t))
                  (c :: t))].
Proof.
  intros Hc HK. unfold SERVER_ALIAS_PATTERN.
  remember not_slash_space as nss eqn:E.
  cbn -[Nat.sub firstn length star_k].
  rewrite Hc. now rewrite star_k_total by (intros; apply HK).
Qed.

(** A match at the start of the string is what [re_search] finds. *)
Lemma re_search_here (r : regex) (s : str) (m : Match) :
  re_match false r s = Some m -> re_search false r s = Some m.
Proof. intros H. destruct s; simpl; now rewrite H. Qed.

(** Moving a match to the right keeps the text of its groups. *)
Lemma group_text_shift (i : nat) (m : Match) : group_text i (shift m) = group_text i m.
Proof. now destruct i. Qed.

(** The URL on the server host is rewritten to the canonical one. *)
Lemma hosted_url_normalizes (c : char) (t : str) :
  forallb (single_match false not_slash_space) (c :: t) = true ->
  normalize_url (u "https://server.smithery.ai/" ++ c :: t)
  = u "https://smithery.ai/server/" ++ c :: t.
Proof.
  intros H. unfold normalize_url.
  replace (Py.contains (u "server.smithery.ai") (u "https://server.smithery.ai/" ++ c :: t))
    with true.
  2:{ symmetry.
      apply (contains_app (u "server.smithery.ai") (u "https://") (u "/" ++ c :: t)). }
  cbn [forallb] in H. apply andb_prop in H as [Hc Ht].
  assert (Hm : exists m,
             re_match false SERVER_ALIAS_PATTERN (u "server.smithery.ai/" ++ c :: t) = Some m /\
             group_text 1 m = c :: t).
  { unfold re_match. rewrite alias_url_run by (assumption || discriminate).
    eexists. split; [reflexivity|]. unfold group_text, group. cbn [m_groups lookup Nat.eqb].
    rewrite (lstrip_all _ _ Ht).
    replace (length (c :: t) - length (@nil char)) with (length (c :: t)) by (simpl; lia).
    now rewrite firstn_all. }
  destruct Hm as (m & Hm & Hg).
  change (u "https://server.smithery.ai/" ++ c :: t)
    with (chr "h" :: chr "t" :: chr "t" :: chr "p" :: chr "s" :: chr ":" :: chr "/"
            :: chr "/" :: (u "server.smithery.ai/" ++ c :: t)).
  repeat (rewrite re_search_skip by reflexivity).
  rewrite (re_search_here _ _ _ Hm). cbn [option_map].
  now rewrite !group_text_shift, Hg.
Qed.

(** The four answers of [_determine_connection]. *)
Lemma smithery_connection_shape (soup : Tag) (server_name : str) :
  smithery._determine_connection soup server_name
    = (u "http", [], [], Some (u "https://server.smithery.ai/" ++ server_name)) \/
  exists package,
    smithery._determine_connection soup server_name
      = (u "stdio", u "npx", [u "-y"; u "@smithery/cli"; u "run"; package], None) \/
    smithery._determine_connection soup server_name
      = (u "stdio", u "npx", [u "-y"; package], None).
Proof.
  unfold smithery._determine_connection, smithery.install_patterns.
  destruct (Py.is_some _); [now left|]. right.
  cbn [smithery.first_install_pattern smithery.compiled smithery.cmd smithery.source].
  repeat match goal with
         | |- context [re_search false ?r ?t] => destruct (re_search false r t)
         end;
    cbn; eauto.
Qed.

(** X8. A record of smithery.ai is named in its source URL and is of one of
    two kinds: http, with the URL of the server host for that name and no
    command; or stdio, run by [npx -y @smithery/cli run <package>] or
    [npx -y <package>].  [normalize_url] takes the URL of an http record to
    the canonical page of the same name, which need not be the source URL
    itself. *)
Theorem smithery_record_connection (url : str) (w w' : Eff.World) (i : MCPInfo) :
  smithery.fetch url w = (w', Ok i) ->
  exists server_name,
    extract_mcp_name (source_url i) = Some server_name /\
    ((connection_type i = u "http" /\
      http_url i = Some (u "https://server.smithery.ai/" ++ server_name) /\
      normalize_url (u "https://server.smithery.ai/" ++ server_name)
        = u "https://smithery.ai/server/" ++ server_name /\
      extract_mcp_name (normalize_url (u "https://server.smithery.ai/" ++ server_name))
        = Some server_name /\
      install_command i = [] /\ install_args i = []) \/
     (connection_type i = u "stdio" /\ http_url i = None /\
      install_command i = u "npx" /\
      exists package,
        install_args i = [u "-y"; u "@smithery/cli"; u "run"; package] \/
        install_args i = [u "-y"; package])).
Proof.
  intros H. apply smithery_fetch_ok in H
    as (page & m & _ & Hm & _ & _ & _ & Hd & _ & Hs).
  assert (HF : re_match false FASTMCP_PATTERN (normalize_url url) = None).
  { destruct (re_match false FASTMCP_PATTERN (normalize_url url)) as [m1|] eqn:E;
      [|reflexivity]. destruct (patterns_exclusive _ _ _ E Hm). }
  pose proof Hm as Hinv.
  apply smithery_match_inv in Hinv
    as (? & ? & ? & n & ? & _ & _ & _ & _ & Hne & Hall & _ & Hg).
  exists n. split.
  { unfold extract_mcp_name. now rewrite Hs, HF, Hm. }
  assert (Hgt : group_text 1 m = n) by (unfold group_text; now rewrite Hg).
  rewrite Hgt in Hd.
  destruct (smithery_connection_shape (BeautifulSoup page) n) as [E | (package & [E | E])];
    rewrite E in Hd; injection Hd as <- <- <- <-.
  - left. destruct n as [|c t]; [contradiction|].
    pose proof (hosted_url_normalizes c t Hall) as Hhost.
    destruct (canonical_url_match c t Hall) as (HF' & m' & Hm' & Hg').
    repeat split; [exact Hhost|].
    unfold extract_mcp_name. now rewrite Hhost, HF', Hm'.
  - right. repeat split. exists package. now left.
  - right. repeat split. exists package. now right.
Qed.

(** The four answers of the command patterns of fastmcp.me. *)
Lemma fastmcp_install_shape (soup : Tag) (mcp_name command : str) (args : list str) :
  fastmcp._extract_install_command soup mcp_name = Ok (command, args) ->
  exists package,
    (command = u "npx" /\ args = [u "-y"; package]) \/
    (command = u "uvx" /\ args = [package]) \/
    (command = u "bunx" /\ args = [package]) \/
    (command = u "npm" /\ args = [u "exec"; package]).
Proof.
  unfold fastmcp._extract_install_command, fastmcp.install_patterns.
  cbn [fastmcp.first_install_pattern].
  repeat match goal with
         | |- context [re_search false ?r ?t] => destruct (re_search false r t)
         end;
    cbn -[fastmcp.first_package_pattern];
    try (intros H; injection H as <- <-; eexists; tauto).
  match goal with
  | |- context [fastmcp.first_package_pattern ?l ?t] =>
      destruct (fastmcp.first_package_pattern l t) as [[found|]|]
  end; try discriminate; intros H; injection H as <- <-; eexists; tauto.
Qed.

(** A group records what its body consumed, before the groups of the body. *)
Lemma sem_group_inv (i : nat) (r : regex) (w rest : str) (g g' : caps) :
  sem false (Group i r) w rest g g' ->
  exists g1, g' = (i, w) :: g1 /\ sem false r w rest g g1.
Proof. intros H. inversion H; subst. eauto. Qed.

(** The URL the loop over the texts settles on. *)
Lemma first_http_url_spec (texts : list str) (found : str) :
  fastmcp.first_http_url texts = Some found ->
  Py.starts_with (u "http") found = true /\
  Py.contains (u "mcp") (Py.lower found) = true /\
  exists text, In text texts /\ Py.contains found text = true.
Proof.
  induction texts as [|text texts IH]; cbn [fastmcp.first_http_url]; [discriminate|].
  destruct (re_search false fastmcp.url_in_text text) as [m|] eqn:E.
  - destruct (Py.contains (u "mcp") (Py.lower (group_text 1 m))) eqn:Hc.
    + intros H. injection H as <-.
      apply re_search_sound in E as (before & rest & Ht & _ & S).
      unfold fastmcp.url_in_text in S.
      apply sem_group_inv in S as (g3 & Hg & HP).
      apply sem_Cat_inv in HP as (w1 & w2 & g1 & Hw & H1 & _).
      apply sem_lit_inv in H1 as [-> _].
      assert (Hgt : group_text 1 m = m_text m)
        by (unfold group_text, group; now rewrite Hg).
      rewrite Hgt in *. repeat split.
      * rewrite Hw. apply starts_with_app.
      * exact Hc.
      * exists text. split; [now left|]. rewrite Ht. apply contains_app.
    + intros H. destruct (IH H) as (H1 & H2 & t' & Ht' & H3).
      repeat split; auto. exists t'. split; [now right | assumption].
  - intros H. destruct (IH H) as (H1 & H2 & t' & Ht' & H3).
    repeat split; auto. exists t'. split; [now right | assumption].
Qed.

(** X9. A record of fastmcp.me always carries an install command, of one of
    four shapes ([npx -y p], [uvx p], [bunx p], [npm exec p]), also when
    it is an http record; the URL of an http record starts with [http]
    and contains [mcp] in some case. *)
Theorem fastmcp_record_install (url : str) (w w' : Eff.World) (i : MCPInfo) :
  fastmcp.fetch url w = (w', Ok i) ->
  (exists package,
     (install_command i = u "npx" /\ install_args i = [u "-y"; package]) \/
     (install_command i = u "uvx" /\ install_args i = [package]) \/
     (install_command i = u "bunx" /\ install_args i = [package]) \/
     (install_command i = u "npm" /\ install_args i = [u "exec"; package])) /\
  ((connection_type i = u "stdio" /\ http_url i = None) \/
   (connection_type i = u "http" /\
    exists found,
      http_url i = Some found /\
      Py.starts_with (u "http") found = true /\
      Py.contains (u "mcp") (Py.lower found) = true)).
Proof.
  intros H. apply fastmcp_fetch_ok in H
    as (page & m & _ & _ & _ & _ & _ & Hi & Hc & _).
  split; [now apply fastmcp_install_shape in Hi|].
  destruct (fastmcp.first_http_url _) as [found|] eqn:E.
  - right. destruct Hc as [Hc Hu]. split; [exact Hc|]. exists found.
    apply first_http_url_spec in E as (H1 & H2 & _). auto.
  - left. exact Hc.
Qed.

End FetchedRecords.

(** ** sources: tools read off list items *)

Section ToolProofs.
Context {db : UnicodeDB}.
Import Re models Ext.

(** A set of literal characters matches its members. *)
Lemma char_set_spec (l : list char) (x : char) :
  single_match false (SSet false (map CChar l)) x = true <-> In x l.
Proof.
  cbn [single_match xorb]. rewrite existsb_exists. split.
  - intros (it & Hit & Hm). apply in_map_iff in Hit as (c & <- & Hc).
    cbn in Hm. apply N.eqb_eq in Hm. now subst.
  - intros H. exists (CChar x). split; [now apply in_map|]. cbn. apply N.eqb_refl.
Qed.

(** A pattern of one class matches the first character or fails. *)
Lemma re_match_one (a : single) (c : char) (s : str) :
  re_match false (One a) (c :: s)
  = if single_match false a c
    then Some {| m_start := 0; m_text := [c]; m_groups := [] |}
    else None.
Proof.
  unfold re_match. cbn [rmatch]. destruct (single_match false a c); [|reflexivity].
  do 2 f_equal. apply (firstn_consumed [c] s).
Qed.

(** The first character of a text that a one-character pattern matches. *)
Lemma re_search_one (a : single) (pre post : str) (c : char) :
  (forall x, In x pre -> single_match false a x = false) ->
  single_match false a c = true ->
  exists m, re_search false (One a) (pre ++ c :: post) = Some m /\
            m_start m = length pre /\ m_text m = [c].
Proof.
  intros Hpre Hc. induction pre as [|x pre IH].
  - eexists. cbn [app re_search]. rewrite re_match_one, Hc. auto.
  - destruct IH as (m & Hm & Hs & Ht); [intros y Hy; apply Hpre; now right|].
    exists (shift m). cbn [app re_search]. rewrite re_match_one, (Hpre x) by now left.
    rewrite Hm. cbn. rewrite Hs, Ht. auto.
Qed.

(** A pattern of one class is not found among characters outside the class. *)
Lemma re_search_one_none (a : single) (s : str) :
  (forall x, In x s -> single_match false a x = false) ->
  re_search false (One a) s = None.
Proof.
  intros H. induction s as [|x s IH]; [reflexivity|].
  cbn [re_search]. rewrite re_match_one, (H x) by now left.
  rewrite IH; [reflexivity|]. intros y Hy. apply H. now right.
Qed.

(** The tool of a list item, for a separator pattern of one class: nothing
    for a short item, the whole text without separator, and otherwise the
    two sides of the first separator. *)
Lemma tool_of_item_spec (a : single) (text : str) :
  (length text <= 5 -> fastmcp.tool_of_item (One a) text = []) /\
  (5 < length text ->
   (forall c, In c text -> single_match false a c = false) ->
   fastmcp.tool_of_item (One a) text
     = [{| t_name := firstn 50 text; t_description := text |}]) /\
  (forall pre c post,
     text = pre ++ c :: post -> 5 < length text ->
     (forall x, In x pre -> single_match false a x = false) ->
     single_match false a c = true ->
     fastmcp.tool_of_item (One a) text
       = [{| t_name := Py.strip pre; t_description := Py.strip post |}]).
Proof.
  unfold fastmcp.tool_of_item. repeat split.
  - intros H. apply Nat.ltb_ge in H. rewrite H. now rewrite andb_false_r.
  - intros H Hno. apply Nat.ltb_lt in H. rewrite H.
    destruct text as [|x text]; [discriminate|]. cbn [Py.truthy andb].
    unfold re_split_once. now rewrite re_search_one_none.
  - intros pre c post -> H Hpre Hc. apply Nat.ltb_lt in H. rewrite H.
    replace (Py.truthy (pre ++ c :: post)) with true by (now destruct pre).
    cbn [andb]. unfold re_split_once.
    destruct (re_search_one a pre post c Hpre Hc) as (m & -> & Hs & Ht).
    rewrite Hs, Ht. cbn [length].
    rewrite firstn_app, Nat.sub_diag, firstn_all. cbn [firstn]. rewrite app_nil_r.
    replace (length pre + 1) with (length (pre ++ [c])) by (rewrite length_app; reflexivity).
    replace (pre ++ c :: post) with ((pre ++ [c]) ++ post) by (now rewrite <- app_assoc).
    rewrite skipn_app, Nat.sub_diag, skipn_all. reflexivity.
Qed.

(** X10. The tool read off a list item, in both sources: an item of 5
    characters or fewer gives none; an item without separator gives its
    first 50 characters as name and the whole text as description; any
    other item is split at its first separator, both sides stripped.  The
    separators are those of the character class of each source. *)
Theorem tool_of_item_splits_at_first_separator (text : str) :
  let splits (sep : regex) (separators : list char) :=
    (length text <= 5 -> fastmcp.tool_of_item sep text = []) /\
    (5 < length text ->
     (forall c, In c text -> ~ In c separators) ->
     fastmcp.tool_of_item sep text
       = [{| t_name := firstn 50 text; t_description := text |}]) /\
    (forall pre c post,
       text = pre ++ c :: post -> 5 < length text ->
       (forall x, In x pre -> ~ In x separators) ->
       In c separators ->
       fastmcp.tool_of_item sep text
         = [{| t_name := Py.strip pre; t_description := Py.strip post |}]) in
  splits fastmcp.tool_separator [chr "-"; 226%N; 8364%N; 8220%N; chr ":"] /\
  splits smithery.tool_separator [chr "-"; 8211%N; chr ":"].
Proof.
  assert (Hno : forall l x, ~ In x l -> single_match false (SSet false (map CChar l)) x = false).
  { intros l x H. destruct (single_match false _ x) eqn:E; [|reflexivity].
    now apply char_set_spec in E. }
  cbv zeta. split.
  - destruct (tool_of_item_spec
                (SSet false (map CChar [chr "-"; 226%N; 8364%N; 8220%N; chr ":"])) text)
      as (H1 & H2 & H3).
    split; [exact H1|]. split.
    + intros H Hc. apply H2; [exact H|]. intros c Hin. apply Hno. now apply Hc.
    + intros pre c post Ht H Hpre Hc. apply (H3 pre c post Ht H).
      * intros x Hx. apply Hno. now apply Hpre.
      * now apply char_set_spec.
  - destruct (tool_of_item_spec
                (SSet false (map CChar [chr "-"; 8211%N; chr ":"])) text)
      as (H1 & H2 & H3).
    split; [exact H1|]. split.
    + intros H Hc. apply H2; [exact H|]. intros c Hin. apply Hno. now apply Hc.
    + intros pre c post Ht H Hpre Hc. apply (H3 pre c post Ht H).
      * intros x Hx. apply Hno. now apply Hpre.
      * now apply char_set_spec.
Qed.

End ToolProofs.

(** ** models/mcp_info.py and core/plugin_generator.py: names *)

Section NameProofs.
Context {db : UnicodeDB}.
Import Re models plugin_generator.

(** The characters after a replacement: those of the replacement, and
    those of the string other than the replaced one. *)
Lemma replace_char_chars (a : char) (b s : str) (c : char) :
  In c (Py.replace_char a b s) -> In c b \/ (In c s /\ c <> a).
Proof.
  unfold Py.replace_char. intros H. apply in_flat_map in H as (x & Hx & Hc).
  destruct (x =? a)%N eqn:E; [now left|]. destruct Hc as [<- | []].
  right. split; [assumption|]. now apply N.eqb_neq.
Qed.

(** X11. [get_server_name] never contains a space or an underscore. *)
Theorem server_name_has_no_space_or_underscore (i : MCPInfo) :
  ~ In (chr " ") (get_server_name i) /\ ~ In (chr "_") (get_server_name i).
Proof.
  unfold get_server_name. split; intros H.
  - apply replace_char_chars in H as [[H | []] | [H _]]; [discriminate|].
    apply replace_char_chars in H as [[H | []] | [_ H]]; [discriminate | now apply H].
  - apply replace_char_chars in H as [[H | []] | [_ H]]; [discriminate | now apply H].
Qed.

(** What is left after dropping a prefix belongs to the list. *)
Lemma skipn_subset {A} (n : nat) (l : list A) (x : A) : In x (skipn n l) -> In x l.
Proof. intros H. rewrite <- (firstn_skipn n l). apply in_or_app. now right. Qed.

(** What [re.sub] leaves of a text: the replacement, and characters of the
    text at which the pattern does not match. *)
Lemma scan_chars (r : regex) (p : char -> bool) (repl : str) (c : char) :
  (forall x t, p x = true -> re_match false r (x :: t) <> None) ->
  (forall t m, re_match false r t = Some m -> m_text m <> []) ->
  forall fuel s,
    In c (flat_map (emit repl) (scan false fuel r s)) ->
    In c repl \/ (In c s /\ p c = false).
Proof.
  intros Hp Hne. induction fuel as [|fuel IH]; intros s H; [destruct H|].
  cbn [scan] in H. destruct (re_match false r s) as [m|] eqn:E.
  - destruct (length (m_text m)) as [|n] eqn:L.
    + apply Hne in E. destruct (m_text m); [contradiction | discriminate].
    + cbn [flat_map emit] in H. apply in_app_or in H as [H | H]; [now left|].
      apply IH in H as [H | [H1 H2]]; [now left|]. right.
      split; [|assumption]. now apply skipn_subset in H1.
  - destruct s as [|x s]; [destruct H|].
    cbn [flat_map emit] in H. apply in_app_or in H as [[-> | []] | H].
    + right. split; [now left|]. destruct (p c) eqn:Hc; [|reflexivity].
      now apply (Hp c s) in Hc.
    + apply IH in H as [H | [H1 H2]]; [now left|]. right. split; [now right | assumption].
Qed.

(** The characters after a substitution, for a pattern that matches at
    every character of a class and never matches the empty string: those of
    the replacement, and those of the string outside the class. *)
Lemma re_sub_chars (r : regex) (p : char -> bool) (repl s : str) (c : char) :
  (forall x t, p x = true -> re_match false r (x :: t) <> None) ->
  (forall t m, re_match false r t = Some m -> m_text m <> []) ->
  In c (re_sub false r repl s) -> In c repl \/ (In c s /\ p c = false).
Proof. intros Hp Hne. unfold re_sub, pieces. now apply scan_chars. Qed.

(** A pattern of one class matches at a character of the class. *)
Lemma one_matches (a : single) (x : char) (t : str) :
  single_match false a x = true -> re_match false (One a) (x :: t) <> None.
Proof. intros H. rewrite re_match_one, H. discriminate. Qed.

(** A pattern of one class never matches the empty string. *)
Lemma one_not_empty (a : single) (t : str) (m : Match) :
  re_match false (One a) t = Some m -> m_text m <> [].
Proof.
  destruct t as [|x t]; [discriminate|]. rewrite re_match_one.
  destruct (single_match false a x); [|discriminate]. intros H. injection H as <-. discriminate.
Qed.

(** A repetition matches at a character of the class. *)
Lemma plus_matches (a : single) (x : char) (t : str) :
  single_match false a x = true -> re_match false (Plus a) (x :: t) <> None.
Proof.
  intros H. destruct (re_match_plus a x t H) as (m & -> & _). discriminate.
Qed.

(** A repetition never matches the empty string. *)
Lemma plus_not_empty (a : single) (t : str) (m : Match) :
  re_match false (Plus a) t = Some m -> m_text m <> [].
Proof.
  intros H. apply re_match_sound in H as (rest & _ & S).
  remember (m_text m) as w eqn:E. clear E. inversion S; subst. discriminate.
Qed.

(** Stripping a character at both ends adds no character. *)
Lemma strip_char_chars (a : char) (s : str) (c : char) :
  In c (Py.strip_char a s) -> In c s.
Proof.
  unfold Py.strip_char. intros H.
  destruct (lstrip_suffix (N.eqb a) s) as (x & Hx & _).
  destruct (rstrip_prefix (N.eqb a) (Py.lstrip_with (N.eqb a) s)) as (y & Hy).
  rewrite Hx, Hy. apply in_or_app. right. apply in_or_app. now left.
Qed.

(** Where the characters of a sanitized name come from. *)
Lemma sanitize_name_chars (name : str) (c : char) :
  In c (_sanitize_name name) ->
  In c (u "unknown-plugin") \/ c = chr "-" \/
  (In c (Py.lower name) /\
   single_match false (SSet true [CWord; CSpace; CChar (chr "-")]) c = false /\
   single_match false (SSet false [CSpace; CChar (chr "_")]) c = false).
Proof.
  unfold _sanitize_name, Py.or_else. intros H.
  destruct (Py.truthy _); [|now left]. right.
  apply strip_char_chars in H.
  apply (re_sub_chars hyphens (single_match false (SChar (chr "-")))) in H;
    [|apply plus_matches | apply plus_not_empty].
  destruct H as [[<- | []] | [H _]]; [now left|].
  apply (re_sub_chars spaces_and_underscores
           (single_match false (SSet false [CSpace; CChar (chr "_")]))) in H;
    [|apply plus_matches | apply plus_not_empty].
  destruct H as [[<- | []] | [H H2]]; [now left|].
  apply (re_sub_chars special_character
           (single_match false (SSet true [CWord; CSpace; CChar (chr "-")]))) in H;
    [|apply one_matches | apply one_not_empty].
  destruct H as [[] | [H H1]]. right. auto.
Qed.

(** Every character of a sanitized name is a hyphen or a word character
    other than the underscore. *)
Lemma sanitize_name_chars_ok (name : str) (c : char) :
  In c (_sanitize_name name) ->
  (c = chr "-" \/ Py.is_word c = true) /\
  Py.is_space c = false /\ c <> chr "_" /\ c <> chr "/".
Proof.
  intros H. apply sanitize_name_chars in H as [H | [-> | (_ & H1 & H2)]].
  - cbn in H. repeat destruct H as [<- | H]; try destruct H;
      (split; [first [left; reflexivity | right; reflexivity]
              | split; [reflexivity | split; discriminate]]).
  - split; [now left | split; [reflexivity | split; discriminate]].
  - cbn [single_match xorb existsb cls_match] in H1, H2.
    rewrite orb_false_r in H1, H2. apply negb_false_iff in H1.
    apply orb_false_elim in H2 as [Hs Hu]. apply N.eqb_neq in Hu.
    rewrite Hs in H1. cbn [orb] in H1.
    assert (Hw : c = chr "-" \/ Py.is_word c = true).
    { apply orb_prop in H1 as [H1 | H1]; [now right|]. left.
      symmetry. now apply N.eqb_eq. }
    repeat split; auto.
    intros ->. destruct Hw as [Hw | Hw]; discriminate.
Qed.

(** X12. A sanitized name is never empty, and each of its characters is a
    hyphen or a word character of [re] other than the underscore; so it
    has no white space and no slash, and names one directory. *)
Theorem sanitize_name_charset (name : str) :
  _sanitize_name name <> [] /\
  forall c, In c (_sanitize_name name) ->
    (c = chr "-" \/ Py.is_word c = true) /\
    Py.is_space c = false /\ c <> chr "_" /\ c <> chr "/".
Proof.
  split.
  - unfold _sanitize_name, Py.or_else.
    destruct (Py.strip_char _ _) as [|x t]; cbn [Py.truthy]; discriminate.
  - apply sanitize_name_chars_ok.
Qed.

(** The lower case of an ASCII character is an ASCII character that is no
    capital letter. *)
Lemma ascii_lower_spec (x : char) :
  Py.is_ascii x = true ->
  Py.is_ascii (Py.ascii_lower x) = true /\ Py.ascii_upper_letter (Py.ascii_lower x) = false.
Proof.
  unfold Py.is_ascii, Py.ascii_lower, Py.ascii_upper_letter, Py.in_range.
  change (chr "A") with 65%N. change (chr "Z") with 90%N.
  intros H. apply N.ltb_lt in H.
  destruct ((65 <=? x)%N && (x <=? 90)%N) eqn:E.
  - apply andb_prop in E as [E1 E2]. apply N.leb_le in E1, E2. split.
    + apply N.ltb_lt. lia.
    + apply andb_false_iff. right. apply N.leb_gt. lia.
  - split; [now apply N.ltb_lt | exact E].
Qed.

(** X13. The sanitized form of an ASCII name consists of lower-case letters,
    digits and hyphens. *)
Theorem sanitize_name_of_ascii_name (name : str) :
  forallb Py.is_ascii name = true ->
  forall c, In c (_sanitize_name name) ->
    Py.ascii_lower_letter c || Py.ascii_digit c || (c =? chr "-")%N = true.
Proof.
  intros Ha c H. apply sanitize_name_chars in H as [H | [-> | (H0 & H1 & H2)]].
  - cbn in H. repeat destruct H as [<- | H]; try destruct H; reflexivity.
  - reflexivity.
  - unfold Py.lower in H0. rewrite Ha in H0. apply in_map_iff in H0 as (x & <- & Hx).
    rewrite forallb_forall in Ha. apply Ha, ascii_lower_spec in Hx as [Hx1 Hx2].
    set (y := Py.ascii_lower x) in *.
    cbn [single_match xorb existsb cls_match] in H1, H2.
    rewrite orb_false_r in H1, H2. apply negb_false_iff in H1.
    apply orb_false_elim in H2 as [Hs Hu].
    rewrite Hs in H1. cbn [orb] in H1.
    unfold Py.is_word in H1. rewrite Hx1 in H1. unfold Py.ascii_word in H1.
    rewrite Hx2 in H1. rewrite (N.eqb_sym y) in H1. rewrite Hu in H1.
    rewrite !orb_false_r in H1. rewrite (N.eqb_sym y). exact H1.
Qed.

End NameProofs.

(** ** core/plugin_generator.py: the stdio server config *)

Section DictProofs.
Import models.

(** A key reads back the value it was set to. *)
Lemma dict_get_set_same {V} (k : str) (v : V) (d : dict V) :
  dict_get k (dict_set k v d) = Some v.
Proof.
  induction d as [|[k' v'] d IH]; cbn.
  - now rewrite str_eqb_refl.
  - destruct (Py.str_eqb k k') eqn:E; cbn; [now rewrite str_eqb_refl | now rewrite E].
Qed.

(** Setting a key leaves the other keys as they are. *)
Lemma dict_get_set_other {V} (k k' : str) (v : V) (d : dict V) :
  k <> k' -> dict_get k' (dict_set k v d) = dict_get k' d.
Proof.
  intros Hne. induction d as [|[k0 v0] d IH]; cbn.
  - apply not_eq_sym, str_eqb_neq in Hne. now rewrite Hne.
  - destruct (Py.str_eqb k k0) eqn:E; cbn.
    + apply str_eqb_eq in E. subst k0.
      apply not_eq_sym, str_eqb_neq in Hne. now rewrite Hne.
    + now rewrite IH.
Qed.

(** Two strings are equal or not. *)
Lemma str_eq_dec (a b : str) : {a = b} + {a <> b}.
Proof. apply list_eq_dec, N.eq_dec. Qed.

(** The comprehension that builds [env]: every variable maps to its
    placeholder, and nothing else has a key. *)
Lemma env_placeholders_fold (vars : list str) (d : dict str) (k : str) :
  (In k vars ->
   dict_get k (fold_left (fun d var => dict_set var (u "${" ++ var ++ u "}") d) vars d)
   = Some (u "${" ++ k ++ u "}")) /\
  (~ In k vars ->
   dict_get k (fold_left (fun d var => dict_set var (u "${" ++ var ++ u "}") d) vars d)
   = dict_get k d).
Proof.
  revert d; induction vars as [|v vars IH]; intros d; cbn [fold_left].
  - split; [intros [] | reflexivity].
  - destruct (IH (dict_set v (u "${" ++ v ++ u "}") d)) as [IH1 IH2]. split.
    + intros Hin. destruct (in_dec str_eq_dec k vars) as [Hk | Hk]; [now apply IH1|].
      destruct Hin as [-> | Hin]; [|contradiction].
      rewrite (IH2 Hk). apply dict_get_set_same.
    + intros Hnot. rewrite IH2 by (intros H; apply Hnot; now right).
      apply dict_get_set_other. intros ->. apply Hnot. now left.
Qed.

(** The environment of a server config has each variable as a key, bound
    to the placeholder of its name, and no other key. *)
Lemma env_placeholders_spec (vars : list str) :
  (forall v, In v vars ->
     dict_get v (plugin_generator.env_placeholders vars) = Some (u "${" ++ v ++ u "}")) /\
  (forall k x, dict_get k (plugin_generator.env_placeholders vars) = Some x -> In k vars).
Proof.
  split.
  - intros v Hv. now apply (env_placeholders_fold vars []).
  - intros k x H. destruct (in_dec str_eq_dec k vars) as [Hk | Hk]; [assumption|].
    pose proof (proj2 (env_placeholders_fold vars [] k) Hk) as E.
    change (dict_get k (plugin_generator.env_placeholders vars) = dict_get k []) in E.
    rewrite E in H. discriminate.
Qed.

End DictProofs.

Section StdioProofs.
Context {db : UnicodeDB}.
Import models plugin_generator.

(** X14. The server config of a stdio record has a command and arguments, never
    empty: those of the record where it has them, and the arguments
    [-y mcp-server-<plugin>] otherwise.  It has an [env] key exactly when
    the record has environment variables, and [env] binds each variable,
    and nothing else, to the placeholder of its name. *)
Theorem stdio_server_config_contents (mcp_info : MCPInfo) (plugin_name : str) :
  connection_type mcp_info = u "stdio" ->
  exists (command : str) (args : list str),
    command <> [] /\ args <> [] /\
    (install_command mcp_info <> [] -> command = install_command mcp_info) /\
    (install_args mcp_info <> [] -> args = install_args mcp_info) /\
    (install_args mcp_info = [] -> args = [u "-y"; u "mcp-server-" ++ plugin_name]) /\
    (env_vars mcp_info = [] ->
     emitted_server_config mcp_info plugin_name
       = Some (JDict [(u "command", JStr command); (u "args", JStrs args)])) /\
    (env_vars mcp_info <> [] ->
     exists env : dict str,
       emitted_server_config mcp_info plugin_name
         = Some (JDict [(u "command", JStr command); (u "args", JStrs args);
                        (u "env", JStrDict env)]) /\
       (forall v, In v (env_vars mcp_info) ->
                  dict_get v env = Some (u "${" ++ v ++ u "}")) /\
       (forall k x, dict_get k env = Some x -> In k (env_vars mcp_info))).
Proof.
  intros Hc.
  exists (Py.or_else (install_command mcp_info) (u "npx")),
         (Py.or_else (install_args mcp_info) [u "-y"; u "mcp-server-" ++ plugin_name]).
  rewrite emitted_server_config_eq. unfold _create_plugin_config. cbn [pc_mcpServers].
  rewrite Hc. replace (Py.str_eqb (u "stdio") (u "http")) with false by reflexivity.
  cbn [andb]. unfold Py.or_else.
  split; [destruct (install_command mcp_info); cbn; discriminate|].
  split; [destruct (install_args mcp_info); cbn; discriminate|].
  split; [destruct (install_command mcp_info); cbn; congruence|].
  split; [destruct (install_args mcp_info); cbn; congruence|].
  split; [intros ->; reflexivity|].
  split.
  - intros ->. reflexivity.
  - intros Hne. exists (env_placeholders (env_vars mcp_info)).
    destruct (env_placeholders_spec (env_vars mcp_info)) as [H1 H2].
    split; [|split; assumption].
    destruct (env_vars mcp_info); [contradiction | reflexivity].
Qed.

End StdioProofs.

(** ** core/plugin_generator.py: the files [generate] writes *)

Section FsWrites.
Context {Text : Type}.

(** Writing the same content twice is writing it once. *)
Lemma write_in_twice (p : Fs.Path) (t : Text) (fl : list (Fs.Path * Text)) :
  Fs.write_in p t (Fs.write_in p t fl) = Fs.write_in p t fl.
Proof.
  induction fl as [|[q0 t0] fl IH]; cbn.
  - now rewrite path_eqb_refl.
  - destruct (Fs.path_eqb p q0) eqn:E; cbn.
    + now rewrite path_eqb_refl.
    + now rewrite E, IH.
Qed.

(** A directory exists once it is made. *)
Lemma is_dir_mkdir (s : Fs.FS Text) (p : Fs.Path) : Fs.is_dir (Fs.mkdir s p) p = true.
Proof.
  unfold Fs.mkdir. destruct (Fs.is_dir s p) eqn:E; [exact E|].
  unfold Fs.is_dir. cbn [Fs.dirs existsb]. now rewrite path_eqb_refl, orb_true_r.
Qed.

(** Making a directory keeps the directories there are. *)
Lemma is_dir_mkdir_kept (s : Fs.FS Text) (p q : Fs.Path) :
  Fs.is_dir s q = true -> Fs.is_dir (Fs.mkdir s p) q = true.
Proof.
  unfold Fs.mkdir. destruct (Fs.is_dir s p); [auto|].
  unfold Fs.is_dir. cbn [Fs.dirs existsb]. intros H.
  apply orb_prop in H as [H | H]; rewrite ?existsb_app, H, ?orb_true_r; reflexivity.
Qed.

(** Making a new directory makes its ancestors ([parents=True]). *)
Lemma is_dir_mkdir_parents (s : Fs.FS Text) (p q : Fs.Path) :
  Fs.is_dir s p = false -> In q (Fs.parents p) -> Fs.is_dir (Fs.mkdir s p) q = true.
Proof.
  intros Hp Hq. destruct (Fs.is_dir s q) eqn:E.
  - now apply is_dir_mkdir_kept.
  - unfold Fs.mkdir. rewrite Hp. unfold Fs.is_dir at 1. cbn [Fs.dirs existsb].
    rewrite existsb_app.
    assert (H : existsb (Fs.path_eqb q)
                  (filter (fun q0 => negb (Fs.is_dir s q0)) (Fs.parents p)) = true).
    { apply existsb_exists. exists q. split; [|apply path_eqb_refl].
      apply filter_In. split; [assumption | now rewrite E]. }
    now rewrite H, !orb_true_r.
Qed.

(** The directory a child is made in is one of its ancestors. *)
Lemma parents_child (p : Fs.Path) (x : str) : p <> [] -> In p (Fs.parents (Fs.child p x)).
Proof.
  unfold Fs.child. induction p as [|a p IH]; intros H; [contradiction|].
  destruct p as [|b p]; [now left|].
  change (In (a :: b :: p) ([a] :: map (cons a) (Fs.parents ((b :: p) ++ [x])))).
  right. apply in_map. apply IH. discriminate.
Qed.

(** Making a directory that exists changes nothing ([exist_ok=True]). *)
Lemma mkdir_existing (s : Fs.FS Text) (p : Fs.Path) :
  Fs.is_dir s p = true -> Fs.mkdir s p = s.
Proof. unfold Fs.mkdir. now intros ->. Qed.

(** The same for a directory made without its ancestors. *)
Lemma files_add_dir (s : Fs.FS Text) (p : Fs.Path) : Fs.files (Fs.add_dir s p) = Fs.files s.
Proof. unfold Fs.add_dir. now destruct (Fs.is_dir s p). Qed.

Lemma is_dir_add_dir (s : Fs.FS Text) (p : Fs.Path) : Fs.is_dir (Fs.add_dir s p) p = true.
Proof.
  unfold Fs.add_dir. destruct (Fs.is_dir s p) eqn:E; [exact E|].
  unfold Fs.is_dir. cbn [Fs.dirs existsb]. now rewrite path_eqb_refl, orb_true_r.
Qed.

Lemma is_dir_add_dir_kept (s : Fs.FS Text) (p q : Fs.Path) :
  Fs.is_dir s q = true -> Fs.is_dir (Fs.add_dir s p) q = true.
Proof.
  unfold Fs.add_dir. destruct (Fs.is_dir s p); [auto|].
  unfold Fs.is_dir. cbn [Fs.dirs existsb]. intros H.
  apply orb_prop in H as [H | H]; rewrite H, ?orb_true_r; reflexivity.
Qed.

Lemma add_dir_existing (s : Fs.FS Text) (p : Fs.Path) :
  Fs.is_dir s p = true -> Fs.add_dir s p = s.
Proof. unfold Fs.add_dir. now intros ->. Qed.

(** A directory can be made in a directory that exists. *)
Lemma mkdir_exist_ok_child (s : Fs.FS Text) (p : Fs.Path) (x : str) :
  Fs.is_dir s p = true ->
  Fs.mkdir_exist_ok s (Fs.child p x) = Some (Fs.add_dir s (Fs.child p x)).
Proof.
  intros H. unfold Fs.mkdir_exist_ok, Fs.child. rewrite removelast_last, H.
  now rewrite orb_true_r.
Qed.

(** The name of a child is the segment it was made of. *)
Lemma path_name_child (p : Fs.Path) (x : str) : x <> u "/" -> Fs.path_name (Fs.child p x) = x.
Proof.
  intros H. unfold Fs.path_name, Fs.child. rewrite rev_app_distr. cbn [rev app].
  destruct (rev p); [|reflexivity].
  apply str_eqb_neq in H. now rewrite H.
Qed.

End FsWrites.

Section GenerateProofs.
Context {db : UnicodeDB} {js : Ext.Json} {net : Ext.Network}.
Import models Ext plugin_generator.
Local Open Scope eff_scope.

(** A sanitized name is not the root of the file system. *)
Lemma sanitize_name_not_anchor (name : str) : _sanitize_name name <> u "/".
Proof.
  intros H.
  destruct (sanitize_name_chars_ok name (chr "/")) as (_ & _ & _ & Hs);
    [rewrite H; now left | now apply Hs].
Qed.

(** The world [generate] leaves: the second directory finds its parent,
    which the first call has made. *)
Lemma generate_run (self : PluginGenerator) (mcp_info : MCPInfo) (w : Eff.World) :
  let plugin_name := _sanitize_name (name mcp_info) in
  let plugin_dir := Fs.child (output_dir self) plugin_name in
  let claude_plugin_dir := Fs.child plugin_dir (u ".claude-plugin") in
  generate self mcp_info w
  = ({| Eff.requests := Eff.requests w;
        Eff.fs := Fs.write (Fs.add_dir (Fs.mkdir (Eff.fs w) plugin_dir) claude_plugin_dir)
                    (Fs.child claude_plugin_dir (u "plugin.json"))
                    (json_dump (PluginConfig_model_dump
                                  (_create_plugin_config mcp_info plugin_name))) |},
     Ok plugin_dir).
Proof.
  cbv zeta. unfold generate, Eff.bind, Eff.mkdir, Eff.update_fs, Eff.mkdir_exist_ok.
  cbn [Eff.fs Eff.requests]. rewrite mkdir_exist_ok_child by apply is_dir_mkdir.
  reflexivity.
Qed.

(** X15. When [generate] returns, it returns the directory named after the
    sanitized name under the output directory.  That directory and its
    [.claude-plugin] directory exist then, with the ancestors of a plugin
    directory that was new; the descriptor is in
    [.claude-plugin/plugin.json]; no other file has changed and no request
    was sent. *)
Theorem generate_writes_the_descriptor
        (self : PluginGenerator) (mcp_info : MCPInfo) (w w' : Eff.World)
        (returned : Fs.Path) :
  generate self mcp_info w = (w', Ok returned) ->
  let plugin_name := _sanitize_name (name mcp_info) in
  let plugin_dir := Fs.child (output_dir self) plugin_name in
  let claude_plugin_dir := Fs.child plugin_dir (u ".claude-plugin") in
  let plugin_json_path := Fs.child claude_plugin_dir (u "plugin.json") in
  returned = plugin_dir /\
  Fs.path_name plugin_dir = plugin_name /\
  Eff.requests w' = Eff.requests w /\
  Fs.is_dir (Eff.fs w') plugin_dir = true /\
  Fs.is_dir (Eff.fs w') claude_plugin_dir = true /\
  (Fs.is_dir (Eff.fs w) plugin_dir = false ->
   forall q, In q (Fs.parents plugin_dir) -> Fs.is_dir (Eff.fs w') q = true) /\
  Fs.read plugin_json_path (Fs.files (Eff.fs w'))
    = Some (json_dump (PluginConfig_model_dump
                         (_create_plugin_config mcp_info plugin_name))) /\
  forall p, p <> plugin_json_path ->
            Fs.read p (Fs.files (Eff.fs w')) = Fs.read p (Fs.files (Eff.fs w)).
Proof.
  intros H. rewrite generate_run in H. cbv zeta in *. injection H as <- <-.
  cbn [Eff.requests Eff.fs].
  split; [reflexivity|].
  split; [apply path_name_child, sanitize_name_not_anchor|].
  split; [reflexivity|].
  split; [apply is_dir_add_dir_kept, is_dir_mkdir|].
  split; [apply is_dir_add_dir|].
  split; [intros Hnew q Hq; now apply is_dir_add_dir_kept, is_dir_mkdir_parents|].
  split; [apply read_write_in|].
  intros p Hp. cbn [Fs.write Fs.files].
  rewrite read_write_in_other, files_add_dir, files_mkdir; [reflexivity|].
  destruct (Fs.path_eqb p _) eqn:E; [|reflexivity]. now apply path_eqb_eq in E.
Qed.

(** X16. Generating the same record twice leaves the file system as after the
    first time, and returns the same directory. *)
Theorem generate_twice_is_generate_once
        (self : PluginGenerator) (mcp_info : MCPInfo) (w : Eff.World) :
  (generate self mcp_info ;;; generate self mcp_info) w = generate self mcp_info w.
Proof.
  unfold Eff.bind. rewrite (generate_run self mcp_info w). cbv zeta.
  rewrite generate_run. cbv zeta. cbn [Eff.requests Eff.fs]. f_equal. f_equal.
  set (d1 := Fs.child (output_dir self) (_sanitize_name (name mcp_info))).
  set (d2 := Fs.child d1 (u ".claude-plugin")).
  set (s2 := Fs.add_dir (Fs.mkdir (Eff.fs w) d1) d2).
  assert (H1 : Fs.is_dir s2 d1 = true) by apply is_dir_add_dir_kept, is_dir_mkdir.
  assert (H2 : Fs.is_dir s2 d2 = true) by apply is_dir_add_dir.
  set (pj := Fs.child d2 (u "plugin.json")).
  set (t := json_dump _).
  rewrite (mkdir_existing (Fs.write s2 pj t) d1) by exact H1.
  rewrite (add_dir_existing (Fs.write s2 pj t) d2) by exact H2.
  unfold Fs.write. cbn [Fs.dirs Fs.files]. now rewrite write_in_twice.
Qed.

End GenerateProofs.

(** ** core/marketplace.py: reading the catalog *)

Section CatalogFinds.
Import models marketplace.

(** After an upsert the first entry of that name is the new one. *)
Lemma find_upsert_same (e : MarketplacePlugin) (l : list MarketplacePlugin) :
  find (fun p => Py.str_eqb (mp_name p) (mp_name e)) (upsert e l) = Some e.
Proof.
  unfold upsert. induction l as [|p l IH]; cbn.
  - now rewrite str_eqb_refl.
  - destruct (Py.str_eqb (mp_name p) (mp_name e)) eqn:E; cbn.
    + now rewrite str_eqb_refl.
    + destruct (index_of (mp_name e) l) as [i|]; cbn; now rewrite E.
Qed.

(** An upsert leaves the entries of the other names as they are. *)
Lemma find_upsert_other (e : MarketplacePlugin) (l : list MarketplacePlugin) (other : str) :
  other <> mp_name e ->
  find (fun p => Py.str_eqb (mp_name p) other) (upsert e l)
  = find (fun p => Py.str_eqb (mp_name p) other) l.
Proof.
  intros Hne. apply not_eq_sym, str_eqb_neq in Hne.
  unfold upsert. induction l as [|p l IH]; cbn.
  - now rewrite Hne.
  - destruct (Py.str_eqb (mp_name p) (mp_name e)) eqn:E; cbn.
    + rewrite Hne. apply str_eqb_eq in E. rewrite E. now rewrite Hne.
    + destruct (index_of (mp_name e) l) as [i|]; cbn;
        destruct (Py.str_eqb (mp_name p) other); auto.
Qed.

(** After the filter no entry of the removed name is left. *)
Lemma find_removed (n : str) (l : list MarketplacePlugin) :
  find (fun p => Py.str_eqb (mp_name p) n)
       (filter (fun p => negb (Py.str_eqb (mp_name p) n)) l) = None.
Proof.
  induction l as [|p l IH]; cbn; [reflexivity|].
  destruct (Py.str_eqb (mp_name p) n) eqn:E; cbn; [assumption | now rewrite E].
Qed.

(** The filter leaves the entries of the other names as they are. *)
Lemma find_kept (n other : str) (l : list MarketplacePlugin) :
  other <> n ->
  find (fun p => Py.str_eqb (mp_name p) other)
       (filter (fun p => negb (Py.str_eqb (mp_name p) n)) l)
  = find (fun p => Py.str_eqb (mp_name p) other) l.
Proof.
  intros Hne. induction l as [|p l IH]; cbn; [reflexivity|].
  destruct (Py.str_eqb (mp_name p) n) eqn:E; cbn.
  - destruct (Py.str_eqb (mp_name p) other) eqn:E'; [|assumption].
    apply str_eqb_eq in E, E'. congruence.
  - now rewrite IH.
Qed.

(** A path below a base is, relative to it, the segments added. *)
Lemma relative_to_app (base rel : Fs.Path) : Fs.relative_to (base ++ rel) base = Some rel.
Proof.
  induction base as [|b base IH]; cbn [app]; [now destruct rel|].
  cbn. now rewrite str_eqb_refl.
Qed.

End CatalogFinds.

Section CatalogReads.
Context {js : Ext.Json} {net : Ext.Network}.
Import models Ext marketplace.
Local Open Scope eff_scope.

(** X17. [initialize] on a marketplace whose catalog file exists writes
    nothing: the names it is given are ignored, the files stay as they
    are, and the catalog directory is there. *)
Theorem initialize_keeps_an_existing_catalog
        (self : Marketplace) (name owner_name description : str) (w : Eff.World) :
  Fs.exists_file (Eff.fs w) (config_path self) = true ->
  exists w',
    initialize self name owner_name description w = (w', Ok tt) /\
    Eff.requests w' = Eff.requests w /\
    Fs.files (Eff.fs w') = Fs.files (Eff.fs w) /\
    Fs.is_dir (Eff.fs w') (config_dir self) = true.
Proof.
  intros Hex. unfold initialize, Eff.bind, Eff.mkdir, Eff.update_fs, Eff.path_exists.
  cbn. unfold Fs.exists_file in *. rewrite files_mkdir, Hex. cbn.
  eexists. split; [reflexivity|]. cbn.
  split; [reflexivity|]. split; [apply files_mkdir | apply is_dir_mkdir].
Qed.

(** X18. The entry of a plugin directory below the marketplace has as source
    [./] followed by the path from the marketplace to the directory, its
    segments joined by slashes. *)
Theorem plugin_entry_source_is_relative
        (self : Marketplace) (rel : Fs.Path) (mcp_info : MCPInfo) :
  ~ In (u "/") rel ->
  mp_source (plugin_entry self (path self ++ rel) mcp_info) = u "./" ++ Fs.path_str rel /\
  (rel <> [] -> Fs.path_str rel = Py.join (u "/") rel).
Proof.
  intros Hrel. unfold plugin_entry. cbn [mp_source]. rewrite relative_to_app.
  split; [reflexivity|]. intros Hne. destruct rel as [|root rest]; [contradiction|].
  unfold Fs.path_str.
  destruct (Py.str_eqb root (u "/")) eqn:E; [|reflexivity].
  apply str_eqb_eq in E. exfalso. apply Hrel. now left.
Qed.

Hypothesis json_round_trip : forall j : json, json_load (json_dump j) = Ok j.
Hypothesis validate_dump :
  forall c : MarketplaceConfig, validate (MarketplaceConfig_model_dump c) = Ok c.

(** X19. A catalog that is saved loads back as it was; saving changes no other
    file and sends no request.  The JSON codec is taken to round-trip. *)
Theorem saved_catalog_loads_back (self : Marketplace) (c : MarketplaceConfig) (w : Eff.World) :
  exists w',
    _save_config self c w = (w', Ok tt) /\
    _load_config self w' = (w', Ok c) /\
    Eff.requests w' = Eff.requests w /\
    forall p, p <> config_path self ->
              Fs.read p (Fs.files (Eff.fs w')) = Fs.read p (Fs.files (Eff.fs w)).
Proof.
  exists (saved self c w). split; [apply save_config_run|].
  split; [apply load_config_holds, (saved_holds json_round_trip validate_dump)|].
  split; [reflexivity|]. intros p Hp. unfold saved. cbn.
  rewrite read_write_in_other, files_mkdir; [reflexivity|].
  destruct (Fs.path_eqb p _) eqn:E; [|reflexivity]. now apply path_eqb_eq in E.
Qed.

(** X20. Reading is not read-only.  On a marketplace without catalog file
    [list_plugins] answers the empty list and [get_plugin] answers [None],
    and either call leaves the default catalog on disk. *)
Theorem reading_a_missing_catalog_creates_it (self : Marketplace) (n : str) (w : Eff.World) :
  Fs.exists_file (Eff.fs w) (config_path self) = false ->
  let default :=
    {| mc_name := u "mcp2plugin-marketplace";
       mc_description := u "Converted MCP servers as Claude Code plugins";
       mc_owner := {| mo_name := u "mcp2plugin"; mo_email := None |};
       mc_plugins := [] |} in
  exists w',
    list_plugins self w = (w', Ok []) /\
    get_plugin self n w = (w', Ok None) /\
    holds self w' default /\
    Fs.is_dir (Eff.fs w') (config_dir self) = true.
Proof.
  intros Hmissing default.
  assert (Hload : _load_config self w = (saved self default w, Ok default)).
  { unfold _load_config, initialize_default, initialize, Eff.bind,
      Eff.path_exists, Eff.mkdir, Eff.update_fs, Eff.read_file, Eff.lift.
    rewrite Hmissing. cbn. unfold Fs.exists_file in *.
    rewrite files_mkdir, Hmissing. cbn.
    rewrite read_write_in, json_round_trip, validate_dump.
    unfold saved. cbn. rewrite (mkdir_existing (Fs.mkdir _ _)) by apply is_dir_mkdir.
    reflexivity. }
  exists (saved self default w).
  unfold list_plugins, get_plugin, Eff.bind. rewrite Hload. cbn.
  repeat split; [apply (saved_holds json_round_trip validate_dump)|].
  apply is_dir_mkdir.
Qed.

(** X21. After [add_plugin], [get_plugin] for the name of the plugin directory
    answers the new entry, and answers for every other name what it
    answered before; [list_plugins] lists the new entry and is as long as
    the catalog was, or one longer. *)
Theorem get_plugin_after_add_plugin
        (self : Marketplace) (w w0 : Eff.World) (c : MarketplaceConfig)
        (plugin_path : Fs.Path) (mcp_info : MCPInfo) :
  _load_config self w = (w0, Ok c) ->
  exists w1,
    add_plugin self plugin_path mcp_info w = (w1, Ok tt) /\
    get_plugin self (Fs.path_name plugin_path) w1
      = (w1, Ok (Some (MarketplacePlugin_model_dump_all
                         (plugin_entry self plugin_path mcp_info)))) /\
    (forall other, other <> Fs.path_name plugin_path ->
                   get_plugin self other w1 = (w1, snd (get_plugin self other w))) /\
    exists listed,
      list_plugins self w1 = (w1, Ok listed) /\
      In (MarketplacePlugin_model_dump_all (plugin_entry self plugin_path mcp_info)) listed /\
      (length listed = length (mc_plugins c) \/ length listed = S (length (mc_plugins c))).
Proof.
  intros Hload. eexists. split; [apply (add_plugin_run _ _ _ _ _ _ Hload)|].
  set (entry := plugin_entry self plugin_path mcp_info).
  set (c1 := with_plugins c (upsert entry (mc_plugins c))).
  pose proof (load_config_holds _ _ _ (saved_holds json_round_trip validate_dump self c1 w0))
    as Hl1.
  unfold get_plugin, list_plugins, Eff.bind. rewrite Hl1, Hload.
  cbn [snd mc_plugins c1 with_plugins Eff.ret].
  split; [|split].
  - change (Fs.path_name plugin_path) with (mp_name entry).
    now rewrite find_upsert_same.
  - intros other Hne. now rewrite find_upsert_other.
  - eexists. split; [reflexivity|]. rewrite length_map.
    destruct (upsert_spec entry (mc_plugins c)) as (i & _ & Hnth & Hset & Hnew & _).
    split.
    + apply in_map. now apply nth_error_In in Hnth.
    + destruct (index_of (mp_name entry) (mc_plugins c)) as [k|] eqn:E.
      * left. unfold upsert. rewrite E.
        destruct (index_of_some _ _ _ E) as (q & Hq & _).
        apply set_nth_spec. apply nth_error_Some. congruence.
      * right. destruct (Hnew eq_refl) as [-> _]. rewrite length_app. cbn. lia.
Qed.

(** What [remove_plugin] leaves on disk. *)
Lemma remove_plugin_run (self : Marketplace) (w w0 : Eff.World) (c : MarketplaceConfig)
      (n : str) :
  _load_config self w = (w0, Ok c) ->
  exists w1 removed,
    remove_plugin self n w = (w1, Ok removed) /\
    holds self w1
      (with_plugins c (filter (fun p => negb (Py.str_eqb (mp_name p) n)) (mc_plugins c))).
Proof.
  intros Hload. unfold remove_plugin, Eff.bind. rewrite Hload.
  set (kept := filter _ (mc_plugins c)).
  destruct (length kept <? length (mc_plugins c)) eqn:Hlt.
  - rewrite save_config_run. cbn. eexists _, _. split; [reflexivity|].
    apply (saved_holds json_round_trip validate_dump).
  - exists w0, false. split; [reflexivity|].
    assert (Hsame : kept = mc_plugins c).
    { unfold kept. apply forallb_filter_id. apply forallb_forall. intros p Hp.
      destruct (negb (Py.str_eqb (mp_name p) n)) eqn:E; [reflexivity|].
      assert (Hs : (length kept <? length (mc_plugins c)) = true); [|congruence].
      apply filter_shorter. now exists p. }
    rewrite Hsame. replace (with_plugins c (mc_plugins c)) with c by now destruct c.
    now apply load_config_leaves_catalog with (w := w).
Qed.

(** X22. After [remove_plugin], [get_plugin] answers [None] for the removed
    name, and for every other name what it answered before. *)
Theorem get_plugin_after_remove_plugin
        (self : Marketplace) (w w0 : Eff.World) (c : MarketplaceConfig) (n : str) :
  _load_config self w = (w0, Ok c) ->
  exists w1 removed,
    remove_plugin self n w = (w1, Ok removed) /\
    get_plugin self n w1 = (w1, Ok None) /\
    forall other, other <> n ->
                  get_plugin self other w1 = (w1, snd (get_plugin self other w)).
Proof.
  intros Hload. destruct (remove_plugin_run self w w0 c n Hload) as (w1 & removed & Hrun & Hh).
  exists w1, removed. split; [exact Hrun|].
  apply load_config_holds in Hh.
  unfold get_plugin, Eff.bind. rewrite Hh, Hload. cbn [snd mc_plugins with_plugins Eff.ret].
  split.
  - now rewrite find_removed.
  - intros other Hne. now rewrite find_kept.
Qed.

End CatalogReads.

(** ** llm/gemini.py: the API key *)

Section GeminiInit.
Context {db : UnicodeDB} {js : Ext.Json} {net : Ext.Network}.
Import models Ext gemini.
Local Open Scope eff_scope.

(** X23. The constructor of the Gemini parser takes the key it is given when
    that is not empty, and otherwise the environment variable
    [GEMINI_API_KEY]; it raises [ValueError] exactly when both are missing
    or empty.  The model is always [gemini-2.0-flash]. *)
Theorem gemini_init_needs_a_key (key : option str) :
  match gemini.__init__ key with
  | Ok parser =>
      api_key parser <> [] /\
      model parser = u "gemini-2.0-flash" /\
      (forall k, key = Some k -> k <> [] -> api_key parser = k) /\
      (key = None \/ key = Some [] -> getenv_GEMINI_API_KEY = Some (api_key parser))
  | Raise e =>
      (key = None \/ key = Some []) /\
      (getenv_GEMINI_API_KEY = None \/ getenv_GEMINI_API_KEY = Some []) /\
      exists message, e = ValueError message
  end.
Proof.
  unfold gemini.__init__.
  destruct key as [[|c k]|]; cbn [Py.truthy].
  - destruct getenv_GEMINI_API_KEY as [[|c k]|]; cbn [Py.truthy api_key model].
    + repeat split; eauto.
    + repeat split; try discriminate; auto. intros k0 H. now injection H as <-.
    + repeat split; eauto.
  - cbn [api_key model]. repeat split; try discriminate.
    + intros k0 H _. now injection H as <-.
    + intros [H | H]; discriminate.
  - destruct getenv_GEMINI_API_KEY as [[|c k]|]; cbn [Py.truthy api_key model].
    + repeat split; eauto.
    + repeat split; try discriminate; auto.
    + repeat split; eauto.
Qed.

(** What a call of [enhance_mcp_info] does, whatever the model answers. *)
Lemma enhance_mcp_info_run (self : GeminiParser) (mcp_info : MCPInfo) (html_content : str)
      (w : Eff.World) :
  exists w' enhanced,
    enhance_mcp_info self mcp_info html_content w = (w', Ok enhanced) /\
    keeps_present mcp_info enhanced /\
    same_other_fields mcp_info enhanced /\
    Eff.fs w' = Eff.fs w /\
    (Eff.requests w' = Eff.requests w \/
     exists prompt, Eff.requests w' = Eff.requests w ++ [GenerateContent (model self) prompt]) /\
    (enhanced = mcp_info \/
     exists text e,
       loads_enhancements (unfence text) = Ok e /\ enhanced = apply_enhancements mcp_info e).
Proof.
  assert (Hsame : keeps_present mcp_info mcp_info /\ same_other_fields mcp_info mcp_info)
    by (unfold keeps_present, same_other_fields; repeat split; auto).
  destruct Hsame as [Hk Hs].
  unfold enhance_mcp_info.
  destruct (negb _).
  - exists w, mcp_info. repeat split; auto.
  - unfold Eff.try_except, Eff.bind, Eff.generate_content, Eff.lift, Eff.ret.
    destruct (llm_response _ _) as [text|err].
    + destruct (loads_enhancements _) as [e|err] eqn:El.
      * eexists _, _. split; [reflexivity|].
        destruct (apply_enhancements_frame mcp_info e) as [Hk' Hs'].
        split; [exact Hk'|]. split; [exact Hs'|]. split; [reflexivity|].
        split; [right; eexists; reflexivity|]. right. eauto.
      * eexists _, _. split; [reflexivity|].
        split; [exact Hk|]. split; [exact Hs|]. split; [reflexivity|].
        split; [right; eexists; reflexivity|]. now left.
    + eexists _, _. split; [reflexivity|].
      split; [exact Hk|]. split; [exact Hs|]. split; [reflexivity|].
      split; [right; eexists; reflexivity|]. now left.
Qed.

End GeminiInit.

(** ** llm/gemini.py: the fence around the model's reply *)

Section UnfenceProofs.
Context {db : UnicodeDB}.
Import Re gemini.

(** Where the pattern does not match, the substitution copies the character. *)
Lemma re_sub_no_match (r : regex) (repl : str) (x : char) (s : str) :
  re_match false r (x :: s) = None ->
  re_sub false r repl (x :: s) = x :: re_sub false r repl s.
Proof.
  intros H. unfold re_sub, pieces. cbn [length scan]. now rewrite H.
Qed.

(** The substitution of the empty string, for a pattern that needs a character. *)
Lemma re_sub_nil (r : regex) (repl : str) :
  re_match false r [] = None -> re_sub false r repl [] = [].
Proof. intros H. unfold re_sub, pieces. cbn [length scan]. now rewrite H. Qed.

(** Where the pattern matches, the substitution puts the replacement and
    goes on after the match. *)
Lemma re_sub_match (r : regex) (repl : str) (s : str) (m : Match) (x : char) (w rest : str) :
  re_match false r s = Some m -> m_text m = x :: w -> s = (x :: w) ++ rest ->
  re_sub false r repl s = repl ++ re_sub false r repl rest.
Proof.
  intros H Ht Hs. unfold re_sub, pieces.
  remember (scan false (S (length rest)) r rest) as after eqn:Ea.
  cbn [scan]. rewrite H, Ht. cbn [length].
  cbn [flat_map emit]. f_equal. f_equal.
  assert (Hk : skipn (S (length w)) s = rest).
  { rewrite Hs. change (S (length w)) with (length (x :: w)).
    rewrite skipn_app, Nat.sub_diag, skipn_all. reflexivity. }
  rewrite Hk, Ea. apply scan_fuel_enough; [|lia].
  rewrite Hs, length_app. cbn. lia.
Qed.

(** Where the pattern matches at no position of [pre], [re.sub] copies
    [pre]. *)
Lemma re_sub_skip (r : regex) (repl pre rest : str) :
  (forall a x b, pre = a ++ x :: b -> re_match false r (x :: b ++ rest) = None) ->
  re_sub false r repl (pre ++ rest) = pre ++ re_sub false r repl rest.
Proof.
  induction pre as [|x pre IH]; intros H; [reflexivity|].
  cbn [app]. rewrite re_sub_no_match by (apply (H [] x pre); reflexivity).
  rewrite IH; [reflexivity|]. intros a y b ->. apply (H (x :: a) y b). reflexivity.
Qed.

(** The opening fence starts with a backquote. *)
Lemma fence_open_needs_backquote (c : char) (t : str) :
  c <> 96%N -> re_match false fence_open (c :: t) = None.
Proof.
  intros H. unfold re_match, fence_open. cbn -[N.eqb].
  replace (96 =? c)%N with false; [reflexivity|].
  symmetry. apply N.eqb_neq. congruence.
Qed.

(** The closing fence starts with a backquote, or with a newline and a
    backquote. *)
Lemma fence_close_needs_backquote (c : char) (t : str) :
  c <> 96%N ->
  match t with [] => True | d :: _ => d <> 96%N end ->
  re_match false fence_close (c :: t) = None.
Proof.
  intros Hc Ht. unfold re_match, fence_close. cbn -[N.eqb].
  replace (96 =? c)%N with false by (symmetry; apply N.eqb_neq; congruence).
  destruct (10 =? c)%N; [|reflexivity].
  destruct t as [|d t]; [reflexivity|].
  replace (96 =? d)%N with false by (symmetry; apply N.eqb_neq; congruence).
  reflexivity.
Qed.

(** After a character of a text without backquote, and before the newline
    that ends the text, comes no backquote. *)
Lemma head_of_body (b : str) (x : char) (rest : str) :
  ~ In 96%N (x :: b) ->
  match b ++ 10%N :: rest with [] => True | d :: _ => d <> 96%N end.
Proof.
  intros H. destruct b as [|d b]; cbn; [discriminate|].
  intros ->. apply H. right. now left.
Qed.

(** A suffix of a text without backquote has none. *)
Lemma no_backquote_suffix (body a : str) (x : char) (b : str) :
  ~ In 96%N body -> body = a ++ x :: b -> ~ In 96%N (x :: b).
Proof. intros H -> Hin. apply H. apply in_or_app. now right. Qed.

(** The two substitutions on a body without backquote followed by the
    closing fence. *)
Lemma fence_open_keeps_body (body : str) :
  ~ In 96%N body ->
  re_sub false fence_open [] (body ++ 10%N :: u "```") = body ++ 10%N :: u "```".
Proof.
  intros H. rewrite re_sub_skip; [reflexivity|].
  intros a x b E. apply fence_open_needs_backquote.
  intros ->. apply (no_backquote_suffix _ _ _ _ H E). now left.
Qed.

(** The second substitution removes the closing fence and its newline. *)
Lemma fence_close_strips_body (body : str) :
  ~ In 96%N body ->
  re_sub false fence_close [] (body ++ 10%N :: u "```") = body.
Proof.
  intros H. rewrite re_sub_skip.
  - replace (re_sub false fence_close [] (10%N :: u "```")) with (@nil char) by reflexivity.
    apply app_nil_r.
  - intros a x b E. pose proof (no_backquote_suffix _ _ _ _ H E) as Hs.
    apply fence_close_needs_backquote.
    + intros ->. apply Hs. now left.
    + now apply (head_of_body b x).
Qed.

(** [strip] leaves a text between two fences as it is. *)
Lemma strip_fenced (s : str) :
  Py.strip (u "```" ++ s ++ u "```") = u "```" ++ s ++ u "```".
Proof.
  unfold Py.strip, Py.rstrip_with.
  replace (Py.lstrip_with Py.is_space (u "```" ++ s ++ u "```"))
    with (u "```" ++ s ++ u "```") by reflexivity.
  rewrite !rev_app_distr.
  replace (Py.lstrip_with Py.is_space ((rev (u "```") ++ rev s) ++ rev (u "```")))
    with ((rev (u "```") ++ rev s) ++ rev (u "```")) by reflexivity.
  rewrite <- !rev_app_distr. apply rev_involutive.
Qed.

(** X24. A reply without backquote in it, fenced by a line [```json] and a line
    [```], is unwrapped to the reply.  The opening pattern ends in an
    optional [n], not an optional [json]: a bare fence keeps its opening
    line, and only the closing one is removed. *)
Theorem unfence_removes_a_json_fence (body : str) :
  ~ In (chr "`") body ->
  unfence (u "```json" ++ [10%N] ++ body ++ [10%N] ++ u "```") = body /\
  unfence (u "```" ++ [10%N] ++ body ++ [10%N] ++ u "```") = u "```" ++ [10%N] ++ body.
Proof.
  intros H. change (chr "`") with 96%N in H. split.
  - set (inner := (u "json" ++ [10%N] ++ body ++ [10%N] : str)).
    transitivity (unfence (u "```" ++ inner ++ u "```")).
    { f_equal. unfold inner. cbn. now rewrite <- !app_assoc. }
    unfold unfence. rewrite strip_fenced.
    change (Py.starts_with (u "```") (u "```" ++ inner ++ u "```")) with true.
    cbv iota.
    assert (E : u "```" ++ inner ++ u "```"
                = (u "```json" ++ [10%N]) ++ (body ++ 10%N :: u "```"))
      by (unfold inner; cbn; now rewrite <- !app_assoc).
    rewrite E. clear E inner.
    assert (Hm : exists m,
               re_match false fence_open ((u "```json" ++ [10%N]) ++ body ++ 10%N :: u "```")
               = Some m /\ m_text m = u "```json" ++ [10%N]).
    { unfold re_match. eexists. split.
      - unfold fence_open. cbn -[Nat.sub firstn length]. reflexivity.
      - cbn [m_text]. apply (firstn_consumed (u "```json" ++ [10%N])). }
    destruct Hm as (m & Hm & Ht).
    rewrite (re_sub_match _ _ _ m _ _ (body ++ 10%N :: u "```") Hm Ht eq_refl).
    cbn [app]. rewrite (fence_open_keeps_body body H).
    now apply fence_close_strips_body.
  - set (inner := ([10%N] ++ body ++ [10%N] : str)).
    transitivity (unfence (u "```" ++ inner ++ u "```")).
    { f_equal. unfold inner. cbn. now rewrite <- !app_assoc. }
    unfold unfence. rewrite strip_fenced.
    change (Py.starts_with (u "```") (u "```" ++ inner ++ u "```")) with true.
    cbv iota.
    assert (E : u "```" ++ inner ++ u "```"
                = chr "`" :: chr "`" :: chr "`" :: 10%N :: (body ++ 10%N :: u "```"))
      by (unfold inner; cbn; now rewrite <- !app_assoc).
    rewrite E. clear E inner.
    rewrite !(re_sub_no_match fence_open) by reflexivity.
    rewrite (fence_open_keeps_body body H).
    rewrite (re_sub_no_match fence_close) by (destruct body; reflexivity).
    rewrite !(re_sub_no_match fence_close) by reflexivity.
    rewrite (re_sub_no_match fence_close).
    + now rewrite (fence_close_strips_body body H).
    + apply fence_close_needs_backquote; [discriminate|].
      destruct body as [|d b]; cbn; [discriminate|]. intros ->. apply H. now left.
Qed.

End UnfenceProofs.

(** ** core/converter.py: the constructor and the pipeline *)

Section ConverterSetup.
Context {db : UnicodeDB} {ip : Ext.Interp} {js : Ext.Json} {html : Ext.Html}
        {net : Ext.Network}.
Import Re models Ext url_parser converter.
Local Open Scope eff_scope.

(** The converter the constructor builds, and the world it leaves. *)
Lemma converter_init_run (output_dir : Fs.Path) (marketplace_path : option Fs.Path)
      (gemini_api_key : option str) (use_llm : bool) (w : Eff.World) :
  exists parser,
    converter.__init__ output_dir marketplace_path gemini_api_key use_llm w
    = (fst (marketplace.initialize_default
              (marketplace.__init__ (match marketplace_path with
                                     | Some p => p
                                     | None => parent output_dir
                                     end))
              {| Eff.requests := Eff.requests w;
                 Eff.fs := Fs.mkdir (Eff.fs w) output_dir |}),
       Ok {| converter.output_dir := output_dir;
             converter.marketplace_path :=
               match marketplace_path with Some p => p | None => parent output_dir end;
             marketplace :=
               marketplace.__init__ (match marketplace_path with
                                     | Some p => p
                                     | None => parent output_dir
                                     end);
             generator := {| plugin_generator.output_dir := output_dir |};
             converter.use_llm := use_llm;
             gemini_parser := parser;
             sources := [fastmcp.FastMCPSource; smithery.SmitherySource] |}) /\
    (use_llm = false -> parser = None) /\
    (forall k, use_llm = true -> gemini_api_key = Some k -> k <> [] ->
               parser = Some {| gemini.api_key := k; gemini.model := u "gemini-2.0-flash" |}) /\
    (use_llm = true -> gemini_api_key = None \/ gemini_api_key = Some [] ->
     parser = match getenv_GEMINI_API_KEY with
              | Some (c :: k) =>
                  Some {| gemini.api_key := c :: k; gemini.model := u "gemini-2.0-flash" |}
              | _ => None
              end).
Proof.
  unfold converter.__init__, Eff.bind, Eff.mkdir, Eff.update_fs.
  set (market := marketplace.__init__ _).
  set (w1 := {| Eff.requests := Eff.requests w; Eff.fs := Fs.mkdir (Eff.fs w) output_dir |}).
  assert (Hi : exists w2, marketplace.initialize_default market w1 = (w2, Ok tt)).
  { unfold marketplace.initialize_default, marketplace.initialize, Eff.bind, Eff.mkdir,
      Eff.update_fs, Eff.path_exists. cbn.
    destruct (negb _); eexists; reflexivity. }
  destruct Hi as (w2 & Hi). rewrite Hi. cbn [fst].
  destruct use_llm.
  - destruct gemini_api_key as [[|c k]|]; cbn [Py.truthy].
    + destruct getenv_GEMINI_API_KEY as [[|c k]|]; cbn; eexists;
        (split; [reflexivity|]); repeat split; intros; try discriminate; try congruence; auto.
    + cbn. eexists. split; [reflexivity|].
      repeat split; intros; try discriminate; try congruence.
      match goal with H : _ \/ _ |- _ => destruct H; discriminate end.
    + destruct getenv_GEMINI_API_KEY as [[|c k]|]; cbn; eexists;
        (split; [reflexivity|]); repeat split; intros; try discriminate; try congruence; auto.
  - cbn. eexists. split; [reflexivity|]. repeat split; intros; try discriminate; auto.
Qed.

(** The source parsers a converter has pick a URL as [detect_source] does. *)
Lemma get_source_standard (self : Converter) (url : str) :
  sources self = [fastmcp.FastMCPSource; smithery.SmitherySource] ->
  _get_source self url
  = match detect_source url with
    | FASTMCP => Some fastmcp.FastMCPSource
    | SMITHERY => Some smithery.SmitherySource
    | UNKNOWN => None
    end.
Proof.
  intros H. unfold _get_source. rewrite H.
  unfold List.find, fastmcp.FastMCPSource, smithery.SmitherySource.
  cbn [base.can_handle].
  unfold fastmcp.can_handle, smithery.can_handle, detect_source.
  destruct (re_match false FASTMCP_PATTERN url); cbn [Py.is_some]; [reflexivity|].
  destruct (re_match false SMITHERY_PATTERN url); reflexivity.
Qed.

(** A failed request is what fastmcp.me's [fetch] raises. *)
Lemma fastmcp_fetch_failed (url : str) (w : Eff.World) (e : exn) :
  http_response (Eff.requests w) url = Raise e ->
  fastmcp.fetch url w = (Eff.send (HttpGet url) w, Raise e).
Proof. intros H. unfold fastmcp.fetch, Eff.bind, Eff.http_get. now rewrite H. Qed.

(** A failed request is what smithery.ai's [fetch] raises. *)
Lemma smithery_fetch_failed (url : str) (w : Eff.World) (e : exn) :
  http_response (Eff.requests w) (normalize_url url) = Raise e ->
  smithery.fetch url w = (Eff.send (HttpGet (normalize_url url)) w, Raise e).
Proof.
  intros H. unfold smithery.fetch.
  change (if Py.contains (u "server.smithery.ai") url
          then match re_search false SERVER_ALIAS_PATTERN url with
               | Some m => u "https://smithery.ai/server/" ++ group_text 1 m
               | None => url
               end
          else url) with (normalize_url url).
  unfold Eff.bind, Eff.http_get. now rewrite H.
Qed.

End ConverterSetup.

Section ConverterInit.
Context {db : UnicodeDB} {ip : Ext.Interp} {js : Ext.Json} {html : Ext.Html}
        {net : Ext.Network}.
Import Re models Ext url_parser converter.
Local Open Scope eff_scope.

(** The world after [initialize]. *)
Lemma initialize_run (self : marketplace.Marketplace) (name owner_name description : str)
      (w : Eff.World) :
  let w1 := {| Eff.requests := Eff.requests w;
               Eff.fs := Fs.mkdir (Eff.fs w) (marketplace.config_dir self) |} in
  marketplace.initialize self name owner_name description w
  = (if Fs.exists_file (Eff.fs w) (marketplace.config_path self) then w1
     else saved self {| mc_name := name; mc_description := description;
                        mc_owner := {| mo_name := owner_name; mo_email := None |};
                        mc_plugins := [] |} w1,
     Ok tt).
Proof.
  cbv zeta. unfold marketplace.initialize, Eff.bind, Eff.mkdir, Eff.update_fs,
    Eff.path_exists.
  cbn [Eff.fs Eff.requests]. unfold Fs.exists_file. rewrite files_mkdir.
  destruct (Fs.read _ _); reflexivity.
Qed.

(** X25. The constructor of the converter always succeeds: the marketplace is
    the one given, or the parent of the output directory; the output
    directory and a catalog file exist afterwards; a catalog that existed
    is left as it is; without [use_llm] there is no Gemini parser; no
    request is sent. *)
Theorem converter_init_prepares_the_marketplace
        (output_dir : Fs.Path) (marketplace_path : option Fs.Path)
        (gemini_api_key : option str) (use_llm : bool) (w : Eff.World) :
  exists w' self,
    converter.__init__ output_dir marketplace_path gemini_api_key use_llm w = (w', Ok self) /\
    sources self = [fastmcp.FastMCPSource; smithery.SmitherySource] /\
    generator self = {| plugin_generator.output_dir := output_dir |} /\
    marketplace self
      = marketplace.__init__ (match marketplace_path with
                              | Some p => p
                              | None => parent output_dir
                              end) /\
    (use_llm = false -> gemini_parser self = None) /\
    Eff.requests w' = Eff.requests w /\
    Fs.is_dir (Eff.fs w') output_dir = true /\
    Fs.exists_file (Eff.fs w') (marketplace.config_path (marketplace self)) = true /\
    (Fs.exists_file (Eff.fs w) (marketplace.config_path (marketplace self)) = true ->
     Fs.files (Eff.fs w') = Fs.files (Eff.fs w)).
Proof.
  destruct (converter_init_run output_dir marketplace_path gemini_api_key use_llm w)
    as (parser & Hrun & Hoff & _).
  eexists _, _. split; [exact Hrun|]. cbn [sources generator marketplace gemini_parser].
  split; [reflexivity|]. split; [reflexivity|]. split; [reflexivity|].
  split; [exact Hoff|].
  set (market := marketplace.__init__ _).
  unfold marketplace.initialize_default. rewrite initialize_run. cbv zeta.
  cbn [fst Eff.fs Eff.requests].
  assert (Hex : Fs.exists_file (Fs.mkdir (Eff.fs w) output_dir)
                  (marketplace.config_path market)
                = Fs.exists_file (Eff.fs w) (marketplace.config_path market))
    by (unfold Fs.exists_file; now rewrite files_mkdir).
  rewrite Hex.
  destruct (Fs.exists_file (Eff.fs w) (marketplace.config_path market)) eqn:E;
    cbn [Eff.requests Eff.fs saved].
  - split; [reflexivity|]. split; [apply is_dir_mkdir_kept, is_dir_mkdir|].
    unfold Fs.exists_file in *. rewrite !files_mkdir, E.
    split; reflexivity.
  - split; [reflexivity|].
    split; [apply is_dir_mkdir_kept, is_dir_mkdir_kept, is_dir_mkdir|].
    unfold Fs.exists_file. cbn [Fs.files Fs.write]. rewrite read_write_in.
    split; [reflexivity | discriminate].
Qed.

End ConverterInit.

Section ConverterEnhance.
Context {db : UnicodeDB} {ip : Ext.Interp} {js : Ext.Json} {html : Ext.Html}
        {net : Ext.Network}.
Import Re models Ext url_parser converter.
Local Open Scope eff_scope.

(** What every converter the constructor returns has. *)
Lemma converter_init_fields (output_dir : Fs.Path) (marketplace_path : option Fs.Path)
      (gemini_api_key : option str) (use_llm : bool) (w0 w1 : Eff.World) (self : Converter) :
  converter.__init__ output_dir marketplace_path gemini_api_key use_llm w0 = (w1, Ok self) ->
  sources self = [fastmcp.FastMCPSource; smithery.SmitherySource] /\
  generator self = {| plugin_generator.output_dir := output_dir |} /\
  marketplace self
    = marketplace.__init__ (match marketplace_path with
                            | Some p => p
                            | None => parent output_dir
                            end).
Proof.
  intros H.
  destruct (converter_init_run output_dir marketplace_path gemini_api_key use_llm w0)
    as (parser & Hrun & _).
  rewrite Hrun in H. injection H as _ <-. auto.
Qed.

(** The block that asks the model never raises and never writes. *)
Lemma enhance_run (parser : gemini.GeminiParser) (self : Converter) (url : str)
      (mcp_info : MCPInfo) (w : Eff.World) :
  exists w' enhanced sent,
    enhance parser self url mcp_info w = (w', Ok enhanced) /\
    Eff.fs w' = Eff.fs w /\
    same_other_fields mcp_info enhanced /\
    (tools mcp_info <> [] -> tools enhanced = tools mcp_info) /\
    (install_command mcp_info <> [] -> install_command enhanced = install_command mcp_info) /\
    (install_args mcp_info <> [] -> install_args enhanced = install_args mcp_info) /\
    Eff.requests w' = Eff.requests w ++ HttpGet url :: sent /\
    length sent <= 2.
Proof.
  unfold enhance, _fetch_html, Eff.bind, Eff.try_except, Eff.http_get, Eff.ret.
  destruct (http_response (Eff.requests w) url) as [page|e].
  2:{ exists (Eff.send (HttpGet url) w), mcp_info, []. cbn.
      unfold same_other_fields. repeat split; auto. }
  destruct (enhance_mcp_info_run parser mcp_info page (Eff.send (HttpGet url) w))
    as (w1 & e1 & Hrun & (_ & Ht & Hc & Ha) & Hs & Hfs & Hreq & _).
  rewrite Hrun.
  assert (Hsent1 : exists sent1, Eff.requests w1 = Eff.requests w ++ HttpGet url :: sent1 /\
                                 length sent1 <= 1).
  { destruct Hreq as [Hreq | (prompt & Hreq)]; rewrite Hreq; cbn.
    - exists []. split; [reflexivity | cbn; lia].
    - exists [GenerateContent (gemini.model parser) prompt].
      rewrite <- app_assoc. split; [reflexivity | cbn; lia]. }
  destruct Hsent1 as (sent1 & Hsent1 & Hlen1).
  destruct (negb (Py.truthy (description e1)) || (length (description e1) <? 20)).
  - unfold gemini.generate_plugin_description, Eff.bind, Eff.generate_content, Eff.ret.
    destruct (llm_response (Eff.requests w1) _) as [text|err].
    + eexists _, _, (sent1 ++ [_]). split; [reflexivity|]. cbn.
      split; [now rewrite Hfs|].
      split; [exact Hs|]. split; [exact Ht|]. split; [exact Hc|]. split; [exact Ha|].
      rewrite Hsent1, <- app_assoc. cbn. split; [reflexivity|].
      rewrite length_app. cbn. lia.
    + eexists _, _, (sent1 ++ [_]). split; [reflexivity|]. cbn.
      split; [now rewrite Hfs|].
      split; [exact Hs|]. split; [exact Ht|]. split; [exact Hc|]. split; [exact Ha|].
      rewrite Hsent1, <- app_assoc. cbn. split; [reflexivity|].
      rewrite length_app. cbn. lia.
  - exists w1, e1, sent1. split; [reflexivity|].
    split; [now rewrite Hfs|].
    split; [exact Hs|]. split; [exact Ht|]. split; [exact Hc|]. split; [exact Ha|].
    split; [exact Hsent1 | lia].
Qed.

End ConverterEnhance.

Section ConverterFetch.
Context {db : UnicodeDB} {ip : Ext.Interp} {js : Ext.Json} {html : Ext.Html}
        {net : Ext.Network}.
Import Re models Ext url_parser converter.
Local Open Scope eff_scope.

(** Whatever its outcome, [fetch] leaves the world with one more request. *)
Lemma fastmcp_fetch_world (url : str) (w : Eff.World) :
  fst (fastmcp.fetch url w) = Eff.send (HttpGet url) w.
Proof.
  unfold fastmcp.fetch, Eff.bind, Eff.http_get, Eff.lift, Eff.raise, Eff.ret.
  destruct (http_response _ _) as [page|]; [|reflexivity].
  destruct (re_match false FASTMCP_PATTERN url) as [m|]; [|reflexivity].
  destruct (fastmcp._extract_install_command _ _) as [[command args]|]; [|reflexivity].
  destruct (fastmcp.first_http_url _); reflexivity.
Qed.

(** smithery.ai's [fetch] sends the request for the normalized URL and
    nothing else. *)
Lemma smithery_fetch_world (url : str) (w : Eff.World) :
  fst (smithery.fetch url w) = Eff.send (HttpGet (normalize_url url)) w.
Proof.
  unfold smithery.fetch.
  change (if Py.contains (u "server.smithery.ai") url
          then match re_search false SERVER_ALIAS_PATTERN url with
               | Some m => u "https://smithery.ai/server/" ++ group_text 1 m
               | None => url
               end
          else url) with (normalize_url url).
  unfold Eff.bind, Eff.http_get, Eff.raise, Eff.ret.
  destruct (http_response _ _) as [page|]; [|reflexivity].
  destruct (re_match false SMITHERY_PATTERN _) as [m|]; [|reflexivity].
  destruct (smithery._determine_connection _ _) as [[[ct ic] ia] hu]. reflexivity.
Qed.

(** X26. When the request for a page of a known site fails, [convert] raises a
    [ConversionError] whose text starts with [Failed to fetch URL: ] for a
    transport error and with [Failed to parse MCP page: ] for any other,
    followed by the text of the error; one request was sent, and the file
    system is as it was. *)
Theorem convert_reports_a_failed_fetch
        (output_dir : Fs.Path) (marketplace_path : option Fs.Path)
        (gemini_api_key : option str) (use_llm : bool) (w0 w1 : Eff.World)
        (self : Converter) (url : str) (w : Eff.World) (e : exn) :
  converter.__init__ output_dir marketplace_path gemini_api_key use_llm w0 = (w1, Ok self) ->
  detect_source (normalize_url url) <> UNKNOWN ->
  http_response (Eff.requests w) (normalize_url url) = Raise e ->
  convert self url w
  = ({| Eff.requests := Eff.requests w ++ [HttpGet (normalize_url url)];
        Eff.fs := Eff.fs w |},
     Raise (ConversionError
              (match e with
               | HTTPError _ => u "Failed to fetch URL: "
               | _ => u "Failed to parse MCP page: "
               end ++ exn_str e))).
Proof.
  intros Hinit Hd He.
  apply converter_init_fields in Hinit as (Hsrc & _ & _).
  unfold convert. rewrite (get_source_standard self _ Hsrc).
  destruct (detect_source (normalize_url url)) eqn:E; [| |contradiction];
    cbn [is_unknown base.fetch fastmcp.FastMCPSource smithery.SmitherySource];
    unfold Eff.bind, Eff.try_except.
  - rewrite (fastmcp_fetch_failed _ _ _ He). destruct e; reflexivity.
  - assert (He' : http_response (Eff.requests w) (normalize_url (normalize_url url)) = Raise e)
      by now rewrite normalize_url_fixed.
    rewrite (smithery_fetch_failed _ _ _ He'). rewrite normalize_url_fixed.
    destruct e; reflexivity.
Qed.

(** X27. [get_info] never writes.  For a URL of no known site it raises the
    [ConversionError] [No parser available for URL: ...] without a
    request; for a URL of a known site it is the [fetch] of that site, and
    its errors are not wrapped. *)
Theorem get_info_reads_only
        (output_dir : Fs.Path) (marketplace_path : option Fs.Path)
        (gemini_api_key : option str) (use_llm : bool) (w0 w1 : Eff.World)
        (self : Converter) (url : str) (w : Eff.World) :
  converter.__init__ output_dir marketplace_path gemini_api_key use_llm w0 = (w1, Ok self) ->
  Eff.fs (fst (get_info self url w)) = Eff.fs w /\
  (detect_source (normalize_url url) = UNKNOWN ->
   get_info self url w
   = (w, Raise (ConversionError (u "No parser available for URL: " ++ normalize_url url)))) /\
  (detect_source (normalize_url url) = FASTMCP ->
   get_info self url w = fastmcp.fetch (normalize_url url) w) /\
  (detect_source (normalize_url url) = SMITHERY ->
   get_info self url w = smithery.fetch url w).
Proof.
  intros Hinit. apply converter_init_fields in Hinit as (Hsrc & _ & _).
  unfold get_info. rewrite (get_source_standard self _ Hsrc).
  destruct (detect_source (normalize_url url)) eqn:E;
    cbn [base.fetch fastmcp.FastMCPSource smithery.SmitherySource].
  - split; [now rewrite fastmcp_fetch_world|].
    repeat split; try discriminate; auto.
  - rewrite <- smithery_fetch_unfold.
    split; [now rewrite smithery_fetch_world|].
    repeat split; try discriminate; auto.
  - split; [reflexivity|]. repeat split; try discriminate; auto.
Qed.

End ConverterFetch.

Section ConvertRun.
Context {db : UnicodeDB} {ip : Ext.Interp} {js : Ext.Json} {html : Ext.Html}
        {net : Ext.Network}.
Import Re models Ext url_parser converter.
Local Open Scope eff_scope.

(** Loading the catalog touches no other file. *)
Lemma load_config_frame (self : marketplace.Marketplace) (w w0 : Eff.World)
      (r : result MarketplaceConfig) (p : Fs.Path) :
  marketplace._load_config self w = (w0, r) ->
  p <> marketplace.config_path self ->
  Fs.read p (Fs.files (Eff.fs w0)) = Fs.read p (Fs.files (Eff.fs w)).
Proof.
  intros H Hp.
  assert (Hne : Fs.path_eqb p (marketplace.config_path self) = false).
  { destruct (Fs.path_eqb p _) eqn:E; [|reflexivity]. now apply path_eqb_eq in E. }
  unfold marketplace._load_config, Eff.bind, Eff.path_exists in H.
  destruct (negb (Fs.exists_file (Eff.fs w) (marketplace.config_path self))) eqn:Hex.
  - unfold marketplace.initialize_default in H. rewrite initialize_run in H. cbv zeta in H.
    apply negb_true_iff in Hex. rewrite Hex in H.
    unfold Eff.read_file, Eff.lift in H.
    destruct (Fs.read _ _) as [text|] in H.
    + destruct (json_load text) as [data|err]; injection H as <- _; cbn;
        now rewrite read_write_in_other, !files_mkdir.
    + injection H as <- _. cbn. now rewrite read_write_in_other, !files_mkdir.
  - cbn in H. unfold Eff.read_file, Eff.lift in H.
    destruct (Fs.read _ _) as [text|] in H.
    + destruct (json_load text) as [data|err]; now injection H as <- _.
    + now injection H as <- _.
Qed.

Hypothesis json_round_trip : forall j : json, json_load (json_dump j) = Ok j.
Hypothesis validate_dump :
  forall c : MarketplaceConfig, validate (MarketplaceConfig_model_dump c) = Ok c.

(** [convert] from the record on: the descriptor is written and the
    catalog lists the plugin. *)
Lemma convert_finishes (self : Converter) (output_dir : Fs.Path) (mp : Fs.Path)
      (mcp_info : MCPInfo) (w w' : Eff.World) (plugin_path : Fs.Path) :
  generator self = {| plugin_generator.output_dir := output_dir |} ->
  marketplace self = marketplace.__init__ mp ->
  (plugin_path <- plugin_generator.generate (generator self) mcp_info ;;
   marketplace.add_plugin (marketplace self) plugin_path mcp_info ;;;
   Eff.ret plugin_path) w = (w', Ok plugin_path) ->
  plugin_path = Fs.child output_dir (plugin_generator._sanitize_name (name mcp_info)) /\
  Fs.read (Fs.child (Fs.child plugin_path (u ".claude-plugin")) (u "plugin.json"))
          (Fs.files (Eff.fs w'))
    = Some (json_dump (PluginConfig_model_dump
                         (plugin_generator._create_plugin_config mcp_info
                            (plugin_generator._sanitize_name (name mcp_info))))) /\
  marketplace.get_plugin (marketplace self)
                         (plugin_generator._sanitize_name (name mcp_info)) w'
    = (w', Ok (Some (MarketplacePlugin_model_dump_all
                       (marketplace.plugin_entry (marketplace self) plugin_path mcp_info)))).
Proof.
  intros Hgen Hmk H. rewrite Hgen, Hmk in *. clear Hgen Hmk.
  set (market := marketplace.__init__ mp) in *.
  unfold Eff.bind in H. rewrite generate_run in H. cbv zeta in H.
  cbn [plugin_generator.output_dir] in H.
  set (plugin_name := plugin_generator._sanitize_name (name mcp_info)) in *.
  set (plugin_dir := Fs.child output_dir plugin_name) in *.
  set (pj := Fs.child (Fs.child plugin_dir (u ".claude-plugin")) (u "plugin.json")) in *.
  set (wg := {| Eff.requests := _; Eff.fs := _ |}) in H.
  unfold marketplace.add_plugin, Eff.bind in H.
  destruct (marketplace._load_config market wg) as [wl [c|err]] eqn:Hload; [|discriminate].
  rewrite save_config_run in H. cbn [Eff.ret] in H. injection H as <- <-.
  set (entry := marketplace.plugin_entry market plugin_dir mcp_info).
  set (c1 := marketplace.with_plugins c (marketplace.upsert entry (mc_plugins c))).
  assert (Hpj : pj <> marketplace.config_path market).
  { unfold pj, market, marketplace.__init__, Fs.child. cbn [marketplace.config_path].
    intros E. apply app_inj_tail in E as [_ E]. discriminate. }
  split; [reflexivity|]. split.
  - fold pj. unfold saved. cbn [Eff.fs Fs.write Fs.files].
    rewrite read_write_in_other, files_mkdir.
    + fold pj. rewrite (load_config_frame market wg wl (Ok c) pj Hload Hpj).
      unfold wg. cbn [Eff.fs Fs.write Fs.files]. apply read_write_in.
    + destruct (Fs.path_eqb pj _) eqn:E; [|reflexivity]. now apply path_eqb_eq in E.
  - pose proof (load_config_holds _ _ _ (saved_holds json_round_trip validate_dump market c1 wl))
      as Hl.
    unfold marketplace.get_plugin, Eff.bind. rewrite Hl. cbn [Eff.ret].
    replace plugin_name with (mp_name entry)
      by (apply path_name_child, sanitize_name_not_anchor).
    unfold c1. cbn [mc_plugins marketplace.with_plugins].
    now rewrite find_upsert_same.
Qed.

(** X28. When [convert] returns a path, it is the directory of the sanitized
    name of a record whose source is the normalized URL, of a known site;
    the descriptor of that record is in [.claude-plugin/plugin.json] below
    the path, and the catalog answers the entry of that record for the
    plugin's name.  The JSON codec is taken to round-trip. *)
Theorem convert_writes_the_plugin_and_lists_it
        (output_dir : Fs.Path) (marketplace_path : option Fs.Path)
        (gemini_api_key : option str) (use_llm : bool) (w0 w1 : Eff.World)
        (self : Converter) (url : str) (w w' : Eff.World) (plugin_path : Fs.Path) :
  converter.__init__ output_dir marketplace_path gemini_api_key use_llm w0 = (w1, Ok self) ->
  convert self url w = (w', Ok plugin_path) ->
  exists mcp_info : MCPInfo,
    source_url mcp_info = normalize_url url /\
    detect_source (source_url mcp_info) <> UNKNOWN /\
    plugin_path = Fs.child output_dir (plugin_generator._sanitize_name (name mcp_info)) /\
    Fs.read (Fs.child (Fs.child plugin_path (u ".claude-plugin")) (u "plugin.json"))
            (Fs.files (Eff.fs w'))
      = Some (json_dump (PluginConfig_model_dump
                           (plugin_generator._create_plugin_config mcp_info
                              (plugin_generator._sanitize_name (name mcp_info))))) /\
    marketplace.get_plugin (marketplace self)
                           (plugin_generator._sanitize_name (name mcp_info)) w'
      = (w', Ok (Some (MarketplacePlugin_model_dump_all
                         (marketplace.plugin_entry (marketplace self) plugin_path mcp_info)))).
Proof.
  intros Hinit Hconv.
  apply converter_init_fields in Hinit as (Hsrc & Hgen & Hmk).
  unfold convert in Hconv. rewrite (get_source_standard self _ Hsrc) in Hconv.
  assert (Hfetch : exists wf info0,
             source_url info0 = normalize_url url /\
             detect_source (normalize_url url) <> UNKNOWN /\
             ((mcp_info <-
                 match gemini_parser self with
                 | Some parser =>
                     if converter.use_llm self
                     then enhance parser self (normalize_url url) info0
                     else Eff.ret info0
                 | None => Eff.ret info0
                 end ;;
               plugin_path <- plugin_generator.generate (generator self) mcp_info ;;
               marketplace.add_plugin (marketplace self) plugin_path mcp_info ;;;
               Eff.ret plugin_path) wf = (w', Ok plugin_path))).
  { destruct (detect_source (normalize_url url)) eqn:E;
      cbn [is_unknown base.fetch fastmcp.FastMCPSource smithery.SmitherySource] in Hconv;
      [| |discriminate].
    - unfold Eff.bind at 1, Eff.try_except in Hconv.
      destruct (fastmcp.fetch (normalize_url url) w) as [wf [info0|e]] eqn:Hf;
        [|destruct e; discriminate].
      exists wf, info0. apply fastmcp_fetch_ok in Hf as (_ & _ & _ & _ & _ & _ & _ & _ & _ & _ & Hs).
      split; [exact Hs|]. split; [discriminate | exact Hconv].
    - unfold Eff.bind at 1, Eff.try_except in Hconv.
      destruct (smithery.fetch (normalize_url url) w) as [wf [info0|e]] eqn:Hf;
        [|destruct e; discriminate].
      exists wf, info0. apply smithery_fetch_ok in Hf as (_ & _ & _ & _ & _ & _ & _ & _ & _ & Hs).
      rewrite normalize_url_fixed in Hs.
      split; [exact Hs|]. split; [discriminate | exact Hconv]. }
  destruct Hfetch as (wf & info0 & Hs0 & Hd & Hrest).
  assert (Hllm : exists w2 mcp_info,
             match gemini_parser self with
             | Some parser =>
                 if converter.use_llm self
                 then enhance parser self (normalize_url url) info0
                 else Eff.ret info0
             | None => Eff.ret info0
             end wf = (w2, Ok mcp_info) /\
             source_url mcp_info = source_url info0).
  { destruct (gemini_parser self) as [parser|]; [destruct (converter.use_llm self)|].
    - destruct (enhance_run parser self (normalize_url url) info0 wf)
        as (w2 & e2 & sent & Hrun & _ & Hsame & _).
      exists w2, e2. split; [exact Hrun|]. symmetry. apply Hsame.
    - exists wf, info0. auto.
    - exists wf, info0. auto. }
  destruct Hllm as (w2 & mcp_info & Hllm & Hs).
  unfold Eff.bind at 1 in Hrest. rewrite Hllm in Hrest.
  exists mcp_info. rewrite Hs, Hs0.
  split; [reflexivity|]. split; [exact Hd|].
  destruct marketplace_path as [mp|];
    eapply convert_finishes; eassumption.
Qed.

End ConvertRun.

(** ** core/converter.py: the source of a record and the enhancement step *)

Section SourceOfRecord.
Context {db : UnicodeDB} {ip : Ext.Interp} {js : Ext.Json} {html : Ext.Html}
        {net : Ext.Network}.
Import Re models Ext url_parser converter.
Local Open Scope eff_scope.

(** X29. smithery.ai's [fetch] gives the same for a URL and for its normalized
    form.  The source URL of a record is the URL fetched (normalized, for
    smithery.ai), and [detect_source] gives it to the site of the source
    that fetched it. *)
Theorem fetched_record_names_its_source (url : str) (w : Eff.World) :
  smithery.fetch (normalize_url url) w = smithery.fetch url w /\
  (forall w' i, fastmcp.fetch url w = (w', Ok i) ->
     source_url i = url /\ detect_source (source_url i) = FASTMCP) /\
  (forall w' i, smithery.fetch url w = (w', Ok i) ->
     source_url i = normalize_url url /\ detect_source (source_url i) = SMITHERY).
Proof.
  split; [symmetry; apply smithery_fetch_unfold|]. split.
  - intros w' i H. apply fastmcp_fetch_ok in H as (_ & m & _ & Hm & _ & _ & _ & _ & _ & _ & Hs).
    rewrite Hs. split; [reflexivity|]. unfold detect_source. now rewrite Hm.
  - intros w' i H. apply smithery_fetch_ok in H as (_ & m & _ & Hm & _ & _ & _ & _ & _ & Hs).
    rewrite Hs. split; [reflexivity|]. unfold detect_source.
    destruct (re_match false FASTMCP_PATTERN (normalize_url url)) as [m1|] eqn:E.
    + destruct (patterns_exclusive _ _ _ E Hm).
    + now rewrite Hm.
Qed.

(** X30. The enhancement step of [convert] never raises and never writes.  It
    requests the page and then sends at most two prompts; the seven fields
    it does not own stay as they are, tools and install command stay when
    present, and when the page request fails the record comes back
    unchanged, with no prompt sent. *)
Theorem enhancement_never_fails_a_conversion
        (parser : gemini.GeminiParser) (self : Converter) (url : str)
        (mcp_info : MCPInfo) (w : Eff.World) :
  exists (w' : Eff.World) (enhanced : MCPInfo) (sent : list Request),
    enhance parser self url mcp_info w = (w', Ok enhanced) /\
    Eff.fs w' = Eff.fs w /\
    Eff.requests w' = Eff.requests w ++ HttpGet url :: sent /\
    length sent <= 2 /\
    same_other_fields mcp_info enhanced /\
    (tools mcp_info <> [] -> tools enhanced = tools mcp_info) /\
    (install_command mcp_info <> [] -> install_command enhanced = install_command mcp_info) /\
    (install_args mcp_info <> [] -> install_args enhanced = install_args mcp_info) /\
    (forall e, http_response (Eff.requests w) url = Raise e ->
               enhanced = mcp_info /\ sent = []).
Proof.
  destruct (enhance_run parser self url mcp_info w)
    as (w' & enhanced & sent & Hrun & Hfs & Hs & Ht & Hc & Ha & Hreq & Hlen).
  exists w', enhanced, sent.
  split; [exact Hrun|]. split; [exact Hfs|]. split; [exact Hreq|]. split; [exact Hlen|].
  split; [exact Hs|]. split; [exact Ht|]. split; [exact Hc|]. split; [exact Ha|].
  intros e He. revert Hrun.
  unfold enhance, _fetch_html, Eff.bind, Eff.try_except, Eff.http_get, Eff.ret.
  rewrite He. intros Hrun. injection Hrun as Hw <-. subst w'.
  split; [reflexivity|].
  cbn in Hreq. apply app_inv_head in Hreq. now injection Hreq as <-.
Qed.

End SourceOfRecord.

(** ** The theorems of this part at concrete inputs *)

(** The name of the page of the end-to-end scenario is the last segment of
    its URL. *)
Lemma extract_mcp_name_is_path_segment_witness :
  url_parser.extract_mcp_name (db := ascii_db) Demo.repomix_url = Some (u "repomix") /\
  exists before after,
    Demo.repomix_url = before ++ u "repomix" ++ after /\
    Py.ends_with (u "/") before = true.
Proof.
  split; [reflexivity|].
  destruct (extract_mcp_name_is_path_segment (db := ascii_db)
              Demo.repomix_url (u "repomix") eq_refl)
    as (_ & _ & before & after & H1 & H2 & _).
  exists before, after. auto.
Defined.

(** The alias of the slack page is rewritten to the page's URL. *)
Lemma normalized_alias_is_smithery_url_witness :
  exists server_name,
    url_parser.normalize_url (db := ascii_db) Demo.slack_alias
      = u "https://smithery.ai/server/" ++ server_name /\
    url_parser.extract_mcp_name (db := ascii_db)
      (url_parser.normalize_url (db := ascii_db) Demo.slack_alias) = Some server_name.
Proof.
  destruct (normalized_alias_is_smithery_url (db := ascii_db) Demo.slack_alias)
    as (n & H1 & _ & _ & _ & H2).
  - vm_compute. discriminate.
  - exists n. auto.
Defined.

(** The record of the page of the end-to-end scenario. *)
Lemma fetched_record_is_bounded_witness :
  exists (w' : Eff.World (js := Demo.json_files)) (i : models.MCPInfo),
    fastmcp.fetch (db := ascii_db) (ip := Demo.plain_interp) (html := Demo.flat_html)
                  (net := Demo.one_page)
                  Demo.repomix_url Demo.empty_world
      = (w', Ext.Ok i) /\
    (models.name i <> [] /\
     length (models.tools i) <= 20 /\ length (models.env_vars i) <= 10).
Proof.
  eexists _, _. split; [vm_compute; reflexivity|].
  apply (fetched_record_is_bounded (db := ascii_db) (ip := Demo.plain_interp)
           (html := Demo.flat_html) (net := Demo.one_page)
           Demo.repomix_url Demo.empty_world
           {| Eff.requests := [Ext.HttpGet Demo.repomix_url];
              Eff.fs := {| Fs.dirs := []; Fs.files := [] |} |}).
  left. vm_compute. reflexivity.
Defined.

(** The alias of the slack page, whose text reads [npx -y repomix-mcp]: a
    stdio record for [npx], named after the page. *)
Lemma smithery_record_connection_witness :
  exists (w' : Eff.World (js := Demo.json_files)) (i : models.MCPInfo)
         (server_name : str),
    smithery.fetch (db := ascii_db) (ip := Demo.plain_interp) (html := Demo.flat_html)
                   (net := Demo.one_page)
                   Demo.slack_alias Demo.empty_world
      = (w', Ext.Ok i) /\
    models.source_url i = Demo.slack_url /\
    url_parser.extract_mcp_name (db := ascii_db) (models.source_url i) = Some server_name /\
    models.install_command i = u "npx".
Proof.
  destruct (smithery_record_connection (db := ascii_db) (ip := Demo.plain_interp)
              (html := Demo.flat_html) (net := Demo.one_page)
              Demo.slack_alias Demo.empty_world
              {| Eff.requests := [Ext.HttpGet Demo.slack_url];
                 Eff.fs := {| Fs.dirs := []; Fs.files := [] |} |}
              {| models.name := u "slack"; models.description := [];
                 models.author := []; models.tools := [];
                 models.install_command := u "npx";
                 models.install_args := [u "-y"; u "repomix-mcp"];
                 models.connection_type := u "stdio"; models.http_url := None;
                 models.env_vars := []; models.homepage := None;
                 models.source_url := Demo.slack_url |})
    as (server_name & Hn & _).
  - vm_compute. reflexivity.
  - eexists _, _, server_name. split; [vm_compute; reflexivity|].
    split; [reflexivity|]. split; [exact Hn | reflexivity].
Defined.

(** The record of the page of the end-to-end scenario runs [npx -y]. *)
Lemma fastmcp_record_install_witness :
  exists (w' : Eff.World (js := Demo.json_files)) (i : models.MCPInfo),
    fastmcp.fetch (db := ascii_db) (ip := Demo.plain_interp) (html := Demo.flat_html)
                  (net := Demo.one_page)
                  Demo.repomix_url Demo.empty_world
      = (w', Ext.Ok i) /\
    models.install_command i = u "npx" /\
    (models.connection_type i = u "stdio" /\ models.http_url i = None \/
     models.connection_type i = u "http" /\
     exists found,
       models.http_url i = Some found /\
       Py.starts_with (u "http") found = true /\
       Py.contains (u "mcp") (Py.lower (db := ascii_db) found) = true).
Proof.
  eexists _, _. split; [vm_compute; reflexivity|]. split; [reflexivity|].
  apply (fastmcp_record_install (db := ascii_db) (ip := Demo.plain_interp)
           (html := Demo.flat_html) (net := Demo.one_page)
           Demo.repomix_url Demo.empty_world
           {| Eff.requests := [Ext.HttpGet Demo.repomix_url];
              Eff.fs := {| Fs.dirs := []; Fs.files := [] |} |}).
  vm_compute. reflexivity.
Defined.

(** An ASCII name with capitals, a space and an underscore. *)
Lemma sanitize_name_of_ascii_name_witness :
  plugin_generator._sanitize_name (db := ascii_db) (u "My Server_Name")
    = u "my-server-name" /\
  forall c,
    In c (plugin_generator._sanitize_name (db := ascii_db) (u "My Server_Name")) ->
    Py.ascii_lower_letter c || Py.ascii_digit c || (c =? chr "-")%N = true.
Proof.
  split; [reflexivity|].
  apply (sanitize_name_of_ascii_name (db := ascii_db) (u "My Server_Name")).
  reflexivity.
Defined.

(** A stdio record with two environment variables. *)
Lemma stdio_server_config_contents_witness :
  exists env : models.dict str,
    emitted_server_config (db := ascii_db) Demo.info_env (u "foo")
      = Some (models.JDict [(u "command", models.JStr (u "uvx"));
                            (u "args", models.JStrs [u "foo-mcp"]);
                            (u "env", models.JStrDict env)]) /\
    models.dict_get (u "FOO_TOKEN") env = Some (u "${FOO_TOKEN}").
Proof.
  destruct (stdio_server_config_contents (db := ascii_db) Demo.info_env (u "foo") eq_refl)
    as (command & args & _ & _ & Hc & Ha & _ & _ & He).
  destruct He as (env & H1 & H2 & _); [discriminate|].
  rewrite (Hc ltac:(discriminate)), (Ha ltac:(discriminate)) in H1.
  exists env. split; [exact H1|]. apply (H2 (u "FOO_TOKEN")). now left.
Defined.

(** [Foo] generated under [/market/plugins] on an empty disk: the plugin
    directory is new, so [/market/plugins] is there afterwards. *)
Lemma generate_writes_the_descriptor_witness :
  exists w' : Eff.World (js := Demo.json_files),
    plugin_generator.generate (db := ascii_db)
      {| plugin_generator.output_dir := [u "/"; u "market"; u "plugins"] |}
      Demo.info_a Demo.empty_world
      = (w', Ext.Ok Demo.foo_path) /\
    Fs.is_dir (Eff.fs w') [u "/"; u "market"; u "plugins"] = true /\
    Fs.read [u "/"; u "market"; u "plugins"; u "foo"; u ".claude-plugin"; u "plugin.json"]
            (Fs.files (Eff.fs w'))
      = Some (@Ext.json_dump Demo.json_files
                (models.PluginConfig_model_dump
                   (plugin_generator._create_plugin_config (db := ascii_db)
                      Demo.info_a (u "foo")))).
Proof.
  destruct (generate_writes_the_descriptor (db := ascii_db) (js := Demo.json_files)
              {| plugin_generator.output_dir := [u "/"; u "market"; u "plugins"] |}
              Demo.info_a Demo.empty_world
              (fst (plugin_generator.generate (db := ascii_db)
                      {| plugin_generator.output_dir := [u "/"; u "market"; u "plugins"] |}
                      Demo.info_a Demo.empty_world))
              Demo.foo_path)
    as (_ & _ & _ & _ & _ & Hparents & Hread & _).
  - vm_compute. reflexivity.
  - eexists. split; [vm_compute; reflexivity|]. split; [|exact Hread].
    apply Hparents; [reflexivity|]. right. right. now left.
Defined.

(** A second [initialize] with other names, after a first one has written
    the catalog: no file changes. *)
Lemma initialize_keeps_an_existing_catalog_witness :
  exists w' : Eff.World (js := Demo.json_files),
    marketplace.initialize Demo.market (u "other") (u "someone") (u "renamed")
      (fst (marketplace.initialize Demo.market (u "mine") (u "me") (u "my plugins")
              Demo.empty_world))
      = (w', Ext.Ok tt) /\
    Fs.files (Eff.fs w')
      = Fs.files (Eff.fs (fst (marketplace.initialize Demo.market (u "mine") (u "me")
                                 (u "my plugins") Demo.empty_world))).
Proof.
  destruct (initialize_keeps_an_existing_catalog (js := Demo.json_files)
              Demo.market (u "other") (u "someone") (u "renamed")
              (fst (marketplace.initialize Demo.market (u "mine") (u "me")
                      (u "my plugins") Demo.empty_world))
              eq_refl)
    as (w' & Hrun & _ & Hfiles & _).
  exists w'. auto.
Defined.

(** The plugin directory [/market/plugins/foo] is listed as [./plugins/foo]. *)
Lemma plugin_entry_source_is_relative_witness :
  models.mp_source (marketplace.plugin_entry Demo.market Demo.foo_path Demo.info_a)
    = u "./plugins/foo".
Proof.
  destruct (plugin_entry_source_is_relative Demo.market [u "plugins"; u "foo"] Demo.info_a)
    as [H _].
  - intros [H | [H | []]]; discriminate.
  - exact H.
Defined.

(** The default catalog saved on an empty disk. *)
Lemma saved_catalog_loads_back_witness :
  exists w' : Eff.World (js := Demo.json_files),
    marketplace._save_config Demo.market Demo.default_catalog Demo.empty_world
      = (w', Ext.Ok tt) /\
    marketplace._load_config Demo.market w' = (w', Ext.Ok Demo.default_catalog).
Proof.
  destruct (saved_catalog_loads_back (js := Demo.json_files)
              (fun j => eq_refl) config_round_trip
              Demo.market Demo.default_catalog Demo.empty_world)
    as (w' & Hs & Hl & _).
  exists w'. auto.
Defined.

(** Reading on an empty disk. *)
Lemma reading_a_missing_catalog_creates_it_witness :
  exists w' : Eff.World (js := Demo.json_files),
    marketplace.list_plugins Demo.market Demo.empty_world = (w', Ext.Ok []) /\
    marketplace.get_plugin Demo.market (u "foo") Demo.empty_world = (w', Ext.Ok None) /\
    holds Demo.market w' Demo.default_catalog.
Proof.
  destruct (reading_a_missing_catalog_creates_it (js := Demo.json_files)
              (fun j => eq_refl) config_round_trip
              Demo.market (u "foo") Demo.empty_world eq_refl)
    as (w' & Hl & Hg & Hh & _).
  exists w'. auto.
Defined.

(** [foo] added on an empty disk is what [get_plugin] answers for [foo]. *)
Lemma get_plugin_after_add_plugin_witness :
  exists w1 : Eff.World (js := Demo.json_files),
    marketplace.add_plugin Demo.market Demo.foo_path Demo.info_a Demo.empty_world
      = (w1, Ext.Ok tt) /\
    marketplace.get_plugin Demo.market (u "foo") w1
      = (w1, Ext.Ok (Some (models.MarketplacePlugin_model_dump_all
                             (marketplace.plugin_entry Demo.market Demo.foo_path
                                                       Demo.info_a)))).
Proof.
  destruct (get_plugin_after_add_plugin (js := Demo.json_files)
              (fun j => eq_refl) config_round_trip
              Demo.market Demo.empty_world
              (fst (marketplace._load_config Demo.market Demo.empty_world))
              Demo.default_catalog Demo.foo_path Demo.info_a eq_refl)
    as (w1 & Ha & Hg & _).
  exists w1. auto.
Defined.

(** [foo] added and then removed: the answer is true and [get_plugin] finds
    nothing. *)
Lemma get_plugin_after_remove_plugin_witness :
  exists w1 : Eff.World (js := Demo.json_files),
    marketplace.remove_plugin Demo.market (u "foo")
      (fst (marketplace.add_plugin Demo.market Demo.foo_path Demo.info_a Demo.empty_world))
      = (w1, Ext.Ok true) /\
    marketplace.get_plugin Demo.market (u "foo") w1 = (w1, Ext.Ok None).
Proof.
  destruct (get_plugin_after_remove_plugin (js := Demo.json_files)
              (fun j => eq_refl) config_round_trip
              Demo.market
              (fst (marketplace.add_plugin Demo.market Demo.foo_path Demo.info_a
                      Demo.empty_world))
              (fst (marketplace.add_plugin Demo.market Demo.foo_path Demo.info_a
                      Demo.empty_world))
              (marketplace.with_plugins Demo.default_catalog
                 [marketplace.plugin_entry Demo.market Demo.foo_path Demo.info_a])
              (u "foo"))
    as (w1 & removed & Hr & Hg & _).
  - vm_compute. reflexivity.
  - exists w1. split; [|exact Hg].
    rewrite Hr. f_equal.
    assert (E : snd (marketplace.remove_plugin Demo.market (u "foo")
                       (fst (marketplace.add_plugin Demo.market Demo.foo_path Demo.info_a
                               Demo.empty_world)))
                = Ext.Ok true) by (vm_compute; reflexivity).
    rewrite Hr in E. exact E.
Defined.

(** Without connection the conversion of the page of the end-to-end
    scenario fails with the text of the transport error. *)
Lemma convert_reports_a_failed_fetch_witness :
  converter.convert (db := ascii_db) Demo.offline_converter Demo.repomix_url Demo.empty_world
  = ({| Eff.requests := [Ext.HttpGet Demo.repomix_url];
        Eff.fs := {| Fs.dirs := []; Fs.files := [] |} |},
     Ext.Raise (Ext.ConversionError (u "Failed to fetch URL: connection refused"))).
Proof.
  exact (convert_reports_a_failed_fetch (db := ascii_db) (ip := Demo.plain_interp)
           (html := Demo.flat_html) (net := Demo.offline)
           [u "/"; u "market"; u "plugins"] None None false Demo.empty_world
           (fst (converter.__init__ (db := ascii_db) (ip := Demo.plain_interp)
                   (html := Demo.flat_html) (net := Demo.offline)
                   [u "/"; u "market"; u "plugins"] None None false Demo.empty_world))
           Demo.offline_converter Demo.repomix_url Demo.empty_world
           (Ext.HTTPError (u "connection refused"))
           eq_refl ltac:(vm_compute; discriminate) eq_refl).
Defined.

(** [get_info] for the page of the end-to-end scenario is the fetch of it. *)
Lemma get_info_reads_only_witness :
  Eff.fs (fst (converter.get_info (db := ascii_db) Demo.plain_converter Demo.repomix_url
                 Demo.empty_world))
    = Eff.fs Demo.empty_world /\
  converter.get_info (db := ascii_db) Demo.plain_converter Demo.repomix_url Demo.empty_world
    = fastmcp.fetch (db := ascii_db) (ip := Demo.plain_interp) (html := Demo.flat_html)
        (net := Demo.one_page) Demo.repomix_url Demo.empty_world.
Proof.
  destruct (get_info_reads_only (db := ascii_db) (ip := Demo.plain_interp)
              (html := Demo.flat_html) (net := Demo.one_page)
              [u "/"; u "market"; u "plugins"] None None false Demo.empty_world
              (fst (converter.__init__ (db := ascii_db) (ip := Demo.plain_interp)
                      (html := Demo.flat_html) (net := Demo.one_page)
                      [u "/"; u "market"; u "plugins"] None None false Demo.empty_world))
              Demo.plain_converter Demo.repomix_url Demo.empty_world eq_refl)
    as (Hfs & _ & Hfast & _).
  split; [exact Hfs|]. apply Hfast. vm_compute. reflexivity.
Defined.

(** The conversion of the page of the end-to-end scenario. *)
Lemma convert_writes_the_plugin_and_lists_it_witness :
  exists (w' : Eff.World (js := Demo.json_files)) (mcp_info : models.MCPInfo),
    converter.convert (db := ascii_db) Demo.plain_converter Demo.repomix_url Demo.empty_world
      = (w', Ext.Ok [u "/"; u "market"; u "plugins"; u "repomix"]) /\
    models.source_url mcp_info = Demo.repomix_url /\
    marketplace.get_plugin Demo.market
      (plugin_generator._sanitize_name (db := ascii_db) (models.name mcp_info)) w'
      = (w', Ext.Ok (Some (models.MarketplacePlugin_model_dump_all
                             (marketplace.plugin_entry Demo.market
                                [u "/"; u "market"; u "plugins"; u "repomix"] mcp_info)))).
Proof.
  destruct (convert_writes_the_plugin_and_lists_it (db := ascii_db)
              (ip := Demo.plain_interp) (js := Demo.json_files)
              (html := Demo.flat_html) (net := Demo.one_page)
              (fun j => eq_refl) config_round_trip
              [u "/"; u "market"; u "plugins"] None None false Demo.empty_world
              (fst (converter.__init__ (db := ascii_db) (ip := Demo.plain_interp)
                      (html := Demo.flat_html) (net := Demo.one_page)
                      [u "/"; u "market"; u "plugins"] None None false Demo.empty_world))
              Demo.plain_converter Demo.repomix_url Demo.empty_world
              (fst (converter.convert (db := ascii_db) Demo.plain_converter
                      Demo.repomix_url Demo.empty_world))
              [u "/"; u "market"; u "plugins"; u "repomix"]
              eq_refl)
    as (mcp_info & Hs & _ & _ & _ & Hg).
  - vm_compute. reflexivity.
  - exists (fst (converter.convert (db := ascii_db) Demo.plain_converter
                   Demo.repomix_url Demo.empty_world)), mcp_info.
    split; [vm_compute; reflexivity|]. split; [exact Hs | exact Hg].
Defined.

(** A fenced empty object. *)
Lemma unfence_removes_a_json_fence_witness :
  gemini.unfence (db := ascii_db) (u "```json" ++ [10%N] ++ u "{}" ++ [10%N] ++ u "```")
    = u "{}".
Proof.
  destruct (unfence_removes_a_json_fence (db := ascii_db) (u "{}")) as [H _].
  - intros [H | [H | []]]; discriminate.
  - exact H.
Defined.
